(** * The booking core of hotelbooking_django, embedded in Rocq

    The development follows [main/models.py], [main/forms.py],
    [main/views.py], [main/admin.py] and [main/middleware.py].  Tables are
    lists of rows in insertion order, a view is a
    function from the store to a new store and a response, and the clock
    ([timezone.localdate()], [timezone.now()]) and the signed-in user are
    arguments of the views.

    Conventions.
    - [datetime.date] is its proleptic Gregorian ordinal, so that
      [(check_out - check_in).days] is a subtraction in [Z].
    - [FloatField] columns are binary64 floats ([PrimFloat.float]), as
      Python's [float].
    - A [str] is a [string] whose characters are code points below 256.
    - Texts that the views only display or store (form errors, flash
      messages, [change_description]) are kept as the constructor naming the
      source text, with the figures interpolated in it.
    - Columns no view of the core reads ([size], [amenities], the photos,
      the timestamps of [BaseModel] other than the one reviews are ordered
      by) are left out of the rows.  The amenities text and the photo
      gallery are modelled on their own, beside the store.
    - A view is modelled from its own [dispatch] on; [RoleRequiredMiddleware]
      runs before the views and sees the user and the URL path only, and is
      modelled as a function of the two. *)

From Stdlib Require Import ZArith List Bool String Ascii Lia Floats.
From Stdlib Require Import Sorting.Sorted Sorting.Permutation.
Import ListNotations.
Open Scope Z_scope.

(** ** Python values *)

Definition date := Z.

(** [str.isspace] on code points below 256. *)
Definition isspace (c : ascii) : bool :=
  let n := Z.of_nat (nat_of_ascii c) in
  ((9 <=? n) && (n <=? 13)) || ((28 <=? n) && (n <=? 32))
  || (n =? 133) || (n =? 160).

Fixpoint lstrip (s : string) : string :=
  match s with
  | EmptyString => EmptyString
  | String c s' => if isspace c then lstrip s' else s
  end.

(** [rstrip] drops the trailing run of whitespace: a whitespace character is
    kept only when something remains after it. *)
Fixpoint rstrip (s : string) : string :=
  match s with
  | EmptyString => EmptyString
  | String c s' =>
      match rstrip s' with
      | EmptyString => if isspace c then EmptyString else String c EmptyString
      | t => String c t
      end
  end.

Definition strip (s : string) : string := rstrip (lstrip s).

(** [x or ''] for an optional string. *)
Definition or_empty (x : option string) : string :=
  match x with Some s => s | None => EmptyString end.

(** Truth value of a string: [not s] is [is_empty s]. *)
Definition is_empty (s : string) : bool :=
  match s with EmptyString => true | _ => false end.

(** ['\x00' in s], the test of the null-character validator that every
    [CharField] of a form carries. *)
Fixpoint has_null (s : string) : bool :=
  match s with
  | EmptyString => false
  | String c t => (Z.of_nat (nat_of_ascii c) =? 0) || has_null t
  end.

(** [float(n)] for an integer of at most 63 bits, which day counts are. *)
Definition float_of_int (n : Z) : float :=
  if n <? 0 then PrimFloat.opp (PrimFloat.of_uint63 (Uint63.of_Z (- n)))
  else PrimFloat.of_uint63 (Uint63.of_Z n).

(** [x * n] with [x] a float and [n] an int. *)
Definition float_mul_int (x : float) (n : Z) : float :=
  PrimFloat.mul x (float_of_int n).

(** Ascending order on floats, as [<=] compares them. *)
Definition float_le (x y : float) : Prop := PrimFloat.leb x y = true.

(** ** Generic list helpers standing for ORM primitives *)

Section Tables.
Context {A : Type}.

(** Stable insertion sort for [order_by]: [le a b] means that [a] may come
    before [b]. *)
Fixpoint insert_by (le : A -> A -> bool) (x : A) (l : list A) : list A :=
  match l with
  | [] => [x]
  | y :: l' => if le x y then x :: l else y :: insert_by le x l'
  end.

Fixpoint order_by (le : A -> A -> bool) (l : list A) : list A :=
  match l with
  | [] => []
  | x :: l' => insert_by le x (order_by le l')
  end.

(** [UPDATE ... WHERE pk = k]: every row with that key is replaced. *)
Definition save_row (key : A -> Z) (x : A) (l : list A) : list A :=
  map (fun y => if key y =? key x then x else y) l.
End Tables.

(** Next value of an [AutoField], read off the keys in the table.  The
    sequence of the database is not part of the store: where the row with
    the largest key has been deleted, the database hands out a larger key
    than this one. *)
Definition next_pk (pks : list Z) : Z := 1 + fold_right Z.max 0 pks.

Fixpoint distinct (l : list Z) : bool :=
  match l with
  | [] => true
  | x :: l' => negb (existsb (Z.eqb x) l') && distinct l'
  end.

Definition mem (x : Z) (l : list Z) : bool := existsb (Z.eqb x) l.

(** ** models.py *)

Inductive RoomType := STANDARD | DELUXE | SUITE.

Inductive BookingStatus := PENDING | CONFIRMED | CANCELLED.

Inductive UserRole := USER | STAFF | ADMIN.

Inductive ReviewStatus := REVIEW_PENDING | APPROVED | REJECTED.

Definition ReviewStatus_eqb (a b : ReviewStatus) : bool :=
  match a, b with
  | REVIEW_PENDING, REVIEW_PENDING | APPROVED, APPROVED | REJECTED, REJECTED => true
  | _, _ => false
  end.

Record User := mkUser {
  user_pk : Z;
  first_name : string;
  last_name : string;
  email : string;
  role : UserRole;
  is_superuser : bool
}.

Definition get_full_name (u : User) : string :=
  (first_name u ++ " " ++ last_name u)%string.

Definition is_admin (u : User) : bool :=
  match role u with ADMIN => true | _ => false end || is_superuser u.

Definition is_staff (u : User) : bool :=
  match role u with STAFF | ADMIN => true | USER => false end || is_superuser u.

Record Room := mkRoom {
  room_pk : Z;
  room_owner : Z;
  room_type : RoomType;
  price_per_night : float;
  address : string;
  room_is_active : bool;
  capacity : Z
}.

Record Booking := mkBooking {
  booking_pk : Z;
  booking_guest : Z;
  booking_room : Z;
  check_in_date : date;
  check_out_date : date;
  booking_status : BookingStatus;
  total_cost : float
}.

(** The four texts written to [BookingHistory.change_description]. *)
Inductive Description :=
| DescCreated      (* 'Бронирование создано пользователем.' *)
| DescCancelled    (* 'Бронирование отменено.' *)
| DescConfirmed    (* 'Бронирование подтверждено.' *)
| DescDatesChanged (old_cost new_cost : float).
    (* f'Даты бронирования изменены. Стоимость: {old_cost:.2f} ₽ → {total_cost:.2f} ₽' *)

(** [old_status] is blank ([None]) on the record written at creation. *)
Record BookingHistory := mkHistory {
  history_pk : Z;
  history_booking : Z;
  old_status : option BookingStatus;
  new_status : BookingStatus;
  changed_by : string;
  change_description : Description
}.

Record Review := mkReview {
  review_pk : Z;
  review_booking : Z;
  review_guest : Z;
  review_room : Z;
  rating : Z;
  review_text : string;
  review_status : ReviewStatus;
  moderated_by : option Z;
  moderation_comment : string;
  moderated_at : option Z;
  owner_reply : string;
  owner_reply_at : option Z;
  review_created_at : Z
}.

Record Store := mkStore {
  rooms : list Room;
  bookings : list Booking;
  histories : list BookingHistory;
  reviews : list Review
}.

Definition with_bookings (s : Store) (l : list Booking) : Store :=
  mkStore (rooms s) l (histories s) (reviews s).

Definition with_histories (s : Store) (l : list BookingHistory) : Store :=
  mkStore (rooms s) (bookings s) l (reviews s).

Definition with_reviews (s : Store) (l : list Review) : Store :=
  mkStore (rooms s) (bookings s) (histories s) l.

(** [status__in=[BookingStatus.CONFIRMED, BookingStatus.PENDING]] *)
Definition status_in_confirmed_pending (st : BookingStatus) : bool :=
  match st with CONFIRMED | PENDING => true | CANCELLED => false end.

(** The three-line filter shared by the availability query and both
    conflict scans: [check_in_date__lte=check_out, check_out_date__gte=check_in,
    status__in=[CONFIRMED, PENDING]]. *)
Definition blocks (check_in check_out : date) (b : Booking) : bool :=
  (check_in_date b <=? check_out) && (check_out_date b >=? check_in)
  && status_in_confirmed_pending (booking_status b).

Section Availability.
(** [address__iexact] compares upper-cased texts in the database; the
    database's [UPPER] is a parameter. *)
Variable upper : string -> string.

Definition iexact (column value : string) : bool :=
  String.eqb (upper column) (upper value).

(** [RoomManager.get_available_rooms] *)
Definition get_available_rooms (s : Store) (address_arg : option string)
    (check_in_date_arg check_out_date_arg : date) : list Room :=
  let address_normalized := strip (or_empty address_arg) in
  if is_empty address_normalized then []
  else
    let rooms_q :=
      filter (fun r => iexact (address r) address_normalized)
             (filter room_is_active (rooms s)) in
    let bookings_q :=
      filter (fun b => mem (booking_room b) (map room_pk rooms_q)
                       && blocks check_in_date_arg check_out_date_arg b)
             (bookings s) in
    let available_rooms :=
      filter (fun r => negb (mem (room_pk r) (map booking_room bookings_q)))
             rooms_q in
    order_by (fun a b => PrimFloat.leb (price_per_night a) (price_per_night b))
             available_rooms.
End Availability.

(** ** forms.py *)

Inductive FormError :=
| PastCheckIn          (* check_in_date: 'Дата заезда не может быть в прошлом.' *)
| CheckOutNotLater     (* check_out_date: 'Дата выезда должна быть позже даты заезда.' *)
| RoomAlreadyBooked    (* 'Эта комната уже забронирована на выбранные даты.' *)
| RatingOutOfRange     (* rating: MinValueValidator(1), MaxValueValidator(5) *)
| ReviewAlreadyExists  (* 'Отзыв для этого бронирования уже существует.' *)
| NullCharacters.      (* a text field: 'Null characters are not allowed.' *)

(** [BookingCreateForm]: [clean_check_in_date] runs first; when it raises,
    [check_in_date] is missing from [cleaned_data] and [clean] skips the
    comparison of the two dates.  [BookingUpdateForm] inherits both. *)
Definition BookingCreateForm_errors (today check_in check_out : date)
    : list FormError :=
  if check_in <? today then [PastCheckIn]
  else if check_in >=? check_out then [CheckOutNotLater]
  else [].

(** The form field of a [TextField(blank=True)]: a [CharField] that is not
    required.  It strips the value and runs the null-character validator on
    what is left; the stripped value is what the form hands on. *)
Definition text_field_errors (value : string) : list FormError :=
  if has_null (strip value) then [NullCharacters] else [].

(** [ReviewForm]: [review_text] is cleaned with the fields of the form; the
    validators of [rating] are those of the model and run afterwards, on the
    instance. *)
Definition ReviewForm_errors (rating_arg : Z) (review_text : string)
    : list FormError :=
  text_field_errors review_text
  ++ (if (1 <=? rating_arg) && (rating_arg <=? 5) then []
      else [RatingOutOfRange]).

(** [ReviewReplyForm] has the one field [owner_reply]. *)
Definition ReviewReplyForm_errors (owner_reply : string) : list FormError :=
  text_field_errors owner_reply.

(** [ReviewModerationForm]: [status] is one of the choices, which the type
    of the argument says; [moderation_comment] is a text field. *)
Definition ReviewModerationForm_errors (moderation_comment : string)
    : list FormError :=
  text_field_errors moderation_comment.

(** ** views.py *)

Inductive Flash :=
| OwnRoomBooking   (* 'Вы не можете забронировать свою собственную комнату.' *)
| NoConfirmRight   (* 'У вас нет прав для подтверждения этого бронирования.' *)
| NoReviewRight    (* 'У вас нет прав для оставить отзыв для этого бронирования.' *)
| UnknownAction.   (* 'Неизвестное действие.' *)

Inductive Response :=
| Http404                          (* get_object_or_404, get_object *)
| AccessDenied                     (* handle_no_permission *)
| RedirectError (m : Flash)        (* messages.error, then redirect *)
| FormInvalid (errs : list FormError)
| RenderPage                       (* a GET that only renders *)
| RedirectSuccess                  (* messages.success, then redirect *)
| ServerError                      (* an exception no view catches *)
| RedirectPlain.                   (* a redirect with no message *)

Inductive Method := GET | POST.

(** [UserRequiredMixin.test_func] for a signed-in user. *)
Definition UserRequired (u : User) : bool :=
  negb (is_admin u) && negb (is_staff u) && negb (is_superuser u).

(** [StaffRequiredMixin.test_func] for a signed-in user. *)
Definition StaffRequired (u : User) : bool := is_staff u.

(** [request.user.get_full_name() or request.user.email] *)
Definition display_name (u : User) : string :=
  if is_empty (get_full_name u) then email u else get_full_name u.

(** *** Row access *)

Definition get_room (s : Store) (pk : Z) : option Room :=
  find (fun r => room_pk r =? pk) (rooms s).

Definition get_booking (s : Store) (pk : Z) : option Booking :=
  find (fun b => booking_pk b =? pk) (bookings s).

Definition get_history (s : Store) (booking : Z) : option BookingHistory :=
  find (fun h => history_booking h =? booking) (histories s).

(** The [defaults] of [get_or_create] and [update_or_create]. *)
Record HistoryDefaults := mkDefaults {
  d_old_status : option BookingStatus;
  d_new_status : BookingStatus;
  d_changed_by : string;
  d_change_description : Description
}.

(** The row [BookingHistory.objects.create] writes. *)
Definition new_history (s : Store) (booking : Z) (d : HistoryDefaults)
    : BookingHistory :=
  mkHistory (next_pk (map history_pk (histories s))) booking (d_old_status d)
            (d_new_status d) (d_changed_by d) (d_change_description d).

(** [BookingHistory.objects.create]: the one-to-one column is unique, a second
    row for the same booking is an [IntegrityError] ([None]). *)
Definition BookingHistory_create (s : Store) (booking : Z)
    (d : HistoryDefaults) : option (Store * BookingHistory) :=
  if mem booking (map history_booking (histories s)) then None
  else
    let h := new_history s booking d in
    Some (with_histories s (histories s ++ [h]), h).

Definition save_history (s : Store) (h : BookingHistory) : Store :=
  with_histories s (save_row history_pk h (histories s)).

(** [BookingHistory.objects.get_or_create(booking=..., defaults=...)]: the
    row and whether it was created. *)
Definition BookingHistory_get_or_create (s : Store) (booking : Z)
    (d : HistoryDefaults) : option (Store * BookingHistory * bool) :=
  match get_history s booking with
  | Some h => Some (s, h, false)
  | None =>
      match BookingHistory_create s booking d with
      | Some (s', h) => Some (s', h, true)
      | None => None
      end
  end.

(** [BookingHistory.objects.update_or_create(booking=..., defaults=...)] *)
Definition BookingHistory_update_or_create (s : Store) (booking : Z)
    (d : HistoryDefaults) : option (Store * BookingHistory * bool) :=
  match get_history s booking with
  | Some h =>
      let h' := mkHistory (history_pk h) (history_booking h) (d_old_status d)
                  (d_new_status d) (d_changed_by d) (d_change_description d) in
      Some (save_history s h', h', false)
  | None =>
      match BookingHistory_create s booking d with
      | Some (s', h) => Some (s', h, true)
      | None => None
      end
  end.

Definition save_booking (s : Store) (b : Booking) : Store :=
  with_bookings s (save_row booking_pk b (bookings s)).

(** [Booking.objects.filter(room=..., check_in_date__lte=check_out,
    check_out_date__gte=check_in, status__in=[...])] *)
Definition conflicting_bookings (s : Store) (room : Z)
    (check_in check_out : date) : list Booking :=
  filter (fun b => (booking_room b =? room) && blocks check_in check_out b)
         (bookings s).

(** [queryset.exists()] *)
Definition exists_ {A : Type} (q : list A) : bool :=
  match q with [] => false | _ :: _ => true end.

(** *** BookingCreateView (POST) *)

Definition BookingCreateView (today : date) (user : User) (room_id : Z)
    (check_in check_out : date) (s : Store) : Store * Response :=
  (* dispatch *)
  match find (fun r => (room_pk r =? room_id) && room_is_active r) (rooms s) with
  | None => (s, Http404)
  | Some room =>
    if room_owner room =? user_pk user then (s, RedirectError OwnRoomBooking)
    else if negb (UserRequired user) then (s, AccessDenied)
    else
      match BookingCreateForm_errors today check_in check_out with
      | (_ :: _) as errs => (s, FormInvalid errs)
      | [] =>
        (* form_valid *)
        if exists_ (conflicting_bookings s (room_pk room) check_in check_out)
        then (s, FormInvalid [RoomAlreadyBooked])
        else
          let nights := check_out - check_in in
          let object :=
            mkBooking (next_pk (map booking_pk (bookings s)))
                      (user_pk user) (room_pk room) check_in check_out PENDING
                      (float_mul_int (price_per_night room) nights) in
          let s1 := with_bookings s (bookings s ++ [object]) in
          match BookingHistory_create s1 (booking_pk object)
                  (mkDefaults None PENDING "SYSTEM" DescCreated) with
          | None => (s1, ServerError)
          | Some (s2, _) => (s2, RedirectSuccess)
          end
      end
  end.

(** *** BookingDeleteView, the handler [delete]

    The one handler the class defines.  The generic view calls it for a
    request of method DELETE; [get_object] reads through [get_queryset],
    which keeps the bookings of the signed-in user. *)

Definition BookingDeleteView_delete (user : User) (pk : Z) (s : Store)
    : Store * Response :=
  if negb (UserRequired user) then (s, AccessDenied)
  else
    match find (fun b => (booking_pk b =? pk) && (booking_guest b =? user_pk user))
               (bookings s) with
    | None => (s, Http404)
    | Some booking =>
      let old_status_ := booking_status booking in
      let booking' :=
        mkBooking (booking_pk booking) (booking_guest booking)
                  (booking_room booking) (check_in_date booking)
                  (check_out_date booking) CANCELLED (total_cost booking) in
      let s1 := save_booking s booking' in
      match BookingHistory_update_or_create s1 (booking_pk booking')
              (mkDefaults (Some old_status_) CANCELLED (display_name user)
                          DescCancelled) with
      | None => (s1, ServerError)
      | Some (s2, _, _) => (s2, RedirectSuccess)
      end
    end.

(** *** BookingDeleteView, POST

    The class defines neither [post] nor [form_valid].  A POST of the
    confirmation form is served by those of the generic [DeleteView]: the
    object is read as above, the empty form is valid, and [form_valid] calls
    [self.object.delete()] and redirects to [success_url].  The row goes, and
    with it the rows that point to it through [on_delete=CASCADE]: its
    history and its review. *)

(** [booking.delete()] *)
Definition delete_booking (s : Store) (pk : Z) : Store :=
  mkStore (rooms s)
          (filter (fun b => negb (booking_pk b =? pk)) (bookings s))
          (filter (fun h => negb (history_booking h =? pk)) (histories s))
          (filter (fun r => negb (review_booking r =? pk)) (reviews s)).

Definition BookingDeleteView_post (user : User) (pk : Z) (s : Store)
    : Store * Response :=
  if negb (UserRequired user) then (s, AccessDenied)
  else
    match find (fun b => (booking_pk b =? pk) && (booking_guest b =? user_pk user))
               (bookings s) with
    | None => (s, Http404)
    | Some booking => (delete_booking s (booking_pk booking), RedirectPlain)
    end.

(** *** update_booking_view *)

Definition update_booking_view (today : date) (method : Method) (user : User)
    (pk : Z) (check_in check_out : date) (s : Store) : Store * Response :=
  match find (fun b => (booking_pk b =? pk) && (booking_guest b =? user_pk user))
             (bookings s) with
  | None => (s, Http404)
  | Some booking =>
    match method with
    | GET => (s, RenderPage)
    | POST =>
      match BookingCreateForm_errors today check_in check_out with
      | (_ :: _) as errs => (s, FormInvalid errs)
      | [] =>
        if exists_
             (filter (fun b => negb (booking_pk b =? booking_pk booking))
                (conflicting_bookings s (booking_room booking) check_in check_out))
        then (s, FormInvalid [RoomAlreadyBooked])
        else
          let nights := check_out - check_in in
          let old_cost := total_cost booking in
          match get_room s (booking_room booking) with
          | None => (s, ServerError)
          | Some room =>
            let booking' :=
              mkBooking (booking_pk booking) (booking_guest booking)
                        (booking_room booking) check_in check_out
                        (booking_status booking)
                        (float_mul_int (price_per_night room) nights) in
            let s1 := save_booking s booking' in
            let description := DescDatesChanged old_cost (total_cost booking') in
            match BookingHistory_get_or_create s1 (booking_pk booking')
                    (mkDefaults (Some (booking_status booking'))
                                (booking_status booking') (display_name user)
                                description) with
            | None => (s1, ServerError)
            | Some (s2, history, created) =>
              if created then (s2, RedirectSuccess)
              else
                (save_history s2
                   (mkHistory (history_pk history) (history_booking history)
                              (old_status history) (new_status history)
                              (display_name user) description),
                 RedirectSuccess)
            end
          end
      end
    end
  end.

(** *** confirm_booking_view *)

(** [booking.guest != request.user and booking.room.room_owner != request.user];
    the room is fetched only when the first test holds.  [None] stands for
    the [DoesNotExist] of a dangling room reference. *)
Definition may_not_confirm (s : Store) (user : User) (booking : Booking)
    : option bool :=
  if booking_guest booking =? user_pk user then Some false
  else
    match get_room s (booking_room booking) with
    | None => None
    | Some room => Some (negb (room_owner room =? user_pk user))
    end.

Definition confirm_booking_view (method : Method) (user : User) (pk : Z)
    (s : Store) : Store * Response :=
  match get_booking s pk with
  | None => (s, Http404)
  | Some booking =>
    match may_not_confirm s user booking with
    | None => (s, ServerError)
    | Some true => (s, RedirectError NoConfirmRight)
    | Some false =>
      match method with
      | GET => (s, RenderPage)
      | POST =>
        let old_status_ := booking_status booking in
        let booking' :=
          mkBooking (booking_pk booking) (booking_guest booking)
                    (booking_room booking) (check_in_date booking)
                    (check_out_date booking) CONFIRMED (total_cost booking) in
        let s1 := save_booking s booking' in
        match BookingHistory_get_or_create s1 (booking_pk booking')
                (mkDefaults (Some old_status_) CONFIRMED (display_name user)
                            DescConfirmed) with
        | None => (s1, ServerError)
        | Some (s2, history, created) =>
          if created then (s2, RedirectSuccess)
          else
            (save_history s2
               (mkHistory (history_pk history) (history_booking history)
                          (Some old_status_) CONFIRMED (display_name user)
                          DescConfirmed),
             RedirectSuccess)
        end
      end
    end
  end.

(** *** Reviews *)

(** [User.is_owner]: [self.rooms.exists()] *)
Definition is_owner (s : Store) (u : User) : bool :=
  existsb (fun r => room_owner r =? user_pk u) (rooms s).

(** [INSERT] into the review table: [booking], [guest] and [room] are
    one-to-one columns, each unique; [None] is the [IntegrityError]. *)
Definition Review_insert (s : Store) (r : Review) : option Store :=
  if mem (review_booking r) (map review_booking (reviews s))
     || mem (review_guest r) (map review_guest (reviews s))
     || mem (review_room r) (map review_room (reviews s))
  then None
  else Some (with_reviews s (reviews s ++ [r])).

(** [review.save()] of an existing row; [created_at] is an [auto_now] column
    and takes the time of the save. *)
Definition save_review (now : Z) (s : Store) (r : Review) : Store :=
  with_reviews s
    (save_row review_pk
       (mkReview (review_pk r) (review_booking r) (review_guest r)
                 (review_room r) (rating r) (review_text r) (review_status r)
                 (moderated_by r) (moderation_comment r) (moderated_at r)
                 (owner_reply r) (owner_reply_at r) now)
       (reviews s)).

(** ReviewCreateView (POST) *)
Definition ReviewCreateView (now : Z) (user : User) (booking_id : Z)
    (rating_arg : Z) (text : string) (s : Store) : Store * Response :=
  (* dispatch *)
  match find (fun b => (booking_pk b =? booking_id)
                       && (booking_guest b =? user_pk user)) (bookings s) with
  | None => (s, Http404)
  | Some booking =>
    match get_room s (booking_room booking) with
    | None => (s, ServerError)
    | Some room =>
      if room_owner room =? user_pk user then (s, RedirectError NoReviewRight)
      else if negb (UserRequired user) then (s, AccessDenied)
      else
        match ReviewForm_errors rating_arg text with
        | (_ :: _) as errs => (s, FormInvalid errs)
        | [] =>
          (* form_valid *)
          match Review_insert s
                  (mkReview (next_pk (map review_pk (reviews s)))
                            (booking_pk booking) (user_pk user) (room_pk room)
                            rating_arg (strip text) REVIEW_PENDING None ""
                            None "" None now) with
          | Some s' => (s', RedirectSuccess)
          | None => (s, FormInvalid [ReviewAlreadyExists])
          end
        end
    end
  end.

(** [order_by('-created_at')] *)
Definition newest_first (l : list Review) : list Review :=
  order_by (fun a b => review_created_at b <=? review_created_at a) l.

(** [ReviewListView.get_queryset].  [viewer] is [None] for an anonymous
    request; [room_param] is the [room] query parameter, already read as a
    key, [None] when it is absent or empty. *)
Definition ReviewListView_get_queryset (s : Store) (viewer : option User)
    (room_param : option Z) : list Review :=
  let qs := reviews s in
  let qs :=
    match room_param, viewer with
    | Some room_id, _ =>
        filter (fun r => (review_room r =? room_id)
                         && ReviewStatus_eqb (review_status r) APPROVED) qs
    | None, Some user =>
        if is_owner s user then
          filter (fun r =>
                    match get_room s (review_room r) with
                    | Some room => room_owner room =? user_pk user
                    | None => false
                    end) qs
        else filter (fun r => review_guest r =? user_pk user) qs
    | None, None =>
        filter (fun r => ReviewStatus_eqb (review_status r) APPROVED) qs
    end in
  newest_first qs.

(** The [reviews] entry of [RoomDetailView.get_context_data]. *)
Definition RoomDetailView_reviews (s : Store) (room : Z) : list Review :=
  newest_first
    (filter (fun r => (review_room r =? room)
                      && ReviewStatus_eqb (review_status r) APPROVED)
            (reviews s)).

Inductive Action := Approve | Reject | OtherAction.

(** ReviewQuickModerateView.get *)
Definition ReviewQuickModerateView (now : Z) (user : User) (pk : Z)
    (action : Action) (s : Store) : Store * Response :=
  if negb (StaffRequired user) then (s, AccessDenied)
  else
    match find (fun r => review_pk r =? pk) (reviews s) with
    | None => (s, Http404)
    | Some review =>
      let moderated st :=
        mkReview (review_pk review) (review_booking review)
                 (review_guest review) (review_room review) (rating review)
                 (review_text review) st (Some (user_pk user))
                 (moderation_comment review) (Some now) (owner_reply review)
                 (owner_reply_at review) (review_created_at review) in
      match action with
      | Approve => (save_review now s (moderated APPROVED), RedirectSuccess)
      | Reject => (save_review now s (moderated REJECTED), RedirectSuccess)
      | OtherAction => (s, RedirectError UnknownAction)
      end
    end.

(** ReviewModerateView (POST) *)
Definition ReviewModerateView (now : Z) (user : User) (pk : Z)
    (status : ReviewStatus) (comment : string) (s : Store) : Store * Response :=
  if negb (StaffRequired user) then (s, AccessDenied)
  else
    match find (fun r => review_pk r =? pk) (reviews s) with
    | None => (s, Http404)
    | Some review =>
      match ReviewModerationForm_errors comment with
      | (_ :: _) as errs => (s, FormInvalid errs)
      | [] =>
        (save_review now s
           (mkReview (review_pk review) (review_booking review)
                     (review_guest review) (review_room review)
                     (rating review) (review_text review) status
                     (Some (user_pk user)) (strip comment) (Some now)
                     (owner_reply review) (owner_reply_at review)
                     (review_created_at review)),
         RedirectSuccess)
      end
    end.

(** ReviewReplyView (POST) *)
Definition ReviewReplyView (now : Z) (user : User) (pk : Z) (reply : string)
    (s : Store) : Store * Response :=
  match find (fun r => (review_pk r =? pk)
                       && match get_room s (review_room r) with
                          | Some room => room_owner room =? user_pk user
                          | None => false
                          end) (reviews s) with
  | None => (s, Http404)
  | Some review =>
    match ReviewReplyForm_errors reply with
    | (_ :: _) as errs => (s, FormInvalid errs)
    | [] =>
      (save_review now s
         (mkReview (review_pk review) (review_booking review)
                   (review_guest review) (review_room review) (rating review)
                   (review_text review) (review_status review)
                   (moderated_by review) (moderation_comment review)
                   (moderated_at review) (strip reply) (Some now)
                   (review_created_at review)),
       RedirectSuccess)
    end
  end.

(** ReviewUpdateView (POST) *)
Definition ReviewUpdateView (now : Z) (user : User) (pk : Z) (rating_arg : Z)
    (text : string) (s : Store) : Store * Response :=
  if negb (UserRequired user) then (s, AccessDenied)
  else
    match find (fun r => (review_pk r =? pk) && (review_guest r =? user_pk user))
               (reviews s) with
    | None => (s, Http404)
    | Some review =>
      match ReviewForm_errors rating_arg text with
      | (_ :: _) as errs => (s, FormInvalid errs)
      | [] =>
        (save_review now s
           (mkReview (review_pk review) (review_booking review)
                     (review_guest review) (review_room review) rating_arg
                     (strip text)
                     (review_status review) (moderated_by review)
                     (moderation_comment review) (moderated_at review)
                     (owner_reply review) (owner_reply_at review)
                     (review_created_at review)),
         RedirectSuccess)
      end
    end.

(** ReviewDeleteView: the row is removed, by the handler [delete], which
    shows its message first, as by a POST of the confirmation form. *)
Definition ReviewDeleteView (user : User) (pk : Z) (s : Store)
    : Store * Response :=
  if negb (UserRequired user) then (s, AccessDenied)
  else
    match find (fun r => (review_pk r =? pk) && (review_guest r =? user_pk user))
               (reviews s) with
    | None => (s, Http404)
    | Some review =>
      (with_reviews s
         (filter (fun r => negb (review_pk r =? review_pk review)) (reviews s)),
       RedirectSuccess)
    end.

(** ** The operations of the core, named as the interface names them *)

Definition createBooking := BookingCreateView.
(** [cancel] is the status transition, which [BookingDeleteView] has in its
    handler [delete]; the POST of its confirmation form is a request of its
    own, [ReqDeleteBooking] below. *)
Definition cancelBooking := BookingDeleteView_delete.
Definition confirmBooking := confirm_booking_view POST.
Definition updateBookingDates (today : date) := update_booking_view today POST.
Definition createReview := ReviewCreateView.

(** [hasConflict(room, checkIn, checkOut, excludeBookingId?)]: the scan both
    booking views run, with the optional exclusion of the update view. *)
Definition hasConflict (s : Store) (room : Z) (check_in check_out : date)
    (exclude : option Z) : bool :=
  exists_
    (filter (fun b => match exclude with
                      | Some pk => negb (booking_pk b =? pk)
                      | None => true
                      end)
            (conflicting_bookings s room check_in check_out)).

(** A request to the core.  The clock readings travel with the request. *)
Inductive Request :=
| ReqCreateBooking (today : date) (user : User) (room_id : Z) (check_in check_out : date)
| ReqCancelBooking (user : User) (pk : Z)
| ReqConfirmBooking (user : User) (pk : Z)
| ReqUpdateBooking (today : date) (user : User) (pk : Z) (check_in check_out : date)
| ReqCreateReview (now : Z) (user : User) (booking_id rating_arg : Z) (text : string)
| ReqQuickModerate (now : Z) (user : User) (pk : Z) (action : Action)
| ReqModerate (now : Z) (user : User) (pk : Z) (status : ReviewStatus) (comment : string)
| ReqReply (now : Z) (user : User) (pk : Z) (reply : string)
| ReqUpdateReview (now : Z) (user : User) (pk rating_arg : Z) (text : string)
| ReqDeleteReview (user : User) (pk : Z)
| ReqDeleteBooking (user : User) (pk : Z).

Definition handle (q : Request) (s : Store) : Store * Response :=
  match q with
  | ReqCreateBooking today user room_id ci co => createBooking today user room_id ci co s
  | ReqCancelBooking user pk => cancelBooking user pk s
  | ReqConfirmBooking user pk => confirmBooking user pk s
  | ReqUpdateBooking today user pk ci co => updateBookingDates today user pk ci co s
  | ReqCreateReview now user b r t => createReview now user b r t s
  | ReqQuickModerate now user pk a => ReviewQuickModerateView now user pk a s
  | ReqModerate now user pk st c => ReviewModerateView now user pk st c s
  | ReqReply now user pk t => ReviewReplyView now user pk t s
  | ReqUpdateReview now user pk r t => ReviewUpdateView now user pk r t s
  | ReqDeleteReview user pk => ReviewDeleteView user pk s
  | ReqDeleteBooking user pk => BookingDeleteView_post user pk s
  end.

(** A store is reachable when requests lead to it from a store that holds
    rooms with distinct keys and no booking, history or review yet. *)
Definition initial (s : Store) : Prop :=
  distinct (map room_pk (rooms s)) = true
  /\ bookings s = [] /\ histories s = [] /\ reviews s = [].

Inductive reachable : Store -> Prop :=
| reach_init s : initial s -> reachable s
| reach_step s q : reachable s -> reachable (fst (handle q s)).

(** The constraints the database keeps: primary keys, the one-to-one columns
    of [BookingHistory] and [Review], and the foreign keys the views follow. *)
Definition wf_store (s : Store) : bool :=
  distinct (map room_pk (rooms s))
  && distinct (map booking_pk (bookings s))
  && distinct (map history_pk (histories s))
  && distinct (map history_booking (histories s))
  && forallb (fun h => mem (history_booking h) (map booking_pk (bookings s)))
             (histories s)
  && forallb (fun b => mem (booking_room b) (map room_pk (rooms s)))
             (bookings s)
  && distinct (map review_pk (reviews s))
  && distinct (map review_booking (reviews s))
  && distinct (map review_guest (reviews s))
  && distinct (map review_room (reviews s)).

(** The same constraints as propositions. *)
Record WF (s : Store) : Prop := mkWF {
  wf_rooms : NoDup (map room_pk (rooms s));
  wf_bookings : NoDup (map booking_pk (bookings s));
  wf_history_pk : NoDup (map history_pk (histories s));
  wf_history_booking : NoDup (map history_booking (histories s));
  wf_history_fk :
    forall h, In h (histories s) ->
              In (history_booking h) (map booking_pk (bookings s));
  wf_booking_fk :
    forall b, In b (bookings s) -> In (booking_room b) (map room_pk (rooms s));
  wf_review_pk : NoDup (map review_pk (reviews s));
  wf_review_booking : NoDup (map review_booking (reviews s));
  wf_review_guest : NoDup (map review_guest (reviews s));
  wf_review_room : NoDup (map review_room (reviews s))
}.

(** ** The overlap invariant *)

(** [B1.in <= B2.out AND B1.out >= B2.in] *)
Definition overlap (b1 b2 : Booking) : bool :=
  (check_in_date b1 <=? check_out_date b2)
  && (check_out_date b1 >=? check_in_date b2).

Definition active (b : Booking) : bool :=
  status_in_confirmed_pending (booking_status b).

Definition no_overlap_rows (l : list Booking) : Prop :=
  forall b1 b2,
    In b1 l -> In b2 l ->
    booking_pk b1 <> booking_pk b2 ->
    booking_room b1 = booking_room b2 ->
    active b1 = true -> active b2 = true ->
    overlap b1 b2 = false.

Definition no_overlap (s : Store) : Prop := no_overlap_rows (bookings s).

Definition no_overlapb (s : Store) : bool :=
  forallb (fun b1 =>
    forallb (fun b2 =>
      (booking_pk b1 =? booking_pk b2)
      || negb (booking_room b1 =? booking_room b2)
      || negb (active b1) || negb (active b2)
      || negb (overlap b1 b2)) (bookings s)) (bookings s).

(** A request revives a booking when it confirms one that is Cancelled. *)
Definition revives (s : Store) (q : Request) : bool :=
  match q with
  | ReqConfirmBooking _ pk =>
      match get_booking s pk with
      | Some b => negb (active b)
      | None => false
      end
  | _ => false
  end.

(** The stores reached without reviving a Cancelled booking. *)
Inductive reachable_no_revival : Store -> Prop :=
| reach0_init s : initial s -> reachable_no_revival s
| reach0_step s q :
    reachable_no_revival s -> revives s q = false ->
    reachable_no_revival (fst (handle q s)).

(** ** The availability rule in the words of the specification *)

(** A room is offered when it is active, its address equals the trimmed
    destination whatever the case, and no Pending or Confirmed booking of the
    room satisfies the overlap test [B.in <= checkOut AND B.out >= checkIn]. *)
Definition findAvailableRooms_offers (upper : string -> string) (s : Store)
    (destination : string) (checkIn checkOut : date) (r : Room) : bool :=
  room_is_active r
  && String.eqb (upper (address r)) (upper (strip destination))
  && negb (existsb
             (fun b => (booking_room b =? room_pk r)
                       && match booking_status b with
                          | PENDING | CONFIRMED => true
                          | CANCELLED => false
                          end
                       && (check_in_date b <=? checkOut)
                       && (check_out_date b >=? checkIn))
             (bookings s)).

Definition by_price (a b : Room) : Prop :=
  float_le (price_per_night a) (price_per_night b).

(** ** The grounds for rejecting a booking, in the words of the specification *)

Definition rejected (r : Response) : Prop := r <> RedirectSuccess.

(** The room is inactive or nonexistent. *)
Definition room_unavailable (s : Store) (room_id : Z) : Prop :=
  ~ exists r, In r (rooms s) /\ room_pk r = room_id /\ room_is_active r = true.

(** [checkIn >= checkOut] or [checkIn < today]. *)
Definition dates_invalid (today check_in check_out : date) : Prop :=
  check_in >= check_out \/ check_in < today.

(** The guest is the room's owner. *)
Definition self_booking (s : Store) (user : User) (room_id : Z) : Prop :=
  exists r, In r (rooms s) /\ room_pk r = room_id
            /\ room_owner r = user_pk user.

(** A Pending or Confirmed booking on the room overlaps the requested range. *)
Definition conflict_exists (s : Store) (room_id : Z) (check_in check_out : date)
    : Prop :=
  exists b, In b (bookings s) /\ booking_room b = room_id
            /\ (booking_status b = PENDING \/ booking_status b = CONFIRMED)
            /\ check_in_date b <= check_out /\ check_out_date b >= check_in.

(** The actor is the booking's guest or the owner of its room. *)
Definition guest_or_owner (s : Store) (user : User) (b : Booking) : Prop :=
  booking_guest b = user_pk user
  \/ exists room, get_room s (booking_room b) = Some room
                  /\ room_owner room = user_pk user.

(** The number of history records kept for a booking. *)
Definition history_count (s : Store) (booking : Z) : nat :=
  List.length (filter (fun h => history_booking h =? booking) (histories s)).

(** A booking after its status was set. *)
Definition confirmed (b : Booking) : Booking :=
  mkBooking (booking_pk b) (booking_guest b) (booking_room b)
            (check_in_date b) (check_out_date b) CONFIRMED (total_cost b).

Definition cancelled (b : Booking) : Booking :=
  mkBooking (booking_pk b) (booking_guest b) (booking_room b)
            (check_in_date b) (check_out_date b) CANCELLED (total_cost b).

(** The user owns the room with that key. *)
Definition owns_room (s : Store) (user : User) (room : Z) : Prop :=
  exists r, get_room s room = Some r /\ room_owner r = user_pk user.

(** Who is shown a review by [ReviewListView], branch by branch. *)
Definition listed (s : Store) (viewer : option User) (room_param : option Z)
    (r : Review) : Prop :=
  match room_param, viewer with
  | Some room_id, _ => review_room r = room_id /\ review_status r = APPROVED
  | None, Some user =>
      if is_owner s user then owns_room s user (review_room r)
      else review_guest r = user_pk user
  | None, None => review_status r = APPROVED
  end.

(** ** Sample data *)

(** [UPPER] of a database whose texts are ASCII. *)
Definition upper_char (c : ascii) : ascii :=
  let n := Z.of_nat (nat_of_ascii c) in
  if (97 <=? n) && (n <=? 122) then ascii_of_nat (Z.to_nat (n - 32)) else c.

Fixpoint ascii_upper (s : string) : string :=
  match s with
  | EmptyString => EmptyString
  | String c s' => String (upper_char c) (ascii_upper s')
  end.

Definition alice : User := mkUser 1 "Alice" "Ivanova" "alice@example.org" USER false.
Definition bob : User := mkUser 2 "Bob" "Petrov" "bob@example.org" USER false.
Definition carol : User := mkUser 3 "Carol" "Sidorova" "carol@example.org" USER false.
Definition sam : User := mkUser 4 "Sam" "Staff" "sam@example.org" STAFF false.

(** Two rooms of Alice in Moscow and one of Bob in Kazan. *)
Definition room1 : Room := mkRoom 1 1 STANDARD 1000%float "moscow" true 2.
Definition room2 : Room := mkRoom 2 1 DELUXE 2500%float "Moscow" true 3.
Definition room3 : Room := mkRoom 3 2 SUITE 700%float "Kazan" true 4.

Definition store0 : Store := mkStore [room2; room1; room3] [] [] [].

(** Bob books room 1, cancels, Carol books the same nights, and Bob confirms
    his cancelled booking. *)
Definition q_bob_books : Request := ReqCreateBooking 5 bob 1 10 12.
Definition q_bob_cancels : Request := ReqCancelBooking bob 1.
Definition q_carol_books : Request := ReqCreateBooking 5 carol 1 10 12.
Definition q_bob_confirms : Request := ReqConfirmBooking bob 1.

Definition store1 : Store := fst (handle q_bob_books store0).
Definition store2 : Store := fst (handle q_bob_cancels store1).
Definition store3 : Store := fst (handle q_carol_books store2).
Definition store4 : Store := fst (handle q_bob_confirms store3).

(** Bob reviews his stay in room 1, then books room 2. *)
Definition q_bob_reviews : Request := ReqCreateReview 100 bob 1 5 "Great".
Definition q_bob_books_room2 : Request := ReqCreateBooking 5 bob 2 20 22.

Definition store5 : Store := fst (handle q_bob_reviews store1).
Definition store6 : Store := fst (handle q_bob_books_room2 store5).



(** Carol books room 1 for the nights after Bob's booking. *)
Definition q_carol_books_later : Request := ReqCreateBooking 5 carol 1 14 16.

Definition store9 : Store := fst (handle q_carol_books_later store1).

(** ** What the booking views do to the store *)

(** The columns of a booking that no view rewrites. *)
Definition booking_ident (b : Booking) : Z * Z * Z :=
  (booking_pk b, booking_guest b, booking_room b).

(** A new booking and its history record were appended. *)
Definition created_effect (s s' : Store) : Prop :=
  exists room b h,
    In room (rooms s) /\ room_is_active room = true
    /\ room_owner room <> booking_guest b
    /\ booking_pk b = next_pk (map booking_pk (bookings s))
    /\ booking_room b = room_pk room
    /\ booking_status b = PENDING
    /\ check_in_date b < check_out_date b
    /\ total_cost b
       = float_mul_int (price_per_night room)
                       (check_out_date b - check_in_date b)
    /\ history_booking h = booking_pk b /\ new_status h = PENDING
    /\ s' = mkStore (rooms s) (bookings s ++ [b]) (histories s ++ [h])
                    (reviews s).

(** The history record of booking [b], now [b'], was rewritten in place or,
    there being none, created. *)
Definition history_written (s : Store) (b b' : Booking)
    (hs' : list BookingHistory) : Prop :=
  (exists h h',
     get_history s (booking_pk b) = Some h
     /\ history_pk h' = history_pk h
     /\ history_booking h' = history_booking h
     /\ (new_status h' = booking_status b'
         \/ (new_status h' = new_status h
             /\ booking_status b' = booking_status b))
     /\ hs' = save_row history_pk h' (histories s))
  \/ (get_history s (booking_pk b) = None
      /\ exists h',
           history_booking h' = booking_pk b
           /\ new_status h' = booking_status b'
           /\ hs' = histories s ++ [h']).

(** An existing booking was saved with a new status, or with new dates and
    the cost recomputed from the room's price. *)
Definition saved_effect (s s' : Store) : Prop :=
  exists b b' hs',
    In b (bookings s) /\ booking_ident b' = booking_ident b
    /\ ((check_in_date b' = check_in_date b
         /\ check_out_date b' = check_out_date b
         /\ total_cost b' = total_cost b)
        \/ (booking_status b' = booking_status b
            /\ check_in_date b' < check_out_date b'
            /\ exists room,
                 get_room s (booking_room b) = Some room
                 /\ total_cost b'
                    = float_mul_int (price_per_night room)
                        (check_out_date b' - check_in_date b')))
    /\ history_written s b b' hs'
    /\ s' = mkStore (rooms s) (save_row booking_pk b' (bookings s)) hs'
                    (reviews s).

Definition booking_effect (s s' : Store) : Prop :=
  s' = s \/ created_effect s s' \/ saved_effect s s'.

(** ** What the views keep true of the rows they write *)

Definition booking_ok (s : Store) (b : Booking) : Prop :=
  check_in_date b < check_out_date b
  /\ exists room,
       In room (rooms s) /\ room_pk room = booking_room b
       /\ room_owner room <> booking_guest b
       /\ total_cost b
          = float_mul_int (price_per_night room)
                          (check_out_date b - check_in_date b).

Definition history_agrees (s : Store) : Prop :=
  forall b, In b (bookings s) ->
    exists h, In h (histories s) /\ history_booking h = booking_pk b
              /\ new_status h = booking_status b.

Definition review_ok (s : Store) (r : Review) : Prop :=
  1 <= rating r <= 5
  /\ exists b, In b (bookings s) /\ booking_pk b = review_booking r
               /\ booking_guest b = review_guest r
               /\ booking_room b = review_room r.

(** Requests handled one after the other. *)
Definition run (qs : list Request) (s : Store) : Store :=
  fold_left (fun s q => fst (handle q s)) qs s.

(** ** admin.py: the actions of the change lists *)

(** [queryset.update(...)] on the queryset of an action, the rows whose key
    is among those ticked on the change list: they are rewritten in place;
    [save] is not called, so [auto_now] columns keep their value.  The
    message an action shows afterwards is not part of the model. *)
Definition update_selected {A : Type} (key : A -> Z) (selected : list Z)
    (f : A -> A) (l : list A) : list A :=
  map (fun x => if mem (key x) selected then f x else x) l.

Definition set_booking_status (st : BookingStatus) (b : Booking) : Booking :=
  mkBooking (booking_pk b) (booking_guest b) (booking_room b)
            (check_in_date b) (check_out_date b) st (total_cost b).

(** [BookingAdmin.confirm_bookings] *)
Definition BookingAdmin_confirm_bookings (selected : list Z) (s : Store)
    : Store :=
  with_bookings s
    (update_selected booking_pk selected
       (set_booking_status CONFIRMED) (bookings s)).

(** [BookingAdmin.cancel_bookings] *)
Definition BookingAdmin_cancel_bookings (selected : list Z) (s : Store)
    : Store :=
  with_bookings s
    (update_selected booking_pk selected
       (set_booking_status CANCELLED) (bookings s)).

(** [update(status=..., moderated_by=request.user)] on a review. *)
Definition set_review_moderation (st : ReviewStatus) (user : User)
    (r : Review) : Review :=
  mkReview (review_pk r) (review_booking r) (review_guest r) (review_room r)
           (rating r) (review_text r) st (Some (user_pk user))
           (moderation_comment r) (moderated_at r) (owner_reply r)
           (owner_reply_at r) (review_created_at r).

(** [ReviewAdmin.approve_reviews] *)
Definition ReviewAdmin_approve_reviews (user : User) (selected : list Z)
    (s : Store) : Store :=
  with_reviews s
    (update_selected review_pk selected
       (set_review_moderation APPROVED user) (reviews s)).

(** [ReviewAdmin.reject_reviews] *)
Definition ReviewAdmin_reject_reviews (user : User) (selected : list Z)
    (s : Store) : Store :=
  with_reviews s
    (update_selected review_pk selected
       (set_review_moderation REJECTED user) (reviews s)).

Definition set_room_is_active (v : bool) (r : Room) : Room :=
  mkRoom (room_pk r) (room_owner r) (room_type r) (price_per_night r)
         (address r) v (capacity r).

Definition with_rooms (s : Store) (l : list Room) : Store :=
  mkStore l (bookings s) (histories s) (reviews s).

(** [RoomAdmin.activate_rooms] *)
Definition RoomAdmin_activate_rooms (selected : list Z) (s : Store)
    : Store :=
  with_rooms s
    (update_selected room_pk selected (set_room_is_active true)
       (rooms s)).

(** [RoomAdmin.deactivate_rooms] *)
Definition RoomAdmin_deactivate_rooms (selected : list Z) (s : Store)
    : Store :=
  with_rooms s
    (update_selected room_pk selected (set_room_is_active false)
       (rooms s)).

Definition set_role (ro : UserRole) (u : User) : User :=
  mkUser (user_pk u) (first_name u) (last_name u) (email u) ro
         (is_superuser u).

(** [UserAdmin.make_staff], [make_admin] and [make_user], on the user table. *)
Definition UserAdmin_make_staff (selected : list Z) (users : list User)
    : list User :=
  update_selected user_pk selected (set_role STAFF) users.

Definition UserAdmin_make_admin (selected : list Z) (users : list User)
    : list User :=
  update_selected user_pk selected (set_role ADMIN) users.

Definition UserAdmin_make_user (selected : list Z) (users : list User)
    : list User :=
  update_selected user_pk selected (set_role USER) users.

(** [AdminRequiredMixin.test_func] for a signed-in user. *)
Definition AdminRequired (u : User) : bool := is_admin u.

(** ** forms.py: AvailabilitySearchForm *)

Inductive SearchField := F_destination | F_check_in | F_check_out | F_guests.

Inductive SearchError :=
| E_required        (* the field is empty *)
| E_max_length      (* max_length=150 *)
| E_null_character  (* the null-character validator of every CharField *)
| E_max_value       (* max_value=8 *)
| E_min_value       (* min_value=1 *)
| E_past            (* 'Дата заезда не может быть в прошлом.' *)
| E_not_later.      (* 'Дата выезда должна быть позже даты заезда.' *)

(** [cleaned_data['destination']]: the field strips the value. *)
Definition cleaned_destination (destination : string) : string :=
  strip destination.

(** The errors of the form for a submission whose dates and number of
    guests parse, field by field in the order of declaration and then those
    [clean] adds.  [clean] reads both dates before it adds an error, so both
    of its tests run. *)
Definition AvailabilitySearchForm_errors (today : date) (destination : string)
    (check_in check_out : date) (guests : Z)
    : list (SearchField * SearchError) :=
  let d := cleaned_destination destination in
  (if is_empty d then [(F_destination, E_required)]
   else (if 150 <? Z.of_nat (String.length d)
         then [(F_destination, E_max_length)] else [])
        ++ (if has_null d then [(F_destination, E_null_character)] else []))
  ++ (if 8 <? guests then [(F_guests, E_max_value)] else [])
  ++ (if guests <? 1 then [(F_guests, E_min_value)] else [])
  ++ (if check_in <? today then [(F_check_in, E_past)] else [])
  ++ (if check_in >=? check_out then [(F_check_out, E_not_later)] else []).

(** [nights] in [SearchResultsView.get_context_data], for the dates of a
    valid form. *)
Definition SearchResultsView_nights (check_in check_out : date) : Z :=
  if check_out >? check_in then check_out - check_in else 1.

(** ** The photo gallery of a room (views.py) *)

Definition MAX_GALLERY_PHOTOS : Z := 5.

Record RoomImage := mkRoomImage {
  image_pk : Z;
  image_room : Z;
  image : string
}.

(** The slice [l[:n]]; a negative [n] counts from the end. *)
Definition slice_to {A : Type} (n : Z) (l : list A) : list A :=
  if n <? 0 then firstn (List.length l - Z.to_nat (- n)) l
  else firstn (Z.to_nat n) l.

(** [for image_file in files: RoomImage.objects.create(room=room,
    image=image_file)] *)
Fixpoint create_images (room : Z) (files : list string)
    (images : list RoomImage) : list RoomImage :=
  match files with
  | [] => images
  | f :: fs =>
      create_images room fs
        (images ++ [mkRoomImage (next_pk (map image_pk images)) room f])
  end.

(** [bool(room.room_photo)]: a room has a main photo or none. *)
Definition has_photo (room_photo : option string) : bool :=
  match room_photo with Some _ => true | None => false end.

(** [room.images]: the reverse side of the foreign key. *)
Definition room_images (room : Z) (images : list RoomImage)
    : list RoomImage :=
  filter (fun i => image_room i =? room) images.

Definition RoomCreateView_save_gallery_images (room_photo : option string)
    (room : Z) (gallery_files : list string) (images : list RoomImage)
    : list RoomImage :=
  let has_main := has_photo room_photo in
  let slots_available :=
    MAX_GALLERY_PHOTOS - (if has_main then 1 else 0) in
  create_images room (slice_to slots_available gallery_files) images.

(** The gallery part of [update_room_view], after the room is saved. *)
Definition update_room_view_gallery (room_photo : option string)
    (room : Z) (gallery_files : list string) (images : list RoomImage)
    : list RoomImage :=
  let existing_count := Z.of_nat (List.length (room_images room images)) in
  let has_main := has_photo room_photo in
  let total_existing := existing_count + (if has_main then 1 else 0) in
  let slots_available := Z.max 0 (MAX_GALLERY_PHOTOS - total_existing) in
  create_images room (slice_to slots_available gallery_files) images.

(** [all_photos] and [extra_photos_count] of [RoomDetailView]. *)
Definition RoomDetailView_all_photos (room_photo : option string)
    (room : Z) (images : list RoomImage) : list string :=
  (match room_photo with Some url => [url] | None => [] end)
  ++ map image (room_images room images).

Definition RoomDetailView_extra_photos_count (room_photo : option string)
    (room : Z) (images : list RoomImage) : Z :=
  Z.max 0
    (Z.of_nat (List.length (RoomDetailView_all_photos room_photo room images))
     - 5).

(** ** Amenities of a room (forms.py, models.py) *)

(** The characters at which [str.splitlines] breaks a line. *)
Definition is_linebreak (c : ascii) : bool :=
  let n := Z.of_nat (nat_of_ascii c) in
  ((10 <=? n) && (n <=? 13)) || ((28 <=? n) && (n <=? 30)) || (n =? 133).

(** [str.splitlines]: a line ends at a line break, [\r\n] counts as one, and
    no empty line follows the last break. *)
Fixpoint splitlines (s : string) : list string :=
  match s with
  | EmptyString => []
  | String c t =>
      if is_linebreak c then
        EmptyString ::
        match t with
        | String c2 t2 =>
            if Ascii.eqb c "013" && Ascii.eqb c2 "010"
            then splitlines t2 else splitlines t
        | EmptyString => []
        end
      else
        match splitlines t with
        | [] => [String c EmptyString]
        | l :: ls => String c l :: ls
        end
  end.

(** The character class of the pattern [[\n,]+]. *)
Definition is_separator (c : ascii) : bool :=
  Ascii.eqb c "010" || Ascii.eqb c ",".

(** [re.split(r'[\n,]+', s)]: the pieces between the maximal runs of
    separators; [in_run] tells that the character before was a separator.
    The last piece is there also when it is empty. *)
Fixpoint re_split (in_run : bool) (s : string) : list string :=
  match s with
  | EmptyString => [EmptyString]
  | String c t =>
      if is_separator c then
        if in_run then re_split true t
        else EmptyString :: re_split true t
      else
        match re_split false t with
        | [] => [String c EmptyString]
        | p :: ps => String c p :: ps
        end
  end.

(** ['\n'.join(items)] *)
Fixpoint join_lines (items : list string) : string :=
  match items with
  | [] => EmptyString
  | [x] => x
  | x :: rest => (x ++ String "010" (join_lines rest))%string
  end.

(** [[item.strip() for item in parts if item.strip()]] *)
Definition stripped_items (parts : list string) : list string :=
  map strip (filter (fun item => negb (is_empty (strip item))) parts).

(** The list [normalized] of [RoomCreateForm.clean_amenities]. *)
Definition clean_amenities_normalized (amenities_raw : string)
    : list string :=
  stripped_items (re_split false amenities_raw).

Definition clean_amenities (amenities_raw : string) : string :=
  if is_empty amenities_raw then EmptyString
  else join_lines (clean_amenities_normalized amenities_raw).

(** [Room.amenities_list] *)
Definition amenities_list (amenities : string) : list string :=
  if is_empty amenities then []
  else stripped_items (splitlines amenities).

Fixpoint all_chars (P : ascii -> bool) (s : string) : bool :=
  match s with
  | EmptyString => true
  | String c t => P c && all_chars P t
  end.

Definition no_linebreak (s : string) : bool :=
  all_chars (fun c => negb (is_linebreak c)) s.

Definition no_separator (s : string) : bool :=
  all_chars (fun c => negb (is_separator c)) s.

(** ** middleware.py: RoleRequiredMiddleware *)

(** The patterns of the middleware are made of literal text, [\d+] and [$].
    Each starts with [^] and is used with [match], which anchors at the
    start of the path, so [^] itself is not a token. *)
Inductive Token :=
| Lit (s : string)
| Digits        (* \d+ *)
| EndOfString.  (* $ *)

Definition Pattern := list Token.

Fixpoint match_prefix (l s : string) : option string :=
  match l, s with
  | EmptyString, _ => Some s
  | String a l', String b s' =>
      if Ascii.eqb a b then match_prefix l' s' else None
  | String _ _, EmptyString => None
  end.

Definition is_digit (c : ascii) : bool :=
  let n := Z.of_nat (nat_of_ascii c) in (48 <=? n) && (n <=? 57).

(** One or more digits and then [k] on what follows, for every way of
    ending the run of digits. *)
Fixpoint digits_then (k : string -> bool) (s : string) : bool :=
  match s with
  | String c t => is_digit c && (digits_then k t || k t)
  | EmptyString => false
  end.

(** [pattern.match(s)]: the pattern matches a prefix of [s]; [$] holds at
    the end of the string and before a newline that ends it. *)
Fixpoint re_match (p : Pattern) (s : string) : bool :=
  match p with
  | [] => true
  | Lit l :: p' =>
      match match_prefix l s with
      | Some rest => re_match p' rest
      | None => false
      end
  | Digits :: p' => digits_then (re_match p') s
  | EndOfString :: p' =>
      (is_empty s || String.eqb s (String "010" EmptyString))
      && re_match p' s
  end.

Definition PUBLIC_URLS : list Pattern :=
  [ [Lit "/"; EndOfString];
    [Lit "/search/"];
    [Lit "/signup/"];
    [Lit "/login/"];
    [Lit "/room/"; Digits; Lit "/"; EndOfString];
    [Lit "/reviews/"; EndOfString];
    [Lit "/admin/"];
    [Lit "/media/"];
    [Lit "/static/"] ].

Definition ADMIN_REQUIRED_URLS : list Pattern :=
  [ [Lit "/admin/"] ].

Definition STAFF_REQUIRED_URLS : list Pattern :=
  [ [Lit "/moderation/"] ].

Definition USER_ONLY_URLS : list Pattern :=
  [ [Lit "/room/create/"];
    [Lit "/room/"; Digits; Lit "/update/"];
    [Lit "/room/"; Digits; Lit "/delete/"];
    [Lit "/booking/room/"; Digits; Lit "/create/"];
    [Lit "/booking/"; Digits; Lit "/update/"];
    [Lit "/booking/"; Digits; Lit "/delete/"];
    [Lit "/booking/"; Digits; Lit "/review/create/"];
    [Lit "/review/"; Digits; Lit "/update/"];
    [Lit "/review/"; Digits; Lit "/delete/"] ].

Definition LOGIN_REQUIRED_URLS : list Pattern :=
  [ [Lit "/profile/"];
    [Lit "/logout/"];
    [Lit "/edit_profile/"];
    [Lit "/booking/history/"];
    [Lit "/booking/"; Digits; Lit "/confirm/"];
    [Lit "/review/"; Digits; Lit "/reply/"];
    [Lit "/my-rooms/bookings/"] ].

Definition matches_any (path : string) (patterns : list Pattern) : bool :=
  existsb (fun pattern => re_match pattern path) patterns.

Inductive RequiredRole :=
| R_admin   (* 'Администратор' *)
| R_staff   (* 'Сотрудник или Администратор' *)
| R_user.   (* 'Пользователь' *)

Inductive Verdict :=
| GetResponse                                (* the request goes on *)
| RedirectToLogin (next : string)            (* login?next=path *)
| Status403 (required_role : RequiredRole).  (* _access_denied *)

(** [RoleRequiredMiddleware.__call__]; [user] is [None] for a visitor who
    is not signed in. *)
Definition RoleRequiredMiddleware (user : option User) (path : string)
    : Verdict :=
  if matches_any path PUBLIC_URLS then GetResponse
  else
    match user with
    | None =>
        if matches_any path LOGIN_REQUIRED_URLS
           || matches_any path ADMIN_REQUIRED_URLS
           || matches_any path STAFF_REQUIRED_URLS
           || matches_any path USER_ONLY_URLS
        then RedirectToLogin path
        else GetResponse
    | Some u =>
        if matches_any path ADMIN_REQUIRED_URLS && negb (is_admin u)
        then Status403 R_admin
        else if matches_any path STAFF_REQUIRED_URLS && negb (is_staff u)
        then Status403 R_staff
        else if matches_any path USER_ONLY_URLS
                && (is_admin u || is_staff u || is_superuser u)
        then Status403 R_user
        else GetResponse
    end.

(** What is left of a string after its leading digits. *)
Fixpoint skip_digits (s : string) : string :=
  match s with
  | String c t => if is_digit c then skip_digits t else s
  | EmptyString => EmptyString
  end.

Definition same_but_status (b b' : Booking) : Prop :=
  booking_ident b' = booking_ident b
  /\ check_in_date b' = check_in_date b
  /\ check_out_date b' = check_out_date b
  /\ total_cost b' = total_cost b.

(** * Properties *)

(** ** Lists and keys *)

Lemma mem_In (x : Z) (l : list Z) : mem x l = true <-> In x l.
Proof.
  unfold mem. rewrite existsb_exists. split.
  - intros [y [Hy E]]. apply Z.eqb_eq in E. now subst.
  - intros H. exists x. split; [assumption | apply Z.eqb_refl].
Qed.

Lemma mem_false (x : Z) (l : list Z) : mem x l = false <-> ~ In x l.
Proof.
  rewrite <- mem_In. destruct (mem x l); split; congruence.
Qed.

Lemma distinct_NoDup (l : list Z) : distinct l = true <-> NoDup l.
Proof.
  induction l as [|x l IH]; simpl.
  - split; [constructor | reflexivity].
  - rewrite andb_true_iff, negb_true_iff, IH. fold (mem x l).
    rewrite mem_false. split.
    + intros [H1 H2]. now constructor.
    + intros H. inversion H; subst. now split.
Qed.

Lemma distinct_app_one (l : list Z) (x : Z) :
  distinct l = true -> ~ In x l -> distinct (l ++ [x]) = true.
Proof.
  rewrite !distinct_NoDup. intros Hl Hx.
  apply NoDup_app; [assumption | repeat constructor; simpl; tauto | ].
  intros a Ha Hb. simpl in Hb. destruct Hb as [<-|[]]. contradiction.
Qed.

Lemma fold_max_ge (l : list Z) (x : Z) : In x l -> x <= fold_right Z.max 0 l.
Proof.
  induction l as [|y l IH]; simpl; [tauto|].
  intros [->|H]; [lia | specialize (IH H); lia].
Qed.

Lemma next_pk_fresh (l : list Z) : ~ In (next_pk l) l.
Proof.
  intros H. apply fold_max_ge in H. unfold next_pk in H. lia.
Qed.

Section TableFacts.
Context {A : Type}.
Variable key : A -> Z.

Lemma save_row_keys (x : A) (l : list A) :
  map key (save_row key x l) = map key l.
Proof.
  unfold save_row. rewrite map_map. apply map_ext_in.
  intros y _. destruct (key y =? key x) eqn:E; [|reflexivity].
  apply Z.eqb_eq in E. now symmetry.
Qed.

Lemma save_row_In (x y : A) (l : list A) :
  In y (save_row key x l) ->
  (y = x /\ In (key x) (map key l)) \/ (In y l /\ key y <> key x).
Proof.
  unfold save_row. rewrite in_map_iff. intros [z [E Hz]].
  destruct (key z =? key x) eqn:K.
  - left. apply Z.eqb_eq in K. split; [congruence|].
    rewrite <- K. now apply in_map.
  - right. apply Z.eqb_neq in K. subst. now split.
Qed.

(** With distinct keys, the row found under a key is the only one. *)
Lemma find_by_key_unique (l : list A) (k : Z) (x y : A) :
  distinct (map key l) = true ->
  In x l -> In y l -> key x = k -> key y = k -> x = y.
Proof.
  rewrite distinct_NoDup. induction l as [|z l IH]; simpl; [tauto|].
  intros ND Hx Hy Kx Ky. inversion ND as [|? ? Hz ND']; subst.
  destruct Hx as [->|Hx], Hy as [->|Hy]; auto.
  - exfalso. apply Hz. rewrite <- Ky. now apply in_map.
  - exfalso. apply Hz. rewrite Ky. now apply in_map.
Qed.

End TableFacts.

Section OrderBy.
Context {A : Type}.
Variable le : A -> A -> bool.

Lemma insert_by_perm (x : A) (l : list A) :
  Permutation (insert_by le x l) (x :: l).
Proof.
  induction l as [|y l IH]; simpl; [reflexivity|].
  destruct (le x y); [reflexivity|].
  rewrite IH. apply perm_swap.
Qed.

Lemma order_by_perm (l : list A) : Permutation (order_by le l) l.
Proof.
  induction l as [|x l IH]; simpl; [reflexivity|].
  rewrite insert_by_perm. now constructor.
Qed.

Lemma order_by_In (l : list A) (x : A) : In x (order_by le l) <-> In x l.
Proof.
  split; apply Permutation_in;
    [apply order_by_perm | symmetry; apply order_by_perm].
Qed.

(** The comparison is transitive, and total on the rows that satisfy [ok]. *)
Variable ok : A -> Prop.
Hypothesis le_trans :
  forall a b c, le a b = true -> le b c = true -> le a c = true.
Hypothesis le_total :
  forall a b, ok a -> ok b -> le a b = false -> le b a = true.

Lemma insert_by_sorted (x : A) (l : list A) :
  ok x -> Forall ok l ->
  StronglySorted (fun a b => le a b = true) l ->
  StronglySorted (fun a b => le a b = true) (insert_by le x l).
Proof.
  intros Hx. induction l as [|y l IH]; simpl; intros Hok Hs.
  - repeat constructor.
  - inversion Hs as [|? ? Hs' Hy]; subst.
    inversion Hok as [|? ? Oy Ol]; subst.
    destruct (le x y) eqn:E.
    + constructor; [assumption|]. constructor; [assumption|].
      eapply Forall_impl; [|exact Hy]. intros a Ha. eauto.
    + constructor; [auto|].
      rewrite Forall_forall. intros a Ha.
      apply (Permutation_in _ (insert_by_perm x l)) in Ha.
      destruct Ha as [<-|Ha]; [auto|].
      rewrite Forall_forall in Hy. auto.
Qed.

Lemma order_by_sorted (l : list A) :
  Forall ok l -> StronglySorted (fun a b => le a b = true) (order_by le l).
Proof.
  induction l as [|x l IH]; simpl; intros H; [constructor|].
  inversion H as [|? ? Hx Hl]; subst. apply insert_by_sorted; auto.
  rewrite Forall_forall. intros a Ha. apply (proj1 (order_by_In _ _)) in Ha.
  rewrite Forall_forall in Hl. auto.
Qed.
End OrderBy.

(** ** Order of binary64 floats *)

Ltac cmp_cases :=
  repeat match goal with
  | H : context [PosDef.Pos.compare_cont Eq ?a ?b] |- _ =>
      change (PosDef.Pos.compare_cont Eq a b) with (Pos.compare a b) in H
  | |- context [PosDef.Pos.compare_cont Eq ?a ?b] =>
      change (PosDef.Pos.compare_cont Eq a b) with (Pos.compare a b)
  end;
  repeat match goal with
  | H : context [Z.compare ?a ?b] |- _ =>
      destruct (Z.compare_spec a b); simpl in H; try discriminate H
  | |- context [Z.compare ?a ?b] => destruct (Z.compare_spec a b); simpl
  | H : context [Pos.compare ?a ?b] |- _ =>
      destruct (Pos.compare_spec a b); simpl in H; try discriminate H
  | |- context [Pos.compare ?a ?b] => destruct (Pos.compare_spec a b); simpl
  end; subst; try reflexivity; try discriminate; try lia.

Lemma SFleb_trans (x y z : spec_float) :
  SFleb x y = true -> SFleb y z = true -> SFleb x z = true.
Proof.
  unfold SFleb.
  destruct x as [sx|sx| |sx mx ex], y as [sy|sy| |sy my ey],
           z as [sz|sz| |sz mz ez];
    simpl; try discriminate; try reflexivity;
    repeat match goal with s : bool |- _ => destruct s end;
    simpl; try discriminate; try reflexivity; intros H1 H2; cmp_cases.
Qed.

Lemma SFleb_total (x y : spec_float) :
  x <> S754_nan -> y <> S754_nan -> SFleb x y = false -> SFleb y x = true.
Proof.
  unfold SFleb.
  destruct x as [sx|sx| |sx mx ex], y as [sy|sy| |sy my ey];
    simpl; try congruence;
    repeat match goal with s : bool |- _ => destruct s end;
    simpl; try discriminate; try reflexivity; intros _ _ H1; cmp_cases.
Qed.

Lemma not_nan_SF (x : float) :
  PrimFloat.is_nan x = false -> Prim2SF x <> S754_nan.
Proof.
  unfold PrimFloat.is_nan. rewrite eqb_spec. intros H E.
  rewrite E in H. discriminate H.
Qed.

Lemma float_leb_trans (x y z : float) :
  PrimFloat.leb x y = true -> PrimFloat.leb y z = true ->
  PrimFloat.leb x z = true.
Proof. rewrite !leb_spec. apply SFleb_trans. Qed.

Lemma float_leb_total (x y : float) :
  PrimFloat.is_nan x = false -> PrimFloat.is_nan y = false ->
  PrimFloat.leb x y = false -> PrimFloat.leb y x = true.
Proof.
  rewrite !leb_spec. intros. apply SFleb_total; auto using not_nan_SF.
Qed.

(** ** Availability *)

Lemma blocks_spec (ci co : date) (b : Booking) :
  blocks ci co b
  = (match booking_status b with
     | PENDING | CONFIRMED => true
     | CANCELLED => false
     end
     && (check_in_date b <=? co) && (check_out_date b >=? ci))%bool.
Proof.
  unfold blocks, status_in_confirmed_pending.
  destruct (booking_status b), (check_in_date b <=? co),
    (check_out_date b >=? ci); reflexivity.
Qed.

Lemma filter_filter {A : Type} (f g : A -> bool) (l : list A) :
  filter f (filter g l) = filter (fun x => g x && f x) l.
Proof.
  induction l as [|x l IH]; simpl; [reflexivity|].
  destruct (g x); simpl; [destruct (f x)|]; now rewrite IH.
Qed.

Section AvailabilityFacts.
Variable upper : string -> string.

(** The rooms the query keeps, before ordering. *)
Lemma available_rooms_filter (s : Store) (dest : string) (ci co : date) :
  let rooms_q :=
    filter (fun r => iexact upper (address r) (strip dest))
           (filter room_is_active (rooms s)) in
  let bookings_q :=
    filter (fun b => mem (booking_room b) (map room_pk rooms_q)
                     && blocks ci co b) (bookings s) in
  filter (fun r => negb (mem (room_pk r) (map booking_room bookings_q))) rooms_q
  = filter (findAvailableRooms_offers upper s dest ci co) (rooms s).
Proof.
  intros rooms_q bookings_q.
  unfold rooms_q. rewrite !filter_filter.
  apply filter_ext_in. intros r Hr.
  unfold findAvailableRooms_offers, iexact.
  destruct (room_is_active r) eqn:Ea; simpl; [|reflexivity].
  destruct (String.eqb (upper (address r)) (upper (strip dest))) eqn:Ei;
    simpl; [|reflexivity].
  assert (Hq : In r rooms_q).
  { unfold rooms_q. rewrite !filter_In. unfold iexact. auto. }
  f_equal.
  destruct (existsb _ (bookings s)) eqn:Ex.
  - apply existsb_exists in Ex. destruct Ex as [b [Hb Eb]].
    apply mem_In. apply in_map_iff. exists b.
    rewrite !andb_true_iff in Eb. destruct Eb as [[[E1 E2] E3] E4].
    apply Z.eqb_eq in E1. split; [assumption|].
    unfold bookings_q. rewrite filter_In. split; [assumption|].
    rewrite blocks_spec, E2, E3, E4, E1. simpl.
    rewrite andb_true_r. apply mem_In. now apply in_map.
  - apply mem_false. intros Hin. apply in_map_iff in Hin.
    destruct Hin as [b [Eb Hb]]. unfold bookings_q in Hb.
    rewrite filter_In, andb_true_iff, blocks_spec in Hb.
    destruct Hb as [Hb [_ Bl]].
    assert (Hc : existsb
      (fun b => (booking_room b =? room_pk r)
                && match booking_status b with
                   | PENDING | CONFIRMED => true
                   | CANCELLED => false
                   end
                && (check_in_date b <=? co) && (check_out_date b >=? ci))
      (bookings s) = true).
    { apply existsb_exists. exists b. split; [assumption|].
      rewrite Eb, Z.eqb_refl. simpl. exact Bl. }
    rewrite Hc in Ex. discriminate Ex.
Qed.
End AvailabilityFacts.

(** C2. [get_available_rooms] returns the empty list when the trimmed
    destination is empty; otherwise it returns exactly the rooms the
    specification offers (same rows, same multiplicities), and the result is
    in ascending order of [price_per_night] (the order being that of floats,
    no price may be a NaN). *)
Theorem get_available_rooms_exact (upper : string -> string) (s : Store)
    (destination : option string) (check_in check_out : date) :
  let trimmed := strip (or_empty destination) in
  let result := get_available_rooms upper s destination check_in check_out in
  (trimmed = EmptyString -> result = [])
  /\ (trimmed <> EmptyString ->
      Permutation result
        (filter (findAvailableRooms_offers upper s (or_empty destination)
                   check_in check_out) (rooms s)))
  /\ (Forall (fun r => PrimFloat.is_nan (price_per_night r) = false) (rooms s) ->
      StronglySorted by_price result).
Proof.
  intros trimmed result. unfold result, get_available_rooms. fold trimmed.
  split; [|split].
  - intros E. now rewrite E.
  - intros NE. destruct trimmed eqn:T; [congruence|]. simpl.
    rewrite order_by_perm. subst trimmed.
    rewrite <- T. rewrite available_rooms_filter. reflexivity.
  - intros Hok. destruct (is_empty trimmed); [constructor|].
    apply (order_by_sorted
             (fun a b => PrimFloat.leb (price_per_night a) (price_per_night b))
             (fun r => PrimFloat.is_nan (price_per_night r) = false)).
    + intros a b c. apply float_leb_trans.
    + intros a b. apply float_leb_total.
    + rewrite Forall_forall in *. intros r Hr.
      rewrite !filter_In in Hr. apply Hok. tauto.
Qed.

(** On the sample store a search for [" MOSCOW "] finds the two Moscow rooms,
    the cheaper first. *)
Lemma get_available_rooms_exact_witness :
  get_available_rooms ascii_upper store0 (Some " MOSCOW "%string) 10 12 = [room1; room2]
  /\ Permutation (get_available_rooms ascii_upper store0 (Some " MOSCOW "%string) 10 12)
       (filter (findAvailableRooms_offers ascii_upper store0 " MOSCOW "%string 10 12)
               (rooms store0))
  /\ StronglySorted by_price
       (get_available_rooms ascii_upper store0 (Some " MOSCOW "%string) 10 12).
Proof.
  split; [reflexivity|].
  pose proof (get_available_rooms_exact ascii_upper store0 (Some " MOSCOW "%string) 10 12)
    as [_ [Hp Hs]].
  split.
  - apply Hp. discriminate.
  - apply Hs. repeat constructor.
Defined.

(** ** The database constraints are kept by every request *)

Lemma wf_store_WF (s : Store) : wf_store s = true <-> WF s.
Proof.
  unfold wf_store. rewrite !andb_true_iff, !distinct_NoDup, !forallb_forall.
  split.
  - intros [[[[[[[[[H1 H2] H3] H4] H5] H6] H7] H8] H9] H10].
    constructor; auto.
    + intros h Hh. apply mem_In. auto.
    + intros b Hb. apply mem_In. auto.
  - intros [H1 H2 H3 H4 H5 H6 H7 H8 H9 H10].
    repeat split; auto.
    + intros h Hh. apply mem_In. auto.
    + intros b Hb. apply mem_In. auto.
Qed.

Lemma map_save_row_same {A B : Type} (key : A -> Z) (f : A -> B)
    (x r : A) (l : list A) :
  NoDup (map key l) -> In r l -> key x = key r -> f x = f r ->
  map f (save_row key x l) = map f l.
Proof.
  intros ND Hr K F. unfold save_row. rewrite map_map.
  apply map_ext_in. intros y Hy.
  destruct (key y =? key x) eqn:E; [|reflexivity].
  apply Z.eqb_eq in E. rewrite F. f_equal.
  apply (find_by_key_unique key l (key x)); auto.
  now apply distinct_NoDup.
Qed.

Lemma NoDup_app_one (l : list Z) (x : Z) :
  NoDup l -> ~ In x l -> NoDup (l ++ [x]).
Proof.
  intros H1 H2. apply distinct_NoDup. apply distinct_app_one; auto.
  now apply distinct_NoDup.
Qed.

Lemma NoDup_map_filter {A : Type} (f : A -> Z) (p : A -> bool) (l : list A) :
  NoDup (map f l) -> NoDup (map f (filter p l)).
Proof.
  induction l as [|x l IH]; simpl; intros H; [constructor|].
  inversion H as [|? ? Hx Hl]; subst.
  destruct (p x); simpl; auto.
  constructor; auto. intros Hin. apply Hx.
  apply in_map_iff in Hin. destruct Hin as [y [E Hy]].
  apply filter_In in Hy. rewrite <- E. apply in_map. tauto.
Qed.

Lemma WF_save_booking (s : Store) (b b' : Booking) :
  WF s -> In b (bookings s) ->
  booking_pk b' = booking_pk b -> booking_room b' = booking_room b ->
  WF (save_booking s b').
Proof.
  intros [H1 H2 H3 H4 H5 H6 H7 H8 H9 H10] Hb K R.
  constructor; simpl; auto.
  - now rewrite save_row_keys.
  - rewrite save_row_keys. auto.
  - intros x Hx. apply save_row_In in Hx.
    destruct Hx as [[-> _]|[Hx _]]; [rewrite R|]; auto.
Qed.

Lemma WF_add_booking (s : Store) (b : Booking) :
  WF s -> booking_pk b = next_pk (map booking_pk (bookings s)) ->
  In (booking_room b) (map room_pk (rooms s)) ->
  WF (with_bookings s (bookings s ++ [b])).
Proof.
  intros [H1 H2 H3 H4 H5 H6 H7 H8 H9 H10] K R.
  constructor; simpl; auto.
  - rewrite map_app. simpl. apply NoDup_app_one; auto.
    rewrite K. apply next_pk_fresh.
  - intros h Hh. rewrite map_app. apply in_or_app. auto.
  - intros x Hx. apply in_app_or in Hx. destruct Hx as [Hx|[<-|[]]]; auto.
Qed.

Lemma WF_history_create (s s' : Store) (booking : Z) (d : HistoryDefaults)
    (h : BookingHistory) :
  WF s -> In booking (map booking_pk (bookings s)) ->
  BookingHistory_create s booking d = Some (s', h) -> WF s'.
Proof.
  intros [H1 H2 H3 H4 H5 H6 H7 H8 H9 H10] Hb. unfold BookingHistory_create.
  destruct (mem booking (map history_booking (histories s))) eqn:M;
    [discriminate|].
  intros E. injection E as <- <-. apply mem_false in M.
  constructor; simpl; auto.
  - rewrite map_app. simpl. apply NoDup_app_one; auto. apply next_pk_fresh.
  - rewrite map_app. simpl. apply NoDup_app_one; auto.
  - intros h Hh. apply in_app_or in Hh. destruct Hh as [Hh|[<-|[]]]; auto.
Qed.

Lemma WF_save_history (s : Store) (h h' : BookingHistory) :
  WF s -> In h (histories s) ->
  history_pk h' = history_pk h -> history_booking h' = history_booking h ->
  WF (save_history s h').
Proof.
  intros [H1 H2 H3 H4 H5 H6 H7 H8 H9 H10] Hh K B.
  constructor; simpl; auto.
  - now rewrite save_row_keys.
  - rewrite (map_save_row_same history_pk history_booking h' h); auto.
  - intros x Hx. apply save_row_In in Hx.
    destruct Hx as [[-> _]|[Hx _]]; [rewrite B|]; auto.
Qed.

Lemma WF_review_insert (s s' : Store) (r : Review) :
  WF s -> review_pk r = next_pk (map review_pk (reviews s)) ->
  Review_insert s r = Some s' -> WF s'.
Proof.
  intros [H1 H2 H3 H4 H5 H6 H7 H8 H9 H10] K. unfold Review_insert.
  destruct (mem (review_booking r) _) eqn:M1; [discriminate|].
  destruct (mem (review_guest r) _) eqn:M2; [discriminate|].
  destruct (mem (review_room r) _) eqn:M3; [discriminate|].
  simpl. intros E. injection E as <-.
  apply mem_false in M1, M2, M3.
  constructor; simpl; auto; rewrite map_app; simpl; apply NoDup_app_one; auto.
  rewrite K. apply next_pk_fresh.
Qed.

Lemma WF_save_review (now : Z) (s : Store) (r r' : Review) :
  WF s -> In r (reviews s) ->
  review_pk r' = review_pk r -> review_booking r' = review_booking r ->
  review_guest r' = review_guest r -> review_room r' = review_room r ->
  WF (save_review now s r').
Proof.
  intros [H1 H2 H3 H4 H5 H6 H7 H8 H9 H10] Hr K B G R.
  constructor; simpl; auto.
  - now rewrite save_row_keys.
  - rewrite (map_save_row_same review_pk review_booking _ r); auto.
  - rewrite (map_save_row_same review_pk review_guest _ r); auto.
  - rewrite (map_save_row_same review_pk review_room _ r); auto.
Qed.

Lemma WF_delete_review (s : Store) (p : Review -> bool) :
  WF s -> WF (with_reviews s (filter p (reviews s))).
Proof.
  intros [H1 H2 H3 H4 H5 H6 H7 H8 H9 H10].
  constructor; simpl; auto using NoDup_map_filter.
Qed.

Lemma WF_delete_booking (s : Store) (pk : Z) :
  WF s -> WF (delete_booking s pk).
Proof.
  intros [H1 H2 H3 H4 H5 H6 H7 H8 H9 H10].
  constructor; simpl; auto using NoDup_map_filter.
  - intros h Hh. apply filter_In in Hh. destruct Hh as [Hh N].
    specialize (H5 h Hh). apply in_map_iff in H5.
    destruct H5 as [b [K Hb]]. apply in_map_iff. exists b.
    split; [exact K|]. apply filter_In. split; [exact Hb|]. now rewrite K.
  - intros b Hb. apply filter_In in Hb. apply H6, Hb.
Qed.

(** ** Looking rows up after a write *)

Section FindFacts.
Context {A : Type}.
Variable key : A -> Z.

Lemma find_save_row (x : A) (l : list A) :
  In (key x) (map key l) ->
  find (fun y => key y =? key x) (save_row key x l) = Some x.
Proof.
  induction l as [|y l IH]; simpl; [tauto|].
  destruct (key y =? key x) eqn:E; simpl.
  - now rewrite Z.eqb_refl.
  - rewrite E. intros [K|H]; [|auto].
    rewrite K, Z.eqb_refl in E. discriminate E.
Qed.

Lemma find_save_row_pred (p : A -> bool) (x x0 : A) (l : list A) :
  find p l = Some x0 -> key x = key x0 -> p x = true ->
  find p (save_row key x l) = Some x.
Proof.
  intros F K P. induction l as [|y l IH]; simpl in *; [discriminate|].
  destruct (key y =? key x) eqn:E; simpl.
  - now rewrite P.
  - destruct (p y) eqn:Py; [|auto].
    injection F as ->. rewrite K, Z.eqb_refl in E. discriminate E.
Qed.

Lemma find_app_last (p : A -> bool) (x : A) (l : list A) :
  find p l = None -> p x = true -> find p (l ++ [x]) = Some x.
Proof.
  intros F P. induction l as [|y l IH]; simpl in *; [now rewrite P|].
  destruct (p y); [discriminate|auto].
Qed.

Lemma find_pk_In (l : list A) (k : Z) (x : A) :
  find (fun y => key y =? k) l = Some x -> In x l /\ key x = k.
Proof.
  intros F. apply find_some in F. now rewrite Z.eqb_eq in F.
Qed.

Lemma find_pk_None (l : list A) (k : Z) :
  find (fun y => key y =? k) l = None -> ~ In k (map key l).
Proof.
  intros F H. apply in_map_iff in H. destruct H as [y [E Hy]].
  apply (find_none _ _ F) in Hy. simpl in Hy.
  rewrite E, Z.eqb_refl in Hy. discriminate Hy.
Qed.

Lemma count_key_one (l : list A) (x : A) :
  NoDup (map key l) -> In x l ->
  List.length (filter (fun y => key y =? key x) l) = 1%nat.
Proof.
  induction l as [|y l IH]; simpl; [tauto|].
  intros ND H. inversion ND as [|? ? Hy ND']; subst.
  destruct (key y =? key x) eqn:E.
  - simpl. f_equal. apply Z.eqb_eq in E.
    assert (F : filter (fun z => key z =? key x) l = []).
    { destruct (filter (fun z => key z =? key x) l) as [|z t] eqn:Fz;
        [reflexivity|].
      assert (Hz : In z (filter (fun z => key z =? key x) l))
        by (rewrite Fz; now left).
      apply filter_In in Hz. destruct Hz as [Hz K]. apply Z.eqb_eq in K.
      exfalso. apply Hy. rewrite E, <- K. now apply in_map. }
    now rewrite F.
  - destruct H as [->|H]; [now rewrite Z.eqb_refl in E | auto].
Qed.
End FindFacts.

(** ** The history record of a booking *)

Lemma history_create_fresh (s : Store) (booking : Z) (d : HistoryDefaults) :
  ~ In booking (map history_booking (histories s)) ->
  BookingHistory_create s booking d
  = Some (with_histories s (histories s ++ [new_history s booking d]),
          new_history s booking d).
Proof.
  intros H. unfold BookingHistory_create.
  apply mem_false in H. now rewrite H.
Qed.

Lemma get_or_create_cases (s : Store) (booking : Z) (d : HistoryDefaults) :
  (exists h, get_history s booking = Some h
             /\ BookingHistory_get_or_create s booking d = Some (s, h, false))
  \/ (get_history s booking = None
      /\ BookingHistory_get_or_create s booking d
         = Some (with_histories s (histories s ++ [new_history s booking d]),
                 new_history s booking d, true)).
Proof.
  unfold BookingHistory_get_or_create.
  destruct (get_history s booking) as [h|] eqn:G.
  - left. eauto.
  - right. split; [reflexivity|].
    rewrite history_create_fresh; [reflexivity|].
    apply (find_pk_None history_booking). exact G.
Qed.

Lemma update_or_create_cases (s : Store) (booking : Z) (d : HistoryDefaults) :
  (exists h, get_history s booking = Some h
     /\ BookingHistory_update_or_create s booking d
        = Some (save_history s
                  (mkHistory (history_pk h) (history_booking h) (d_old_status d)
                     (d_new_status d) (d_changed_by d) (d_change_description d)),
                mkHistory (history_pk h) (history_booking h) (d_old_status d)
                  (d_new_status d) (d_changed_by d) (d_change_description d),
                false))
  \/ (get_history s booking = None
      /\ BookingHistory_update_or_create s booking d
         = Some (with_histories s (histories s ++ [new_history s booking d]),
                 new_history s booking d, true)).
Proof.
  unfold BookingHistory_update_or_create.
  destruct (get_history s booking) as [h|] eqn:G.
  - left. eauto.
  - right. split; [reflexivity|].
    rewrite history_create_fresh; [reflexivity|].
    apply (find_pk_None history_booking). exact G.
Qed.

Lemma get_history_saved (s : Store) (booking : Z) (h h' : BookingHistory) :
  get_history s booking = Some h ->
  history_pk h' = history_pk h -> history_booking h' = history_booking h ->
  get_history (save_history s h') booking = Some h'.
Proof.
  intros G K B. unfold get_history, save_history. simpl.
  apply (find_save_row_pred history_pk _ h' h); auto.
  apply (find_pk_In history_booking) in G. rewrite B.
  apply Z.eqb_eq. tauto.
Qed.

Lemma get_history_added (s : Store) (booking : Z) (d : HistoryDefaults) :
  get_history s booking = None ->
  get_history (with_histories s (histories s ++ [new_history s booking d]))
              booking = Some (new_history s booking d).
Proof.
  intros G. unfold get_history. simpl.
  apply find_app_last; [exact G | apply Z.eqb_refl].
Qed.

Lemma WF_history_added (s : Store) (booking : Z) (d : HistoryDefaults) :
  WF s -> In booking (map booking_pk (bookings s)) ->
  get_history s booking = None ->
  WF (with_histories s (histories s ++ [new_history s booking d])).
Proof.
  intros W Hb G.
  apply (WF_history_create s _ booking d (new_history s booking d) W Hb).
  apply history_create_fresh. apply (find_pk_None history_booking). exact G.
Qed.

Lemma history_count_one (s : Store) (booking : Z) (h : BookingHistory) :
  WF s -> get_history s booking = Some h ->
  List.length (filter (fun x => history_booking x =? booking) (histories s))
  = 1%nat.
Proof.
  intros W G. apply (find_pk_In history_booking) in G. destruct G as [Hh <-].
  apply count_key_one; [apply W | exact Hh].
Qed.

(** ** Every view keeps the database constraints *)

Lemma WF_BookingCreateView today user room_id ci co s :
  WF s -> WF (fst (BookingCreateView today user room_id ci co s)).
Proof.
  intros W. unfold BookingCreateView.
  destruct (find _ (rooms s)) as [room|] eqn:F; [|exact W].
  destruct (room_owner room =? user_pk user); [exact W|].
  destruct (negb (UserRequired user)); [exact W|].
  destruct (BookingCreateForm_errors today ci co); [|exact W].
  destruct (exists_ _); [exact W|].
  cbv zeta.
  set (object := mkBooking _ _ _ _ _ _ _).
  assert (W1 : WF (with_bookings s (bookings s ++ [object]))).
  { apply WF_add_booking; auto. simpl.
    apply find_some in F. apply in_map. tauto. }
  destruct (BookingHistory_create _ _ _) as [[s2 h]|] eqn:C; [|exact W1].
  simpl. eapply WF_history_create; [exact W1| |exact C].
  simpl. rewrite map_app. apply in_or_app. right. now left.
Qed.

Lemma WF_BookingDeleteView_delete user pk s :
  WF s -> WF (fst (BookingDeleteView_delete user pk s)).
Proof.
  intros W. unfold BookingDeleteView_delete.
  destruct (negb (UserRequired user)); [exact W|].
  destruct (find _ (bookings s)) as [b|] eqn:F; [|exact W].
  cbv zeta. set (b' := mkBooking _ _ _ _ _ _ _).
  apply find_some in F. destruct F as [Hb _].
  assert (W1 : WF (save_booking s b')) by (now apply WF_save_booking with b).
  assert (Hpk : In (booking_pk b') (map booking_pk (bookings (save_booking s b')))).
  { simpl. rewrite save_row_keys. now apply in_map. }
  destruct (update_or_create_cases (save_booking s b') (booking_pk b')
              (mkDefaults (Some (booking_status b)) CANCELLED
                 (display_name user) DescCancelled)) as [[h [G E]]|[G E]];
    rewrite E; cbn [fst].
  - apply (find_pk_In history_booking) in G.
    apply WF_save_history with h; tauto.
  - now apply WF_history_added.
Qed.

Lemma WF_update_booking_view today method user pk ci co s :
  WF s -> WF (fst (update_booking_view today method user pk ci co s)).
Proof.
  intros W. unfold update_booking_view.
  destruct (find _ (bookings s)) as [b|] eqn:F; [|exact W].
  destruct method; [exact W|].
  destruct (BookingCreateForm_errors today ci co); [|exact W].
  destruct (exists_ _); [exact W|].
  destruct (get_room s (booking_room b)) as [room|]; [|exact W].
  cbv zeta. set (b' := mkBooking _ _ _ _ _ _ _).
  apply find_some in F. destruct F as [Hb _].
  assert (W1 : WF (save_booking s b')) by (now apply WF_save_booking with b).
  assert (Hpk : In (booking_pk b') (map booking_pk (bookings (save_booking s b')))).
  { simpl. rewrite save_row_keys. now apply in_map. }
  match goal with
  | |- context [BookingHistory_get_or_create ?s1 ?k ?d] =>
      destruct (get_or_create_cases s1 k d) as [[h [G E]]|[G E]]; rewrite E
  end; cbn [fst].
  - apply (find_pk_In history_booking) in G.
    apply WF_save_history with h; tauto.
  - now apply WF_history_added.
Qed.

Lemma WF_confirm_booking_view method user pk s :
  WF s -> WF (fst (confirm_booking_view method user pk s)).
Proof.
  intros W. unfold confirm_booking_view.
  destruct (get_booking s pk) as [b|] eqn:F; [|exact W].
  destruct (may_not_confirm s user b) as [[|]|]; try exact W.
  destruct method; [exact W|].
  cbv zeta. set (b' := mkBooking _ _ _ _ _ _ _).
  apply find_some in F. destruct F as [Hb _].
  assert (W1 : WF (save_booking s b')) by (now apply WF_save_booking with b).
  assert (Hpk : In (booking_pk b') (map booking_pk (bookings (save_booking s b')))).
  { simpl. rewrite save_row_keys. now apply in_map. }
  match goal with
  | |- context [BookingHistory_get_or_create ?s1 ?k ?d] =>
      destruct (get_or_create_cases s1 k d) as [[h [G E]]|[G E]]; rewrite E
  end; cbn [fst].
  - apply (find_pk_In history_booking) in G.
    apply WF_save_history with h; tauto.
  - now apply WF_history_added.
Qed.

Lemma WF_ReviewCreateView now user booking_id rating_arg text s :
  WF s -> WF (fst (ReviewCreateView now user booking_id rating_arg text s)).
Proof.
  intros W. unfold ReviewCreateView.
  destruct (find _ (bookings s)) as [b|]; [|exact W].
  destruct (get_room s (booking_room b)) as [room|]; [|exact W].
  destruct (room_owner room =? user_pk user); [exact W|].
  destruct (negb (UserRequired user)); [exact W|].
  destruct (ReviewForm_errors rating_arg text); [|exact W].
  destruct (Review_insert s _) as [s'|] eqn:I; [|exact W].
  simpl. eapply WF_review_insert; [exact W| |exact I]. reflexivity.
Qed.

Ltac review_saved W F :=
  apply find_some in F; destruct F as [F _];
  simpl; eapply WF_save_review; [exact W | exact F | reflexivity ..].

Lemma WF_ReviewQuickModerateView now user pk action s :
  WF s -> WF (fst (ReviewQuickModerateView now user pk action s)).
Proof.
  intros W. unfold ReviewQuickModerateView.
  destruct (negb (StaffRequired user)); [exact W|].
  destruct (find _ (reviews s)) as [r|] eqn:F; [|exact W].
  destruct action; [review_saved W F | review_saved W F | exact W].
Qed.

Lemma WF_ReviewModerateView now user pk status comment s :
  WF s -> WF (fst (ReviewModerateView now user pk status comment s)).
Proof.
  intros W. unfold ReviewModerateView.
  destruct (negb (StaffRequired user)); [exact W|].
  destruct (find _ (reviews s)) as [r|] eqn:F; [|exact W].
  destruct (ReviewModerationForm_errors comment); [|exact W].
  review_saved W F.
Qed.

Lemma WF_ReviewReplyView now user pk reply s :
  WF s -> WF (fst (ReviewReplyView now user pk reply s)).
Proof.
  intros W. unfold ReviewReplyView.
  destruct (find _ (reviews s)) as [r|] eqn:F; [|exact W].
  destruct (ReviewReplyForm_errors reply); [|exact W].
  review_saved W F.
Qed.

Lemma WF_ReviewUpdateView now user pk rating_arg text s :
  WF s -> WF (fst (ReviewUpdateView now user pk rating_arg text s)).
Proof.
  intros W. unfold ReviewUpdateView.
  destruct (negb (UserRequired user)); [exact W|].
  destruct (find _ (reviews s)) as [r|] eqn:F; [|exact W].
  destruct (ReviewForm_errors rating_arg text); [|exact W].
  review_saved W F.
Qed.

Lemma WF_ReviewDeleteView user pk s :
  WF s -> WF (fst (ReviewDeleteView user pk s)).
Proof.
  intros W. unfold ReviewDeleteView.
  destruct (negb (UserRequired user)); [exact W|].
  destruct (find _ (reviews s)) as [r|] eqn:F; [|exact W].
  simpl. now apply WF_delete_review.
Qed.

Lemma WF_BookingDeleteView_post user pk s :
  WF s -> WF (fst (BookingDeleteView_post user pk s)).
Proof.
  intros W. unfold BookingDeleteView_post.
  destruct (negb (UserRequired user)); [exact W|].
  destruct (find _ (bookings s)); [|exact W].
  simpl. now apply WF_delete_booking.
Qed.

Lemma WF_handle (q : Request) (s : Store) : WF s -> WF (fst (handle q s)).
Proof.
  intros W.
  destruct q; unfold handle, createBooking, cancelBooking, confirmBooking,
    updateBookingDates, createReview.
  - now apply WF_BookingCreateView.
  - now apply WF_BookingDeleteView_delete.
  - now apply WF_confirm_booking_view.
  - now apply WF_update_booking_view.
  - now apply WF_ReviewCreateView.
  - now apply WF_ReviewQuickModerateView.
  - now apply WF_ReviewModerateView.
  - now apply WF_ReviewReplyView.
  - now apply WF_ReviewUpdateView.
  - now apply WF_ReviewDeleteView.
  - now apply WF_BookingDeleteView_post.
Qed.

Lemma WF_initial (s : Store) : initial s -> WF s.
Proof.
  intros [H1 [H2 [H3 H4]]]. apply distinct_NoDup in H1.
  constructor; rewrite ?H2, ?H3, ?H4; simpl; auto using NoDup_nil; tauto.
Qed.

Lemma WF_reachable (s : Store) : reachable s -> WF s.
Proof.
  induction 1; [now apply WF_initial | now apply WF_handle].
Qed.

(** ** Overlapping bookings *)

Lemma overlap_sym (a b : Booking) : overlap a b = overlap b a.
Proof.
  unfold overlap. rewrite !Z.geb_leb. apply andb_comm.
Qed.

Lemma exists_false_nil {A : Type} (q : list A) : exists_ q = false -> q = [].
Proof. destruct q; [reflexivity | discriminate]. Qed.

(** A booking that no scan reports may be written next to the others. *)
Lemma no_overlap_rows_app (l : list Booking) (b : Booking) :
  no_overlap_rows l ->
  (forall x, In x l -> booking_room x = booking_room b ->
             active x = true -> active b = true -> overlap x b = false) ->
  no_overlap_rows (l ++ [b]).
Proof.
  intros H Hb b1 b2 H1 H2 Np R A1 A2.
  apply in_app_or in H1. apply in_app_or in H2.
  destruct H1 as [H1|[<-|[]]], H2 as [H2|[<-|[]]].
  - now apply H.
  - now apply Hb.
  - rewrite overlap_sym. now apply Hb.
  - congruence.
Qed.

Lemma no_overlap_rows_save (l : list Booking) (b : Booking) :
  no_overlap_rows l ->
  (forall x, In x l -> booking_pk x <> booking_pk b ->
             booking_room x = booking_room b ->
             active x = true -> active b = true -> overlap x b = false) ->
  no_overlap_rows (save_row booking_pk b l).
Proof.
  intros H Hb b1 b2 H1 H2 Np R A1 A2.
  apply save_row_In in H1. apply save_row_In in H2.
  destruct H1 as [[-> _]|[H1 N1]], H2 as [[-> _]|[H2 N2]].
  - congruence.
  - rewrite overlap_sym. now apply Hb.
  - now apply Hb.
  - now apply H.
Qed.

Lemma history_create_frame (s s' : Store) (booking : Z) (d : HistoryDefaults)
    (h : BookingHistory) :
  BookingHistory_create s booking d = Some (s', h) ->
  rooms s' = rooms s /\ bookings s' = bookings s /\ reviews s' = reviews s
  /\ histories s' = histories s ++ [h] /\ h = new_history s booking d.
Proof.
  unfold BookingHistory_create. destruct (mem booking _); [discriminate|].
  intros E. injection E as <- <-. simpl. tauto.
Qed.

(** The scan of [BookingCreateView] found nothing: no active booking of the
    room meets the requested dates. *)
Lemma scan_clear (s : Store) (room : Z) (ci co : date) (keep : Booking -> bool)
    (x : Booking) :
  exists_ (filter keep (conflicting_bookings s room ci co)) = false ->
  In x (bookings s) -> keep x = true -> booking_room x = room ->
  active x = true ->
  (check_in_date x <=? co) && (check_out_date x >=? ci) = false.
Proof.
  intros E Hx K R A. apply exists_false_nil in E.
  destruct ((check_in_date x <=? co) && (check_out_date x >=? ci)) eqn:D;
    [|reflexivity].
  assert (Hin : In x (filter keep (conflicting_bookings s room ci co))).
  { unfold conflicting_bookings. rewrite !filter_In. repeat split; auto.
    unfold blocks. fold (active x). rewrite D, A, R, Z.eqb_refl. reflexivity. }
  rewrite E in Hin. destruct Hin.
Qed.

Lemma filter_true {A : Type} (l : list A) : filter (fun _ => true) l = l.
Proof. induction l; simpl; congruence. Qed.

Lemma no_overlap_BookingCreateView today user room_id ci co s :
  no_overlap s -> no_overlap (fst (BookingCreateView today user room_id ci co s)).
Proof.
  intros H. unfold BookingCreateView.
  destruct (find _ (rooms s)) as [room|] eqn:F; [|exact H].
  destruct (room_owner room =? user_pk user); [exact H|].
  destruct (negb (UserRequired user)); [exact H|].
  destruct (BookingCreateForm_errors today ci co); [|exact H].
  destruct (exists_ _) eqn:Ex; [exact H|].
  cbv zeta. set (object := mkBooking _ _ _ _ _ _ _).
  assert (H1 : no_overlap_rows (bookings s ++ [object])).
  { apply no_overlap_rows_app; [exact H|]. intros x Hx R A _.
    unfold overlap. simpl.
    apply (scan_clear s (room_pk room) ci co (fun _ => true)); auto.
    now rewrite filter_true. }
  destruct (BookingHistory_create _ _ _) as [[s2 h]|] eqn:C; [|exact H1].
  apply history_create_frame in C. unfold no_overlap. simpl.
  destruct C as [_ [-> _]]. exact H1.
Qed.

Lemma no_overlap_BookingDeleteView_delete user pk s :
  no_overlap s -> no_overlap (fst (BookingDeleteView_delete user pk s)).
Proof.
  intros H. unfold BookingDeleteView_delete.
  destruct (negb (UserRequired user)); [exact H|].
  destruct (find _ (bookings s)) as [b|] eqn:F; [|exact H].
  cbv zeta. set (b' := mkBooking _ _ _ _ _ _ _).
  assert (H1 : no_overlap_rows (save_row booking_pk b' (bookings s))).
  { apply no_overlap_rows_save; [exact H|]. intros x _ _ _ _ A.
    discriminate A. }
  match goal with
  | |- context [BookingHistory_update_or_create ?s1 ?k ?d] =>
      destruct (update_or_create_cases s1 k d) as [[h [G E]]|[G E]]; rewrite E
  end; exact H1.
Qed.

Lemma no_overlap_update_booking_view today method user pk ci co s :
  no_overlap s ->
  no_overlap (fst (update_booking_view today method user pk ci co s)).
Proof.
  intros H. unfold update_booking_view.
  destruct (find _ (bookings s)) as [b|] eqn:F; [|exact H].
  destruct method; [exact H|].
  destruct (BookingCreateForm_errors today ci co); [|exact H].
  destruct (exists_ _) eqn:Ex; [exact H|].
  destruct (get_room s (booking_room b)) as [room|]; [|exact H].
  cbv zeta. set (b' := mkBooking _ _ _ _ _ _ _).
  assert (H1 : no_overlap_rows (save_row booking_pk b' (bookings s))).
  { apply no_overlap_rows_save; [exact H|]. intros x Hx Np R A _.
    unfold overlap. simpl.
    apply (scan_clear s (booking_room b) ci co
             (fun y => negb (booking_pk y =? booking_pk b))); auto.
    apply negb_true_iff. now apply Z.eqb_neq. }
  match goal with
  | |- context [BookingHistory_get_or_create ?s1 ?k ?d] =>
      destruct (get_or_create_cases s1 k d) as [[h [G E]]|[G E]]; rewrite E
  end; exact H1.
Qed.

(** Confirming keeps the invariant when the booking is Pending or Confirmed. *)
Lemma no_overlap_confirm_booking_view method user pk s :
  no_overlap s ->
  (forall b, get_booking s pk = Some b -> active b = true) ->
  no_overlap (fst (confirm_booking_view method user pk s)).
Proof.
  intros H Act. unfold confirm_booking_view.
  destruct (get_booking s pk) as [b|] eqn:F; [|exact H].
  destruct (may_not_confirm s user b) as [[|]|]; try exact H.
  destruct method; [exact H|].
  cbv zeta. set (b' := mkBooking _ _ _ _ _ _ _).
  specialize (Act b eq_refl). apply find_some in F. destruct F as [Hb _].
  assert (H1 : no_overlap_rows (save_row booking_pk b' (bookings s))).
  { apply no_overlap_rows_save; [exact H|]. intros x Hx Np R A _.
    change (overlap x b') with (overlap x b). now apply H. }
  match goal with
  | |- context [BookingHistory_get_or_create ?s1 ?k ?d] =>
      destruct (get_or_create_cases s1 k d) as [[h [G E]]|[G E]]; rewrite E
  end; exact H1.
Qed.

Lemma no_overlapb_spec (s : Store) : no_overlapb s = true <-> no_overlap s.
Proof.
  unfold no_overlapb, no_overlap, no_overlap_rows. rewrite forallb_forall.
  split.
  - intros H b1 b2 H1 H2 Np R A1 A2.
    specialize (H b1 H1). rewrite forallb_forall in H. specialize (H b2 H2).
    apply Z.eqb_neq in Np. apply Z.eqb_eq in R.
    rewrite Np, R, A1, A2 in H. simpl in H.
    now apply negb_true_iff in H.
  - intros H b1 H1. rewrite forallb_forall. intros b2 H2.
    destruct (booking_pk b1 =? booking_pk b2) eqn:Ep; [reflexivity|].
    destruct (booking_room b1 =? booking_room b2) eqn:Er; [|reflexivity].
    destruct (active b1) eqn:A1; [|reflexivity].
    destruct (active b2) eqn:A2; [|reflexivity].
    simpl. apply negb_true_iff. apply H; auto.
    + now apply Z.eqb_neq.
    + now apply Z.eqb_eq.
Qed.

Lemma bookings_review_request (q : Request) (s : Store) :
  match q with
  | ReqCreateReview _ _ _ _ _ | ReqQuickModerate _ _ _ _ | ReqModerate _ _ _ _ _
  | ReqReply _ _ _ _ | ReqUpdateReview _ _ _ _ _ | ReqDeleteReview _ _ =>
      bookings (fst (handle q s)) = bookings s
  | _ => True
  end.
Proof.
  destruct q; try exact I; unfold handle, createReview.
  - unfold ReviewCreateView.
    destruct (find _ (bookings s)); [|reflexivity].
    destruct (get_room s _); [|reflexivity].
    destruct (_ =? _); [reflexivity|].
    destruct (negb _); [reflexivity|].
    destruct (ReviewForm_errors _ _); [|reflexivity].
    unfold Review_insert. destruct (_ || _); reflexivity.
  - unfold ReviewQuickModerateView.
    destruct (negb _); [reflexivity|].
    destruct (find _ _); [|reflexivity]. destruct action; reflexivity.
  - unfold ReviewModerateView.
    destruct (negb _); [reflexivity|]. destruct (find _ _); [|reflexivity].
    destruct (ReviewModerationForm_errors _); reflexivity.
  - unfold ReviewReplyView. destruct (find _ _); [|reflexivity].
    destruct (ReviewReplyForm_errors _); reflexivity.
  - unfold ReviewUpdateView.
    destruct (negb _); [reflexivity|].
    destruct (find _ _); [|reflexivity].
    destruct (ReviewForm_errors _ _); reflexivity.
  - unfold ReviewDeleteView.
    destruct (negb _); [reflexivity|]. destruct (find _ _); reflexivity.
Qed.

Lemma no_overlap_BookingDeleteView_post user pk s :
  no_overlap s -> no_overlap (fst (BookingDeleteView_post user pk s)).
Proof.
  intros H. unfold BookingDeleteView_post.
  destruct (negb (UserRequired user)); [exact H|].
  destruct (find _ (bookings s)); [|exact H].
  intros b1 b2 H1 H2. simpl in H1, H2. apply filter_In in H1, H2.
  apply H; tauto.
Qed.

Lemma no_overlap_handle (q : Request) (s : Store) :
  no_overlap s -> revives s q = false -> no_overlap (fst (handle q s)).
Proof.
  intros H R.
  pose proof (bookings_review_request q s) as B.
  destruct q; try (unfold no_overlap; rewrite B; exact H);
    unfold handle, createBooking, cancelBooking, confirmBooking,
      updateBookingDates.
  - now apply no_overlap_BookingCreateView.
  - now apply no_overlap_BookingDeleteView_delete.
  - apply no_overlap_confirm_booking_view; [exact H|].
    intros b G. simpl in R. rewrite G in R. now apply negb_false_iff in R.
  - now apply no_overlap_update_booking_view.
  - now apply no_overlap_BookingDeleteView_post.
Qed.

(** C1, as amended.  The overlap invariant is kept by every request that does
    not confirm a Cancelled booking (in particular by createBooking,
    cancelBooking and updateBookingDates, and by confirmBooking of a Pending
    or Confirmed booking), and it holds in every store reached through such
    requests. *)
Theorem no_overlap_without_revival :
  (forall s q, no_overlap s -> revives s q = false ->
               no_overlap (fst (handle q s)))
  /\ (forall s, reachable_no_revival s -> no_overlap s).
Proof.
  split.
  - intros s q. apply no_overlap_handle.
  - induction 1 as [s [_ [E _]]|s q _ IH R].
    + unfold no_overlap. rewrite E. intros b1 b2 [].
    + now apply no_overlap_handle.
Qed.

Lemma no_overlap_without_revival_witness :
  reachable_no_revival store3 /\ no_overlap store3.
Proof.
  assert (R : reachable_no_revival store3).
  { unfold store3, store2, store1.
    repeat (apply reach0_step; [|reflexivity]).
    apply reach0_init. repeat split; reflexivity. }
  split; [exact R|].
  exact (proj2 no_overlap_without_revival store3 R).
Defined.

(** C1 as stated fails: the store reached when Bob confirms his cancelled
    booking holds two Confirmed or Pending bookings of room 1 for the same
    nights, although the store before that request satisfied the invariant. *)
Lemma no_overlap_broken_by_confirm :
  reachable store4
  /\ no_overlap store3
  /\ store4 = fst (confirmBooking bob 1 store3)
  /\ ~ no_overlap store4.
Proof.
  split; [|split; [|split]].
  - unfold store4, store3, store2, store1.
    repeat apply reach_step. apply reach_init. repeat split; reflexivity.
  - apply no_overlapb_spec. reflexivity.
  - reflexivity.
  - intros H. apply no_overlapb_spec in H. discriminate H.
Qed.

(** ** Creating a booking *)

Lemma BookingCreateForm_valid (today ci co : date) :
  BookingCreateForm_errors today ci co = [] <-> today <= ci /\ ci < co.
Proof.
  unfold BookingCreateForm_errors.
  destruct (ci <? today) eqn:E1; [|destruct (ci >=? co) eqn:E2];
    rewrite ?Z.geb_leb in *;
    rewrite ?Z.ltb_lt, ?Z.ltb_ge, ?Z.leb_le, ?Z.leb_gt in *;
    split; try discriminate; try reflexivity; lia.
Qed.

Lemma conflict_scan_spec (s : Store) (room : Z) (ci co : date) :
  exists_ (conflicting_bookings s room ci co) = true
  <-> conflict_exists s room ci co.
Proof.
  unfold conflict_exists. split.
  - destruct (conflicting_bookings s room ci co) as [|b l] eqn:E;
      [discriminate|]. intros _.
    assert (Hb : In b (conflicting_bookings s room ci co))
      by (rewrite E; now left).
    unfold conflicting_bookings, blocks in Hb.
    rewrite filter_In, !andb_true_iff, Z.geb_leb, !Z.leb_le, Z.eqb_eq in Hb.
    exists b. repeat split; try tauto; try lia.
    destruct (booking_status b); simpl in Hb; intuition discriminate.
  - intros [b [Hb [R [St [D1 D2]]]]].
    assert (Hin : In b (conflicting_bookings s room ci co)).
    { unfold conflicting_bookings, blocks.
      rewrite filter_In, !andb_true_iff, Z.geb_leb, !Z.leb_le, Z.eqb_eq.
      repeat split; auto; try lia. destruct St as [-> | ->]; reflexivity. }
    destruct (conflicting_bookings s room ci co); [destruct Hin | reflexivity].
Qed.

(** The history row of a booking that has just received a fresh key can
    always be written. *)
Lemma history_create_after_add (s : Store) (b : Booking) (d : HistoryDefaults) :
  WF s -> booking_pk b = next_pk (map booking_pk (bookings s)) ->
  BookingHistory_create (with_bookings s (bookings s ++ [b])) (booking_pk b) d
  = Some (with_histories (with_bookings s (bookings s ++ [b]))
            (histories s ++ [new_history s (booking_pk b) d]),
          new_history s (booking_pk b) d).
Proof.
  intros W K.
  rewrite history_create_fresh; [reflexivity|]. simpl.
  intros H. apply in_map_iff in H. destruct H as [h [E Hh]].
  apply (wf_history_fk s W) in Hh. rewrite E, K in Hh.
  exact (next_pk_fresh _ Hh).
Qed.

(** C3, as amended.  In a store that meets the database constraints,
    createBooking is rejected if and only if the room is inactive or
    nonexistent, or the dates are invalid, or the guest owns the room, or a
    Pending or Confirmed booking of the room overlaps the requested range, or
    the guest is not a regular user (staff, admin or superuser); and a
    rejection leaves the store as it was. *)
Theorem createBooking_rejected_iff (today : date) (user : User) (room_id : Z)
    (check_in check_out : date) (s : Store) :
  WF s ->
  (rejected (snd (createBooking today user room_id check_in check_out s))
   <-> room_unavailable s room_id
       \/ dates_invalid today check_in check_out
       \/ self_booking s user room_id
       \/ conflict_exists s room_id check_in check_out
       \/ UserRequired user = false)
  /\ (rejected (snd (createBooking today user room_id check_in check_out s)) ->
      fst (createBooking today user room_id check_in check_out s) = s).
Proof.
  intros W. unfold createBooking, BookingCreateView, rejected.
  destruct (find _ (rooms s)) as [room|] eqn:F.
  2:{ split; [|reflexivity]. split; [|discriminate]. intros _. left.
      intros [r [Hr [K A]]]. apply (find_none _ _ F) in Hr.
      rewrite K, Z.eqb_refl, A in Hr. discriminate Hr. }
  apply find_some in F. destruct F as [Hroom Hp].
  apply andb_true_iff in Hp. destruct Hp as [Kr Ar]. apply Z.eqb_eq in Kr.
  subst room_id.
  assert (Av : ~ room_unavailable s (room_pk room)).
  { intros H. apply H. eauto. }
  assert (Own : self_booking s user (room_pk room)
                <-> room_owner room = user_pk user).
  { split.
    - intros [r [Hr [K O]]].
      assert (r = room); [|now subst].
      apply (find_by_key_unique room_pk (rooms s) (room_pk room)); auto.
      apply distinct_NoDup. apply W.
    - intros O. exists room. auto. }
  destruct (room_owner room =? user_pk user) eqn:Eo.
  { apply Z.eqb_eq in Eo. split; [|reflexivity]. split; [|discriminate].
    intros _. right. right. left. now apply Own. }
  apply Z.eqb_neq in Eo.
  destruct (UserRequired user) eqn:Eu; simpl.
  2:{ split; [|reflexivity]. split; [|discriminate]. tauto. }
  pose proof (BookingCreateForm_valid today check_in check_out) as Fv.
  destruct (BookingCreateForm_errors today check_in check_out) as [|e errs].
  2:{ split; [|reflexivity]. split; [|discriminate]. intros _. right. left.
      unfold dates_invalid.
      assert (~ (today <= check_in /\ check_in < check_out))
        by (intros H; apply Fv in H; discriminate H).
      lia. }
  assert (Dv : ~ dates_invalid today check_in check_out).
  { unfold dates_invalid. destruct Fv as [Fv _]. specialize (Fv eq_refl). lia. }
  pose proof (conflict_scan_spec s (room_pk room) check_in check_out) as Cs.
  destruct (exists_ (conflicting_bookings s (room_pk room) check_in check_out)).
  { split; [|reflexivity]. split; [|discriminate]. intros _.
    right. right. right. left. now apply Cs. }
  cbv zeta. rewrite history_create_after_add; [|exact W|reflexivity].
  simpl. split; [|congruence]. split; [congruence|].
  intros [H|[H|[H|[H|H]]]]; exfalso.
  - now apply Av.
  - now apply Dv.
  - now apply Eo, Own.
  - apply Cs in H. discriminate H.
  - discriminate H.
Qed.

Lemma createBooking_rejected_iff_witness :
  (rejected (snd (createBooking 5 bob 1 10 12 store1))
   <-> room_unavailable store1 1
       \/ dates_invalid 5 10 12
       \/ self_booking store1 bob 1
       \/ conflict_exists store1 1 10 12
       \/ UserRequired bob = false)
  /\ (rejected (snd (createBooking 5 bob 1 10 12 store1)) ->
      fst (createBooking 5 bob 1 10 12 store1) = store1).
Proof.
  apply (createBooking_rejected_iff 5 bob 1 10 12 store1).
  apply wf_store_WF. reflexivity.
Defined.

(** C3 as stated fails: Sam, a staff member, asks for room 3, which is
    active and not his, for valid and free dates, and is turned away. *)
Lemma createBooking_staff_rejected :
  snd (createBooking 5 sam 3 10 12 store0) = AccessDenied
  /\ rejected (snd (createBooking 5 sam 3 10 12 store0))
  /\ ~ (room_unavailable store0 3
        \/ dates_invalid 5 10 12
        \/ self_booking store0 sam 3
        \/ conflict_exists store0 3 10 12).
Proof.
  split; [reflexivity|]. split; [discriminate|].
  intros [H|[H|[H|H]]].
  - apply H. exists room3. simpl. tauto.
  - unfold dates_invalid in H. lia.
  - destruct H as [r [Hr [K O]]]. simpl in Hr.
    destruct Hr as [<-|[<-|[<-|[]]]]; simpl in *; lia.
  - destruct H as [b [[] _]].
Qed.

(** Room 1 is booked from day 1 to day 5 and confirmed; a request for days 3
    to 6 is refused and nothing is written. *)
Example createBooking_overlap_sample :
  let s := fst (confirmBooking alice 1 (fst (createBooking 1 bob 1 1 5 store0))) in
  map booking_status (bookings s) = [CONFIRMED]
  /\ createBooking 1 carol 1 3 6 s = (s, FormInvalid [RoomAlreadyBooked]).
Proof. repeat split. Qed.

(** C4. A createBooking that succeeds appends one Booking, Pending, for the
    guest, the room and the dates asked, whose [total_cost] is the room's
    price times the number of nights, and one history record for it with a
    blank old status, new status Pending and actor ['SYSTEM'].  At 1000 a
    night, three nights (January 1 to January 4) cost 3000. *)
Theorem createBooking_success (today : date) (user : User) (room_id : Z)
    (check_in check_out : date) (s s' : Store) :
  createBooking today user room_id check_in check_out s = (s', RedirectSuccess) ->
  exists room b h,
    In room (rooms s) /\ room_pk room = room_id /\ room_is_active room = true
    /\ check_in < check_out
    /\ bookings s' = bookings s ++ [b]
    /\ booking_guest b = user_pk user /\ booking_room b = room_id
    /\ check_in_date b = check_in /\ check_out_date b = check_out
    /\ booking_status b = PENDING
    /\ total_cost b
       = float_mul_int (price_per_night room) (check_out - check_in)
    /\ histories s' = histories s ++ [h]
    /\ history_booking h = booking_pk b
    /\ old_status h = None /\ new_status h = PENDING
    /\ changed_by h = "SYSTEM"%string
    /\ change_description h = DescCreated
    /\ (price_per_night room = 1000%float -> check_out - check_in = 3 ->
        total_cost b = 3000%float).
Proof.
  unfold createBooking, BookingCreateView.
  destruct (find _ (rooms s)) as [room|] eqn:F; [|discriminate].
  destruct (room_owner room =? user_pk user); [discriminate|].
  destruct (negb (UserRequired user)); [discriminate|].
  pose proof (BookingCreateForm_valid today check_in check_out) as Fv.
  destruct (BookingCreateForm_errors today check_in check_out);
    [|discriminate].
  destruct (exists_ _); [discriminate|].
  cbv zeta.
  destruct (BookingHistory_create _ _ _) as [[s2 h]|] eqn:C; [|discriminate].
  intros E. injection E as <-.
  apply history_create_frame in C. simpl in C.
  destruct C as [_ [Cb [_ [Ch Eh]]]].
  apply find_some in F. destruct F as [Hroom Hp].
  apply andb_true_iff in Hp. destruct Hp as [Kr Ar]. apply Z.eqb_eq in Kr.
  destruct Fv as [Fv _]. specialize (Fv eq_refl).
  eexists room, _, h. rewrite Cb, Ch, Eh. simpl.
  repeat (split; [first [reflexivity | assumption | lia]|]).
  intros P N. rewrite P, N. reflexivity.
Qed.

Lemma createBooking_success_witness :
  exists room b h,
    In room (rooms store0) /\ room_pk room = 1 /\ room_is_active room = true
    /\ 10 < 13
    /\ bookings (fst (createBooking 5 bob 1 10 13 store0))
       = bookings store0 ++ [b]
    /\ booking_guest b = user_pk bob /\ booking_room b = 1
    /\ check_in_date b = 10 /\ check_out_date b = 13
    /\ booking_status b = PENDING
    /\ total_cost b = float_mul_int (price_per_night room) (13 - 10)
    /\ histories (fst (createBooking 5 bob 1 10 13 store0))
       = histories store0 ++ [h]
    /\ history_booking h = booking_pk b
    /\ old_status h = None /\ new_status h = PENDING
    /\ changed_by h = "SYSTEM"%string
    /\ change_description h = DescCreated
    /\ (price_per_night room = 1000%float -> 13 - 10 = 3 ->
        total_cost b = 3000%float).
Proof.
  apply (createBooking_success 5 bob 1 10 13 store0). reflexivity.
Defined.

(** ** Changing the dates of a booking *)

Lemma hasConflict_excluding (s : Store) (room : Z) (ci co : date) (pk : Z) :
  hasConflict s room ci co (Some pk)
  = exists_ (filter (fun b => negb (booking_pk b =? pk))
               (conflicting_bookings s room ci co)).
Proof. reflexivity. Qed.

(** C5. updateBookingDates answers 404 to anyone but the booking's guest.  It
    succeeds exactly when the new dates are in order and not in the past and
    no other Pending or Confirmed booking of the room meets them (the scan
    leaves this booking out).  On success the check-in date, the check-out
    date and the recomputed total cost are written in one row, and the
    history record of the booking describes the change from the old to the
    new cost, in the updater's name.  In every other case the store is left
    as it was. *)
Theorem updateBookingDates_all_or_nothing (today : date) (user : User) (pk : Z)
    (check_in check_out : date) (s : Store) :
  let r := updateBookingDates today user pk check_in check_out s in
  ((forall b, In b (bookings s) -> booking_pk b = pk ->
              booking_guest b <> user_pk user) -> r = (s, Http404))
  /\ (snd r = RedirectSuccess
      <-> exists b,
            find (fun b => (booking_pk b =? pk) && (booking_guest b =? user_pk user))
                 (bookings s) = Some b
            /\ today <= check_in /\ check_in < check_out
            /\ hasConflict s (booking_room b) check_in check_out (Some pk) = false
            /\ get_room s (booking_room b) <> None)
  /\ (snd r = RedirectSuccess ->
      exists b room,
        In b (bookings s) /\ booking_pk b = pk
        /\ booking_guest b = user_pk user
        /\ get_room s (booking_room b) = Some room
        /\ let b' := mkBooking pk (booking_guest b) (booking_room b)
                       check_in check_out (booking_status b)
                       (float_mul_int (price_per_night room)
                                      (check_out - check_in)) in
           bookings (fst r) = save_row booking_pk b' (bookings s)
           /\ get_booking (fst r) pk = Some b'
           /\ exists h,
                get_history (fst r) pk = Some h
                /\ change_description h
                   = DescDatesChanged (total_cost b) (total_cost b')
                /\ changed_by h = display_name user)
  /\ (snd r <> RedirectSuccess -> fst r = s).
Proof.
  intros r. subst r. unfold updateBookingDates, update_booking_view.
  destruct (find _ (bookings s)) as [b|] eqn:F.
  2:{ repeat split; try discriminate; try reflexivity.
      intros [b [E _]]. discriminate E. }
  pose proof (find_some _ _ F) as [Hb Hp].
  apply andb_true_iff in Hp. destruct Hp as [Kp Kg].
  apply Z.eqb_eq in Kp, Kg. subst pk.
  split.
  { intros H. exfalso. now apply (H b). }
  pose proof (BookingCreateForm_valid today check_in check_out) as Fv.
  destruct (BookingCreateForm_errors today check_in check_out) as [|e errs].
  2:{ repeat split; try discriminate; try reflexivity.
      intros [b0 [_ [D1 [D2 _]]]].
      assert (X : e :: errs = []) by (apply Fv; lia). discriminate X. }
  destruct Fv as [Fv _]. specialize (Fv eq_refl).
  destruct (exists_ _) eqn:Ex.
  { repeat split; try discriminate; try reflexivity.
    intros [b0 [E [_ [_ [C _]]]]]. injection E as <-.
    rewrite hasConflict_excluding, Ex in C. discriminate C. }
  destruct (get_room s (booking_room b)) as [room|] eqn:Gr.
  2:{ repeat split; try discriminate; try reflexivity.
      intros [b0 [E [_ [_ [_ N]]]]]. injection E as <-. exfalso. now apply N. }
  cbv zeta. set (b' := mkBooking _ _ _ _ _ _ _).
  assert (Hpk : In (booking_pk b') (map booking_pk (bookings s)))
    by (exact (in_map booking_pk _ b Hb)).
  match goal with
  | |- context [BookingHistory_get_or_create ?s1 ?k ?d] =>
      destruct (get_or_create_cases s1 k d) as [[h [G E]]|[G E]]; rewrite E
  end; cbn [fst snd].
  - split; [|split; [|congruence]].
    + split; [|reflexivity]. intros _. exists b.
      rewrite Gr, hasConflict_excluding.
      repeat split; try tauto; try lia. discriminate.
    + intros _. exists b, room. repeat split; auto.
      * unfold get_booking. simpl. apply (find_save_row booking_pk b'). exact Hpk.
      * eexists. split;
          [apply (get_history_saved _ _ h); [exact G | reflexivity | reflexivity]
          | split; reflexivity].
  - split; [|split; [|congruence]].
    + split; [|reflexivity]. intros _. exists b.
      rewrite Gr, hasConflict_excluding.
      repeat split; try tauto; try lia. discriminate.
    + intros _. exists b, room. repeat split; auto.
      * unfold get_booking. simpl. apply (find_save_row booking_pk b'). exact Hpk.
      * eexists. split; [now apply get_history_added | split; reflexivity].
Qed.

(** Carol holds nights 20 to 22 of room 1 next to Bob's nights 10 to 12.
    Moving to 12-15 touches Bob's last day and is refused, the store staying
    as it was; moving to 13-15 is accepted and costs two nights; Bob cannot
    move Carol's booking. *)
Example updateBookingDates_sample :
  let s := fst (createBooking 5 carol 1 20 22 store1) in
  snd (updateBookingDates 5 carol 2 12 15 s) = FormInvalid [RoomAlreadyBooked]
  /\ fst (updateBookingDates 5 carol 2 12 15 s) = s
  /\ snd (updateBookingDates 5 carol 2 13 15 s) = RedirectSuccess
  /\ map (fun b => (check_in_date b, check_out_date b, total_cost b))
         (bookings (fst (updateBookingDates 5 carol 2 13 15 s)))
     = [(10, 12, 2000%float); (13, 15, 2000%float)]
  /\ snd (updateBookingDates 5 bob 2 13 15 s) = Http404.
Proof. repeat split. Qed.

(** ** Confirming a booking *)

Lemma guest_or_owner_may_confirm (s : Store) (user : User) (b : Booking) :
  guest_or_owner s user b -> may_not_confirm s user b = Some false.
Proof.
  unfold guest_or_owner, may_not_confirm.
  destruct (booking_guest b =? user_pk user) eqn:E; [reflexivity|].
  apply Z.eqb_neq in E. intros [H|[room [G O]]]; [contradiction|].
  rewrite G. apply Z.eqb_eq in O. now rewrite O.
Qed.

Lemma confirm_once (s : Store) (user : User) (pk : Z) (b : Booking) :
  WF s -> get_booking s pk = Some b -> guest_or_owner s user b ->
  let r := confirmBooking user pk s in
  snd r = RedirectSuccess
  /\ WF (fst r) /\ rooms (fst r) = rooms s
  /\ get_booking (fst r) pk = Some (confirmed b)
  /\ exists h, get_history (fst r) pk = Some h
               /\ old_status h = Some (booking_status b)
               /\ new_status h = CONFIRMED
               /\ changed_by h = display_name user
               /\ change_description h = DescConfirmed.
Proof.
  intros W G P r.
  assert (Wr : WF (fst r)) by (now apply WF_confirm_booking_view).
  revert Wr. subst r. unfold confirmBooking, confirm_booking_view.
  rewrite G, (guest_or_owner_may_confirm _ _ _ P).
  apply (find_pk_In booking_pk) in G. destruct G as [Hb <-].
  cbv zeta. fold (confirmed b).
  assert (Hpk : In (booking_pk (confirmed b)) (map booking_pk (bookings s)))
    by (exact (in_map booking_pk _ b Hb)).
  match goal with
  | |- context [BookingHistory_get_or_create ?s1 ?k ?d] =>
      destruct (get_or_create_cases s1 k d) as [[h [Gh E]]|[Gh E]]; rewrite E
  end; cbn [fst snd]; intros Wr;
    (split; [reflexivity|]); (split; [exact Wr|]); (split; [reflexivity|]);
    (split;
     [unfold get_booking; simpl;
      apply (find_save_row booking_pk (confirmed b)); exact Hpk|]).
  - eexists. split;
      [apply (get_history_saved _ _ h); [exact Gh | reflexivity | reflexivity]
      | repeat split].
  - eexists. split; [now apply get_history_added | repeat split].
Qed.

(** C6. Two confirmations in a row of a Pending booking, each by the guest
    or by the owner of the room, both succeed, leave the booking Confirmed
    and leave exactly one history record for it; that record is the one of
    the second confirmation. *)
Theorem confirm_twice_one_history (s : Store) (user1 user2 : User) (pk : Z)
    (b : Booking) :
  WF s -> get_booking s pk = Some b -> booking_status b = PENDING ->
  guest_or_owner s user1 b -> guest_or_owner s user2 b ->
  let r1 := confirmBooking user1 pk s in
  let r2 := confirmBooking user2 pk (fst r1) in
  snd r1 = RedirectSuccess /\ snd r2 = RedirectSuccess
  /\ get_booking (fst r2) pk = Some (confirmed b)
  /\ history_count (fst r2) pk = 1%nat
  /\ exists h, get_history (fst r2) pk = Some h
               /\ old_status h = Some CONFIRMED /\ new_status h = CONFIRMED
               /\ changed_by h = display_name user2.
Proof.
  intros W G St P1 P2 r1 r2.
  destruct (confirm_once s user1 pk b W G P1) as [S1 [W1 [R1 [G1 _]]]].
  fold r1 in S1, W1, R1, G1.
  assert (P2' : guest_or_owner (fst r1) user2 (confirmed b)).
  { unfold guest_or_owner, get_room in *. rewrite R1. exact P2. }
  destruct (confirm_once (fst r1) user2 pk (confirmed b) W1 G1 P2')
    as [S2 [W2 [_ [G2 [h [Gh [Ho [Hn [Hc _]]]]]]]]].
  fold r2 in S2, W2, G2, Gh.
  repeat split; auto.
  - exact (history_count_one _ _ h W2 Gh).
  - exists h. auto.
Qed.

Lemma confirm_twice_one_history_witness :
  let r1 := confirmBooking bob 1 store1 in
  let r2 := confirmBooking alice 1 (fst r1) in
  snd r1 = RedirectSuccess /\ snd r2 = RedirectSuccess
  /\ get_booking (fst r2) 1
     = Some (confirmed (mkBooking 1 2 1 10 12 PENDING 2000%float))
  /\ history_count (fst r2) 1 = 1%nat
  /\ exists h, get_history (fst r2) 1 = Some h
               /\ old_status h = Some CONFIRMED /\ new_status h = CONFIRMED
               /\ changed_by h = display_name alice.
Proof.
  apply (confirm_twice_one_history store1 bob alice 1
           (mkBooking 1 2 1 10 12 PENDING 2000%float)).
  - apply wf_store_WF. reflexivity.
  - reflexivity.
  - reflexivity.
  - left. reflexivity.
  - right. exists room1. split; reflexivity.
Defined.

(** ** Cancelling a booking *)

(** The handler [delete] of [BookingDeleteView], which serves a request of
    method DELETE, never removes a row: the keys of the booking table are
    the same afterwards.  Anyone but the booking's guest is turned away and
    the store is untouched.  When it succeeds, the booking of the guest is
    Cancelled and its history record holds the old status, the new status
    Cancelled and, as the actor, the first and the last name of the guest
    with a space between; and it does succeed for a regular user on a
    booking of theirs. *)
Theorem delete_handler_is_a_transition (user : User) (pk : Z) (s : Store) :
  let r := cancelBooking user pk s in
  map booking_pk (bookings (fst r)) = map booking_pk (bookings s)
  /\ ((forall b, In b (bookings s) -> booking_pk b = pk ->
                 booking_guest b <> user_pk user) ->
      fst r = s /\ snd r <> RedirectSuccess)
  /\ (snd r = RedirectSuccess ->
      exists b,
        In b (bookings s) /\ booking_pk b = pk
        /\ booking_guest b = user_pk user
        /\ bookings (fst r) = save_row booking_pk (cancelled b) (bookings s)
        /\ get_booking (fst r) pk = Some (cancelled b)
        /\ exists h,
             get_history (fst r) pk = Some h
             /\ old_status h = Some (booking_status b)
             /\ new_status h = CANCELLED
             /\ changed_by h
                = (first_name user ++ " " ++ last_name user)%string
             /\ change_description h = DescCancelled)
  /\ (UserRequired user = true ->
      (exists b, In b (bookings s) /\ booking_pk b = pk
                 /\ booking_guest b = user_pk user) ->
      snd r = RedirectSuccess).
Proof.
  assert (Dn : display_name user
               = (first_name user ++ " " ++ last_name user)%string).
  { unfold display_name, get_full_name.
    destruct (first_name user); reflexivity. }
  intros r. subst r. unfold cancelBooking, BookingDeleteView_delete.
  destruct (UserRequired user) eqn:Eu; simpl negb; cbv iota.
  2:{ repeat split; try discriminate; try reflexivity. }
  destruct (find _ (bookings s)) as [b|] eqn:F.
  2:{ repeat split; try discriminate; try reflexivity.
      intros _ [b [Hb [K G]]]. apply (find_none _ _ F) in Hb.
      rewrite K, G, !Z.eqb_refl in Hb. discriminate Hb. }
  pose proof (find_some _ _ F) as [Hb Hp].
  apply andb_true_iff in Hp. destruct Hp as [Kp Kg].
  apply Z.eqb_eq in Kp, Kg. subst pk.
  cbv zeta. fold (cancelled b).
  assert (Hpk : In (booking_pk (cancelled b)) (map booking_pk (bookings s)))
    by (exact (in_map booking_pk _ b Hb)).
  match goal with
  | |- context [BookingHistory_update_or_create ?s1 ?k ?d] =>
      destruct (update_or_create_cases s1 k d) as [[h [Gh E]]|[Gh E]]; rewrite E
  end; cbn [fst snd];
    (split; [simpl; apply save_row_keys|]);
    (split; [intros H; exfalso; now apply (H b)|]);
    (split; [|reflexivity]); intros _; exists b;
    (split; [exact Hb|]); (split; [reflexivity|]); (split; [exact Kg|]);
    (split; [reflexivity|]);
    (split;
     [unfold get_booking; simpl;
      apply (find_save_row booking_pk (cancelled b)); exact Hpk|]).
  - eexists. split;
      [apply (get_history_saved _ _ h); [exact Gh | reflexivity | reflexivity]
      | repeat split; exact Dn].
  - eexists. split; [now apply get_history_added | repeat split; exact Dn].
Qed.

(** On the sample store Bob cancels his booking: the row stays, Cancelled. *)
Example cancelBooking_sample :
  snd (cancelBooking bob 1 store1) = RedirectSuccess
  /\ map booking_status (bookings (fst (cancelBooking bob 1 store1)))
     = [CANCELLED]
  /\ map changed_by (histories (fst (cancelBooking bob 1 store1)))
     = ["Bob Petrov"%string]
  /\ snd (cancelBooking carol 1 store1) = Http404.
Proof. repeat split. Qed.

(** The forms answer with the errors they found. *)
Example form_errors_are_reported :
  createBooking 5 bob 1 3 8 store0 = (store0, FormInvalid [PastCheckIn])
  /\ createBooking 5 bob 1 9 9 store0
     = (store0, FormInvalid [CheckOutNotLater])
  /\ updateBookingDates 5 bob 1 12 11 store1
     = (store1, FormInvalid [CheckOutNotLater])
  /\ createReview 100 bob 1 7 "Great" store1
     = (store1, FormInvalid [RatingOutOfRange])
  /\ createReview 100 bob 1 7 (String "000" "Great") store1
     = (store1, FormInvalid [NullCharacters; RatingOutOfRange])
  /\ ReviewReplyView 400 alice 1 (String "000" "") store5
     = (store5, FormInvalid [NullCharacters]).
Proof. repeat split. Qed.

(** C7.  The claim fails on the request the confirmation page sends.  The
    class puts the transition in [delete], and a POST is served by the
    [post] and [form_valid] of the generic view instead: Bob's booking is
    removed, and its history record and its review go with it.  Sent with
    the method DELETE, the same request keeps the row and marks it
    Cancelled. *)
Example cancel_by_post_removes_booking :
  map booking_pk (bookings store5) = [1]
  /\ map history_booking (histories store5) = [1]
  /\ map review_booking (reviews store5) = [1]
  /\ snd (BookingDeleteView_post bob 1 store5) = RedirectPlain
  /\ bookings (fst (BookingDeleteView_post bob 1 store5)) = []
  /\ histories (fst (BookingDeleteView_post bob 1 store5)) = []
  /\ reviews (fst (BookingDeleteView_post bob 1 store5)) = []
  /\ map booking_status
       (bookings (fst (BookingDeleteView_delete bob 1 store5)))
     = [CANCELLED].
Proof. repeat split. Qed.

(** ** Writing a review *)

Lemma createReview_rejected_unchanged now user booking_id rating_arg text s :
  snd (createReview now user booking_id rating_arg text s) <> RedirectSuccess ->
  fst (createReview now user booking_id rating_arg text s) = s.
Proof.
  unfold createReview, ReviewCreateView.
  destruct (find _ (bookings s)) as [b|]; [|reflexivity].
  destruct (get_room s (booking_room b)) as [room|]; [|reflexivity].
  destruct (room_owner room =? user_pk user); [reflexivity|].
  destruct (negb (UserRequired user)); [reflexivity|].
  destruct (ReviewForm_errors rating_arg text); [|reflexivity].
  destruct (Review_insert s _); [|reflexivity].
  simpl. congruence.
Qed.

(** A review is written only when its booking, its guest and its room have
    none yet. *)
Lemma createReview_success_fresh now user booking_id rating_arg text s :
  snd (createReview now user booking_id rating_arg text s) = RedirectSuccess ->
  exists b,
    find (fun b => (booking_pk b =? booking_id)
                   && (booking_guest b =? user_pk user)) (bookings s) = Some b
    /\ ~ In booking_id (map review_booking (reviews s))
    /\ ~ In (user_pk user) (map review_guest (reviews s))
    /\ ~ In (booking_room b) (map review_room (reviews s)).
Proof.
  unfold createReview, ReviewCreateView.
  destruct (find _ (bookings s)) as [b|] eqn:F; [|discriminate].
  destruct (get_room s (booking_room b)) as [room|] eqn:G; [|discriminate].
  destruct (room_owner room =? user_pk user); [discriminate|].
  destruct (negb (UserRequired user)); [discriminate|].
  destruct (ReviewForm_errors rating_arg text); [|discriminate].
  unfold Review_insert. simpl.
  destruct (mem (booking_pk b) _) eqn:M1; [discriminate|].
  destruct (mem (user_pk user) _) eqn:M2; [discriminate|].
  destruct (mem (room_pk room) _) eqn:M3; [discriminate|].
  intros _. exists b. split; [reflexivity|].
  apply mem_false in M1, M2, M3.
  apply find_some in F. destruct F as [_ Hp].
  apply andb_true_iff in Hp. destruct Hp as [Kp _]. apply Z.eqb_eq in Kp.
  apply (find_pk_In room_pk) in G. destruct G as [_ Kr].
  rewrite <- Kp, <- Kr. auto.
Qed.

Lemma ReviewForm_valid (rating_arg : Z) (text : string) :
  1 <= rating_arg <= 5 -> has_null (strip text) = false ->
  ReviewForm_errors rating_arg text = [].
Proof.
  intros H N. unfold ReviewForm_errors, text_field_errors. rewrite N.
  destruct (1 <=? rating_arg) eqn:E1, (rating_arg <=? 5) eqn:E2;
    try reflexivity; rewrite ?Z.leb_gt in *; lia.
Qed.

Lemma ReviewForm_rating (rating_arg : Z) (text : string) :
  ReviewForm_errors rating_arg text = [] -> 1 <= rating_arg <= 5.
Proof.
  unfold ReviewForm_errors. intros E. apply app_eq_nil in E.
  destruct E as [_ E].
  destruct (1 <=? rating_arg) eqn:E1, (rating_arg <=? 5) eqn:E2;
    try discriminate E. apply Z.leb_le in E1, E2. lia.
Qed.

Lemma ReviewForm_null (rating_arg : Z) (text : string) :
  has_null (strip text) = true ->
  exists errs, ReviewForm_errors rating_arg text = NullCharacters :: errs.
Proof.
  intros N. unfold ReviewForm_errors, text_field_errors. rewrite N.
  simpl. eauto.
Qed.

(** C8. When the booking already has a review, createReview writes nothing
    and does not succeed, whatever the caller, the rating and the text; and
    when the call is otherwise in order (the caller is the booking's guest, a
    regular user who does not own the room, the rating is within 1 to 5 and
    the text, once stripped, holds no null character) the answer is the form
    error 'a review for this booking already exists', the integrity error
    of the insert having been caught.  A text with a null character is
    refused by the form before any insert is tried, and the answer then
    starts with the error of that field. *)
Theorem createReview_second_rejected (now : Z) (user : User)
    (booking_id rating_arg : Z) (text : string) (s : Store) :
  (exists r, In r (reviews s) /\ review_booking r = booking_id) ->
  let res := createReview now user booking_id rating_arg text s in
  fst res = s /\ snd res <> RedirectSuccess
  /\ (forall b room,
        find (fun b => (booking_pk b =? booking_id)
                       && (booking_guest b =? user_pk user)) (bookings s)
        = Some b ->
        get_room s (booking_room b) = Some room ->
        room_owner room <> user_pk user ->
        UserRequired user = true ->
        (1 <= rating_arg <= 5 -> has_null (strip text) = false ->
         snd res = FormInvalid [ReviewAlreadyExists])
        /\ (has_null (strip text) = true ->
            exists errs, snd res = FormInvalid (NullCharacters :: errs))).
Proof.
  intros [r [Hr Kr]] res.
  assert (N : snd res <> RedirectSuccess).
  { intros E. apply createReview_success_fresh in E.
    destruct E as [b [_ [N _]]]. apply N. rewrite <- Kr. now apply in_map. }
  split; [now apply createReview_rejected_unchanged|].
  split; [exact N|].
  intros b room F G O U. revert N. subst res.
  unfold createReview, ReviewCreateView.
  rewrite F, G, U. apply Z.eqb_neq in O. rewrite O. simpl negb. cbv iota.
  intros N. split.
  - intros V T. revert N. rewrite (ReviewForm_valid _ _ V T).
    destruct (Review_insert s _); [|reflexivity].
    simpl. congruence.
  - intros T. destruct (ReviewForm_null rating_arg text T) as [errs E].
    rewrite E. exists errs. reflexivity.
Qed.

Lemma createReview_second_rejected_witness :
  let res := createReview 101 bob 1 4 "Again" store5 in
  fst res = store5 /\ snd res <> RedirectSuccess
  /\ snd res = FormInvalid [ReviewAlreadyExists].
Proof.
  assert (H : exists r, In r (reviews store5) /\ review_booking r = 1).
  { eexists. split; [left; reflexivity | reflexivity]. }
  destruct (createReview_second_rejected 101 bob 1 4 "Again" store5 H)
    as [H1 [H2 H3]].
  split; [exact H1|]. split; [exact H2|].
  apply (H3 (mkBooking 1 2 1 10 12 PENDING 2000%float) room1);
    try reflexivity; try discriminate. lia.
Defined.

(** The same request with a null character in the text: the form answers
    for the field, and the table is not tried. *)
Example createReview_null_text :
  createReview 101 bob 1 4 (String "000" "Again") store5
  = (store5, FormInvalid [NullCharacters]).
Proof. reflexivity. Qed.

(** C10. In every reachable store no two reviews share a guest and no two
    share a room.  A guest who has a review cannot write another, whatever
    the booking; neither can a second review be written for a room that has
    one. *)
Theorem review_one_per_guest_and_room (s : Store) :
  reachable s ->
  NoDup (map review_guest (reviews s))
  /\ NoDup (map review_room (reviews s))
  /\ (forall now user booking_id rating_arg text,
        let res := createReview now user booking_id rating_arg text s in
        (exists r, In r (reviews s) /\ review_guest r = user_pk user) ->
        fst res = s /\ snd res <> RedirectSuccess)
  /\ (forall now user booking_id rating_arg text b,
        let res := createReview now user booking_id rating_arg text s in
        In b (bookings s) -> booking_pk b = booking_id ->
        (exists r, In r (reviews s) /\ review_room r = booking_room b) ->
        fst res = s /\ snd res <> RedirectSuccess).
Proof.
  intros R. apply WF_reachable in R.
  split; [apply R|]. split; [apply R|]. split.
  - intros now user booking_id rating_arg text res [r [Hr Kr]].
    assert (N : snd res <> RedirectSuccess).
    { intros E. apply createReview_success_fresh in E.
      destruct E as [b [_ [_ [N _]]]]. apply N. rewrite <- Kr.
      now apply in_map. }
    split; [now apply createReview_rejected_unchanged | exact N].
  - intros now user booking_id rating_arg text b res Hb Kb [r [Hr Kr]].
    assert (N : snd res <> RedirectSuccess).
    { intros E. apply createReview_success_fresh in E.
      destruct E as [b0 [F [_ [_ N]]]]. apply find_some in F.
      destruct F as [Hb0 Hp]. apply andb_true_iff in Hp.
      destruct Hp as [Kp _]. apply Z.eqb_eq in Kp.
      assert (b0 = b).
      { apply (find_by_key_unique booking_pk (bookings s) booking_id); auto.
        apply distinct_NoDup. apply R. }
      subst b0. apply N. rewrite <- Kr. now apply in_map. }
    split; [now apply createReview_rejected_unchanged | exact N].
Qed.

(** Bob, who reviewed room 1, books room 2 and tries to review that stay. *)
Lemma review_one_per_guest_and_room_witness :
  reachable store6
  /\ NoDup (map review_guest (reviews store6))
  /\ NoDup (map review_room (reviews store6))
  /\ fst (createReview 200 bob 2 5 "Also fine" store6) = store6
  /\ snd (createReview 200 bob 2 5 "Also fine" store6)
     = FormInvalid [ReviewAlreadyExists].
Proof.
  assert (R : reachable store6).
  { unfold store6, store5, store1. repeat apply reach_step.
    apply reach_init. repeat split; reflexivity. }
  destruct (review_one_per_guest_and_room store6 R) as [H1 [H2 [H3 _]]].
  split; [exact R|]. split; [exact H1|]. split; [exact H2|].
  split; [|reflexivity].
  apply (H3 200 bob 2 5 "Also fine"%string).
  eexists. split; [left; reflexivity | reflexivity].
Defined.

(** ** Listing reviews *)

Lemma ReviewStatus_eqb_eq (a b : ReviewStatus) :
  ReviewStatus_eqb a b = true <-> a = b.
Proof. destruct a, b; simpl; split; congruence. Qed.

Lemma owner_filter_spec (s : Store) (user : User) (r : Review) :
  match get_room s (review_room r) with
  | Some room => room_owner room =? user_pk user
  | None => false
  end = true <-> owns_room s user (review_room r).
Proof.
  unfold owns_room. destruct (get_room s (review_room r)) as [room|].
  - rewrite Z.eqb_eq. split; [eauto|]. intros [r0 [E O]]. congruence.
  - split; [discriminate|]. intros [r0 [E _]]. discriminate E.
Qed.

(** C9, as amended.  [ReviewListView] returns exactly: with a room filter,
    the Approved reviews of that room, for every viewer, its owner included;
    without one, to an anonymous viewer the Approved reviews, to a signed-in
    viewer who owns a room the reviews of the rooms they own in any status,
    and to a signed-in viewer who owns none their own reviews in any status.
    Hence a review shown to someone who neither wrote it nor owns its room is
    Approved. *)
Theorem review_list_visibility (s : Store) (viewer : option User)
    (room_param : option Z) (r : Review) :
  (In r (ReviewListView_get_queryset s viewer room_param)
   <-> In r (reviews s) /\ listed s viewer room_param r)
  /\ (In r (ReviewListView_get_queryset s viewer room_param) ->
      match viewer with
      | None => True
      | Some user =>
          review_guest r <> user_pk user /\ ~ owns_room s user (review_room r)
      end ->
      review_status r = APPROVED).
Proof.
  assert (M : In r (ReviewListView_get_queryset s viewer room_param)
              <-> In r (reviews s) /\ listed s viewer room_param r).
  { unfold ReviewListView_get_queryset, newest_first, listed.
    rewrite order_by_In.
    destruct room_param as [room_id|]; [|destruct viewer as [user|]].
    - rewrite filter_In, andb_true_iff, Z.eqb_eq, ReviewStatus_eqb_eq.
      reflexivity.
    - destruct (is_owner s user).
      + rewrite filter_In, owner_filter_spec. reflexivity.
      + rewrite filter_In, Z.eqb_eq. reflexivity.
    - rewrite filter_In, ReviewStatus_eqb_eq. reflexivity. }
  split; [exact M|].
  intros H V. apply M in H. destruct H as [_ L]. unfold listed in L.
  destruct room_param as [room_id|]; [tauto|].
  destruct viewer as [user|]; [|exact L].
  destruct (is_owner s user); tauto.
Qed.

(** C9 as stated fails.  Bob's review of room 1 awaits moderation.  Alice,
    who owns room 1, does not get it when she lists the reviews of room 1,
    nor on the page of the room; Bob, who wrote it and owns room 3, does not
    get it in his list. *)
Lemma review_list_hides_pending :
  (exists r, reviews store5 = [r]
             /\ review_status r = REVIEW_PENDING
             /\ review_guest r = user_pk bob
             /\ review_room r = room_pk room1
             /\ room_owner room1 = user_pk alice)
  /\ ReviewListView_get_queryset store5 (Some alice) (Some 1) = []
  /\ RoomDetailView_reviews store5 1 = []
  /\ is_owner store5 bob = true
  /\ ReviewListView_get_queryset store5 (Some bob) None = [].
Proof.
  split; [eexists; repeat split|]; repeat split.
Qed.

(** What Alice does get without the room filter: the pending review. *)
Example review_list_owner_sample :
  map review_pk (ReviewListView_get_queryset store5 (Some alice) None) = [1]
  /\ map review_pk (ReviewListView_get_queryset store5 (Some carol) None) = []
  /\ map review_pk (ReviewListView_get_queryset store5 None None) = [].
Proof. repeat split. Qed.

(** ** Further properties *)

Lemma scan_after_save (l : list Booking) (b' : Booking) (q : Booking -> bool) :
  filter (fun x => q x && negb (booking_pk x =? booking_pk b'))
         (save_row booking_pk b' l)
  = filter (fun x => q x && negb (booking_pk x =? booking_pk b')) l.
Proof.
  unfold save_row. induction l as [|y l IH]; [reflexivity|].
  simpl. destruct (booking_pk y =? booking_pk b') eqn:E.
  - rewrite Z.eqb_refl, !andb_false_r. exact IH.
  - rewrite E, IH. reflexivity.
Qed.

(** After a successful change of dates, the conflict scan for the new range
    that leaves the booking itself out finds nothing in the new store. *)
Theorem update_then_hasConflict_false (today : date) (user : User) (pk : Z)
    (check_in check_out : date) (s : Store) (b : Booking) :
  snd (updateBookingDates today user pk check_in check_out s) = RedirectSuccess ->
  get_booking (fst (updateBookingDates today user pk check_in check_out s)) pk
  = Some b ->
  hasConflict (fst (updateBookingDates today user pk check_in check_out s))
              (booking_room b) check_in check_out (Some pk) = false.
Proof.
  unfold updateBookingDates, update_booking_view.
  destruct (find _ (bookings s)) as [b0|] eqn:F; [|discriminate].
  pose proof (find_some _ _ F) as [Hb Hp].
  apply andb_true_iff in Hp. destruct Hp as [Kp _]. apply Z.eqb_eq in Kp.
  subst pk.
  destruct (BookingCreateForm_errors today check_in check_out); [|discriminate].
  destruct (exists_ _) eqn:Ex; [discriminate|].
  destruct (get_room s (booking_room b0)) as [room|]; [|discriminate].
  cbv zeta. set (b' := mkBooking _ _ _ _ _ _ _).
  assert (Hpk : In (booking_pk b') (map booking_pk (bookings s)))
    by (exact (in_map booking_pk _ b0 Hb)).
  assert (Sc : forall s', bookings s' = save_row booking_pk b' (bookings s) ->
             get_booking s' (booking_pk b0) = Some b ->
             hasConflict s' (booking_room b) check_in check_out
                         (Some (booking_pk b0)) = false).
  { intros s' Eb G. unfold get_booking in G. rewrite Eb in G.
    pose proof (find_save_row booking_pk b' _ Hpk) as Fs.
    change (booking_pk b') with (booking_pk b0) in Fs.
    rewrite Fs in G. injection G as <-.
    rewrite hasConflict_excluding. unfold conflicting_bookings in *.
    rewrite Eb. rewrite <- Ex. f_equal. rewrite !filter_filter.
    exact (scan_after_save (bookings s) b'
             (fun x => (booking_room x =? booking_room b0)
                       && blocks check_in check_out x)). }
  match goal with
  | |- context [BookingHistory_get_or_create ?s1 ?k ?d] =>
      destruct (get_or_create_cases s1 k d) as [[h [G E]]|[G E]]; rewrite E
  end; cbn [fst snd]; intros _; apply Sc; reflexivity.
Qed.

(** Room 1 has Bob's booking and Carol's for nights 14 to 16.  Bob moves
    his to nights 17 to 19: the scan that leaves his own booking out finds
    nothing for that range, the scan that does not finds his, and for a range
    that meets Carol's nights the scan finds hers all the same. *)
Lemma update_then_hasConflict_false_witness :
  map booking_pk (bookings store9) = [1; 2]
  /\ hasConflict (fst (updateBookingDates 5 bob 1 17 19 store9)) 1 17 19
                 (Some 1) = false
  /\ hasConflict (fst (updateBookingDates 5 bob 1 17 19 store9)) 1 17 19 None
     = true
  /\ hasConflict (fst (updateBookingDates 5 bob 1 17 19 store9)) 1 16 19
                 (Some 1) = true
  /\ snd (updateBookingDates 5 bob 1 16 19 store9)
     = FormInvalid [RoomAlreadyBooked].
Proof.
  split; [reflexivity|]. split; [|repeat split].
  apply (update_then_hasConflict_false 5 bob 1 17 19 store9
           (mkBooking 1 2 1 17 19 PENDING 2000%float)); reflexivity.
Defined.

(** [get_full_name] always holds the separating space, so the fall-back to
    the e-mail address in [get_full_name() or email] is never taken. *)
Theorem display_name_is_full_name (u : User) : display_name u = get_full_name u.
Proof.
  unfold display_name, get_full_name.
  destruct (first_name u) as [|c t]; reflexivity.
Qed.

(** * Further properties of the views *)

(** ** The effect of each booking view *)

Lemma store_eta (s : Store) :
  s = mkStore (rooms s) (bookings s) (histories s) (reviews s).
Proof. destruct s; reflexivity. Qed.

Lemma history_written_get_or_create (s : Store) (b b' : Booking)
    (d : HistoryDefaults) (upd : BookingHistory -> BookingHistory) :
  booking_pk b' = booking_pk b ->
  d_new_status d = booking_status b' ->
  (forall h, history_pk (upd h) = history_pk h
             /\ history_booking (upd h) = history_booking h
             /\ (new_status (upd h) = booking_status b'
                 \/ (new_status (upd h) = new_status h
                     /\ booking_status b' = booking_status b))) ->
  exists hs',
    history_written s b b' hs'
    /\ fst (match BookingHistory_get_or_create (save_booking s b')
                    (booking_pk b') d with
            | None => (save_booking s b', ServerError)
            | Some (s2, h, created) =>
                if created then (s2, RedirectSuccess)
                else (save_history s2 (upd h), RedirectSuccess)
            end)
       = mkStore (rooms s) (save_row booking_pk b' (bookings s)) hs'
                 (reviews s).
Proof.
  intros K Dn U.
  destruct (get_or_create_cases (save_booking s b') (booking_pk b') d)
    as [[h [G E]]|[G E]]; rewrite E; cbn [fst].
  - exists (save_row history_pk (upd h) (histories s)).
    split; [|reflexivity]. left. exists h, (upd h).
    destruct (U h) as [U1 [U2 U3]]. rewrite <- K. repeat split; auto.
  - exists (histories s ++ [new_history (save_booking s b') (booking_pk b') d]).
    split; [|reflexivity]. right. rewrite <- K. split; [exact G|].
    exists (new_history (save_booking s b') (booking_pk b') d).
    split; [reflexivity|]. split; [exact Dn | reflexivity].
Qed.

Lemma BookingCreateView_effect today user room_id ci co s :
  WF s -> booking_effect s (fst (BookingCreateView today user room_id ci co s)).
Proof.
  intros W. unfold BookingCreateView, booking_effect.
  destruct (find _ (rooms s)) as [room|] eqn:F; [|now left].
  destruct (room_owner room =? user_pk user) eqn:Eo; [now left|].
  destruct (negb (UserRequired user)); [now left|].
  pose proof (BookingCreateForm_valid today ci co) as Fv.
  destruct (BookingCreateForm_errors today ci co); [|now left].
  destruct (exists_ _); [now left|].
  cbv zeta. rewrite history_create_after_add; [|exact W|reflexivity].
  right. left. apply find_some in F. destruct F as [Hr Hp].
  apply andb_true_iff in Hp. destruct Hp as [_ Ar].
  apply Z.eqb_neq in Eo. destruct Fv as [Fv _]. specialize (Fv eq_refl).
  exists room,
    (mkBooking (next_pk (map booking_pk (bookings s))) (user_pk user)
       (room_pk room) ci co PENDING
       (float_mul_int (price_per_night room) (co - ci))),
    (new_history s (next_pk (map booking_pk (bookings s)))
       (mkDefaults None PENDING "SYSTEM" DescCreated)).
  cbn [fst]. simpl.
  repeat (split; [first [reflexivity | assumption | lia]|]).
  reflexivity.
Qed.

Lemma BookingDeleteView_delete_effect user pk s :
  booking_effect s (fst (BookingDeleteView_delete user pk s)).
Proof.
  unfold BookingDeleteView_delete, booking_effect.
  destruct (negb (UserRequired user)); [now left|].
  destruct (find _ (bookings s)) as [b|] eqn:F; [|now left].
  cbv zeta. fold (cancelled b). right. right.
  apply find_some in F. destruct F as [Hb _].
  destruct (update_or_create_cases (save_booking s (cancelled b))
              (booking_pk (cancelled b))
              (mkDefaults (Some (booking_status b)) CANCELLED
                 (display_name user) DescCancelled)) as [[h [G E]]|[G E]];
    rewrite E; cbn [fst].
  - exists b, (cancelled b),
      (save_row history_pk
         (mkHistory (history_pk h) (history_booking h)
            (Some (booking_status b)) CANCELLED (display_name user)
            DescCancelled) (histories s)).
    split; [exact Hb|]. split; [reflexivity|].
    split; [left; repeat split|]. split; [|reflexivity].
    left. exists h,
      (mkHistory (history_pk h) (history_booking h)
         (Some (booking_status b)) CANCELLED (display_name user)
         DescCancelled).
    split; [exact G|]. split; [reflexivity|]. split; [reflexivity|].
    split; [now left | reflexivity].
  - exists b, (cancelled b),
      (histories s ++
       [new_history (save_booking s (cancelled b)) (booking_pk b)
          (mkDefaults (Some (booking_status b)) CANCELLED
             (display_name user) DescCancelled)]).
    split; [exact Hb|]. split; [reflexivity|].
    split; [left; repeat split|]. split; [|reflexivity].
    right. split; [exact G|].
    exists (new_history (save_booking s (cancelled b)) (booking_pk b)
              (mkDefaults (Some (booking_status b)) CANCELLED
                 (display_name user) DescCancelled)).
    split; [|split]; reflexivity.
Qed.

Lemma confirm_booking_view_effect method user pk s :
  booking_effect s (fst (confirm_booking_view method user pk s)).
Proof.
  unfold confirm_booking_view, booking_effect.
  destruct (get_booking s pk) as [b|] eqn:F; [|now left].
  destruct (may_not_confirm s user b) as [[|]|]; try now left.
  destruct method; [now left|].
  cbv zeta. fold (confirmed b). right. right.
  apply find_some in F. destruct F as [Hb _].
  destruct (history_written_get_or_create s b (confirmed b)
              (mkDefaults (Some (booking_status b)) CONFIRMED
                 (display_name user) DescConfirmed)
              (fun h => mkHistory (history_pk h) (history_booking h)
                          (Some (booking_status b)) CONFIRMED
                          (display_name user) DescConfirmed))
    as [hs' [Hw E]]; try reflexivity.
  { intros h. repeat split. now left. }
  exists b, (confirmed b), hs'.
  split; [exact Hb|]. split; [reflexivity|].
  split; [left; repeat split|]. split; [exact Hw|exact E].
Qed.

Lemma update_booking_view_effect today method user pk ci co s :
  booking_effect s (fst (update_booking_view today method user pk ci co s)).
Proof.
  unfold update_booking_view, booking_effect.
  destruct (find _ (bookings s)) as [b|] eqn:F; [|now left].
  destruct method; [now left|].
  pose proof (BookingCreateForm_valid today ci co) as Fv.
  destruct (BookingCreateForm_errors today ci co); [|now left].
  destruct (exists_ _); [now left|].
  destruct (get_room s (booking_room b)) as [room|] eqn:Gr; [|now left].
  cbv zeta. set (b' := mkBooking _ _ _ _ _ _ _). right. right.
  apply find_some in F. destruct F as [Hb _].
  destruct Fv as [Fv _]. specialize (Fv eq_refl).
  destruct (history_written_get_or_create s b b'
              (mkDefaults (Some (booking_status b')) (booking_status b')
                 (display_name user)
                 (DescDatesChanged (total_cost b) (total_cost b')))
              (fun h => mkHistory (history_pk h) (history_booking h)
                          (old_status h) (new_status h) (display_name user)
                          (DescDatesChanged (total_cost b) (total_cost b'))))
    as [hs' [Hw E]]; try reflexivity.
  { intros h. repeat split. right. split; reflexivity. }
  exists b, b', hs'.
  split; [exact Hb|]. split; [reflexivity|].
  split; [|split; [exact Hw|exact E]].
  right. split; [reflexivity|]. split; [simpl; lia|].
  exists room. split; [exact Gr|reflexivity].
Qed.

Lemma BookingDeleteView_post_effect user pk s :
  fst (BookingDeleteView_post user pk s) = s
  \/ ((exists b, In b (bookings s) /\ booking_pk b = pk
                 /\ booking_guest b = user_pk user)
      /\ fst (BookingDeleteView_post user pk s) = delete_booking s pk).
Proof.
  unfold BookingDeleteView_post.
  destruct (negb (UserRequired user)); [now left|].
  destruct (find _ (bookings s)) as [b|] eqn:F; [|now left].
  apply find_some in F. destruct F as [Hb P].
  apply andb_true_iff in P. destruct P as [K G]. apply Z.eqb_eq in K, G.
  right. simpl. rewrite K. split; [exists b|]; auto.
Qed.

(** The review views leave rooms, bookings and histories alone; the booking
    views leave the reviews alone, but for the POST that deletes a booking
    with what hangs on it. *)
Lemma handle_effect (q : Request) (s : Store) :
  WF s ->
  match q with
  | ReqCreateBooking _ _ _ _ _ | ReqCancelBooking _ _ | ReqConfirmBooking _ _
  | ReqUpdateBooking _ _ _ _ _ => booking_effect s (fst (handle q s))
  | ReqDeleteBooking _ pk =>
      fst (handle q s) = s \/ fst (handle q s) = delete_booking s pk
  | _ => rooms (fst (handle q s)) = rooms s
         /\ bookings (fst (handle q s)) = bookings s
         /\ histories (fst (handle q s)) = histories s
  end.
Proof.
  intros W.
  destruct q; unfold handle, createBooking, cancelBooking, confirmBooking,
    updateBookingDates, createReview.
  - now apply BookingCreateView_effect.
  - apply BookingDeleteView_delete_effect.
  - apply confirm_booking_view_effect.
  - apply update_booking_view_effect.
  - unfold ReviewCreateView.
    destruct (find _ (bookings s)); [|auto].
    destruct (get_room s _); [|auto].
    destruct (_ =? _); [auto|].
    destruct (negb _); [auto|].
    destruct (ReviewForm_errors _ _); [|auto].
    unfold Review_insert. destruct (_ || _); auto.
  - unfold ReviewQuickModerateView.
    destruct (negb _); [auto|].
    destruct (find _ _); [|auto]. destruct action; auto.
  - unfold ReviewModerateView.
    destruct (negb _); [auto|]. destruct (find _ _); [|auto].
    destruct (ReviewModerationForm_errors _); auto.
  - unfold ReviewReplyView. destruct (find _ _); [|auto].
    destruct (ReviewReplyForm_errors _); auto.
  - unfold ReviewUpdateView.
    destruct (negb _); [auto|].
    destruct (find _ _); [|auto].
    destruct (ReviewForm_errors _ _); auto.
  - unfold ReviewDeleteView.
    destruct (negb _); [auto|]. destruct (find _ _); auto.
  - destruct (BookingDeleteView_post_effect user pk s) as [E|[_ E]]; auto.
Qed.

(** ** Rows written by the views stay well-formed *)

Lemma booking_effect_frame (s s' : Store) :
  WF s -> booking_effect s s' ->
  rooms s' = rooms s /\ reviews s' = reviews s
  /\ exists added,
       map booking_ident (bookings s')
       = map booking_ident (bookings s) ++ added.
Proof.
  intros W [->|[[room [b [h Hc]]]|[b [b' [hs' [Hb [I [_ [_ ->]]]]]]]]].
  - repeat split. exists []. now rewrite app_nil_r.
  - destruct Hc as [Cr [Ca [Co [Cp [Ck [Cs [Cd [Cc [Chb [Chn ->]]]]]]]]]]. repeat split.
    exists [booking_ident b]. simpl. now rewrite map_app.
  - repeat split. exists []. rewrite app_nil_r. simpl.
    apply (map_save_row_same booking_pk booking_ident b' b);
      [apply W | exact Hb | unfold booking_ident in I; congruence | exact I].
Qed.

(** Every request but the POST that deletes a booking keeps the bookings
    in place, with their keys, guests and rooms. *)
Lemma booking_ident_kept (q : Request) (s : Store) :
  WF s ->
  match q with
  | ReqDeleteBooking _ _ => True
  | _ =>
      exists added,
        map booking_ident (bookings (fst (handle q s)))
        = map booking_ident (bookings s) ++ added
  end.
Proof.
  intros W. pose proof (handle_effect q s W) as E.
  destruct q; try exact I;
    try (apply (booking_effect_frame s _ W) in E; tauto);
    destruct E as [_ [-> _]]; exists []; now rewrite app_nil_r.
Qed.

Lemma rooms_kept (q : Request) (s : Store) :
  WF s -> rooms (fst (handle q s)) = rooms s.
Proof.
  intros W. pose proof (handle_effect q s W) as E.
  destruct q; try (destruct E as [-> | ->]; reflexivity);
    try (apply (booking_effect_frame s _ W) in E); tauto.
Qed.

Lemma room_by_key (s : Store) (r1 r2 : Room) :
  WF s -> In r1 (rooms s) -> In r2 (rooms s) -> room_pk r1 = room_pk r2 ->
  r1 = r2.
Proof.
  intros W H1 H2 K.
  apply (find_by_key_unique room_pk (rooms s) (room_pk r2)); auto.
  apply distinct_NoDup. apply W.
Qed.

Lemma booking_ok_rooms (s s' : Store) (b : Booking) :
  rooms s' = rooms s -> booking_ok s b -> booking_ok s' b.
Proof. unfold booking_ok. intros ->. auto. Qed.

Lemma booking_ok_effect (s s' : Store) :
  WF s -> booking_effect s s' ->
  (forall b, In b (bookings s) -> booking_ok s b) ->
  forall b, In b (bookings s') -> booking_ok s' b.
Proof.
  intros W [->|[[room [b0 [h Hc]]]|[b0 [b' [hs' [Hb [I [D [_ ->]]]]]]]]] IH b;
    [apply IH | |].
  - destruct Hc as [Cr [Ca [Co [Cp [Ck [Cs [Cd [Cc [Chb [Chn ->]]]]]]]]]]. simpl. intros Hin.
    apply in_app_or in Hin. destruct Hin as [Hin|[<-|[]]].
    + apply (booking_ok_rooms s); [reflexivity | now apply IH].
    + split; [assumption|]. exists room. repeat split; auto.
  - simpl. intros Hin. apply save_row_In in Hin.
    destruct Hin as [[-> _]|[Hin _]];
      [|apply (booking_ok_rooms s); [reflexivity | now apply IH]].
    destruct (IH b0 Hb) as [Hd [room [Hr [Kr [Or Cr]]]]].
    unfold booking_ident in I. injection I as Ip Ig Ir.
    destruct D as [[D1 [D2 D3]]|[_ [Hlt [room0 [G C]]]]].
    + split; [lia|]. exists room. simpl. rewrite Ir, Ig, D1, D2, D3. auto.
    + split; [exact Hlt|]. exists room. simpl. rewrite Ir, Ig.
      repeat split; auto.
      apply (find_pk_In room_pk) in G. destruct G as [Hr0 Kr0].
      assert (room0 = room) by (apply (room_by_key s); auto; congruence).
      subst room0. exact C.
Qed.

Lemma save_row_keeps {A : Type} (key : A -> Z) (x y : A) (l : list A) :
  In y l -> key y <> key x -> In y (save_row key x l).
Proof.
  intros H N. unfold save_row. apply in_map_iff. exists y.
  split; [|exact H]. apply Z.eqb_neq in N. now rewrite N.
Qed.

Lemma save_row_holds {A : Type} (key : A -> Z) (x : A) (l : list A) :
  In (key x) (map key l) -> In x (save_row key x l).
Proof.
  intros H. apply in_map_iff in H. destruct H as [y [K Hy]].
  unfold save_row. apply in_map_iff. exists y.
  split; [|exact Hy]. now rewrite K, Z.eqb_refl.
Qed.

Lemma history_agrees_effect (s s' : Store) :
  WF s -> booking_effect s s' -> history_agrees s -> history_agrees s'.
Proof.
  intros W [->|[[room [b0 [h Hc]]]|[b0 [b' [hs' [Hb [I [_ [Hw ->]]]]]]]]] IH;
    [exact IH | |]; unfold history_agrees in *.
  - destruct Hc as [Cr [Ca [Co [Cp [Ck [Cs [Cd [Cc [Chb [Chn ->]]]]]]]]]]. simpl. intros b Hin.
    apply in_app_or in Hin. destruct Hin as [Hin|[<-|[]]].
    + destruct (IH b Hin) as [hb [H1 H2]]. exists hb.
      split; [apply in_or_app; now left | exact H2].
    + exists h. split; [apply in_or_app; right; now left|]. split; congruence.
  - unfold booking_ident in I. injection I as Ip Ig Ir.
    simpl. intros b Hin. apply save_row_In in Hin.
    destruct Hw as [[h [h' [G [Kp [Kb [Ns ->]]]]]]|[G [h' [Kb [Ns ->]]]]].
    + apply (find_pk_In history_booking) in G. destruct G as [Hh Khb].
      destruct Hin as [[-> _]|[Hin Np]].
      * exists h'. split; [|split; [congruence|]].
        -- apply save_row_holds. rewrite Kp. now apply in_map.
        -- destruct Ns as [Ns|[Ns Sb]]; [exact Ns|].
           destruct (IH b0 Hb) as [h0 [H0 [K0 N0]]].
           assert (h0 = h).
           { apply (find_by_key_unique history_booking (histories s)
                      (booking_pk b0)); auto.
             apply distinct_NoDup. apply W. }
           subst h0. congruence.
      * destruct (IH b Hin) as [hb [H1 [H2 H3]]]. exists hb.
        split; [|split; assumption].
        apply save_row_keeps; [exact H1|]. rewrite Kp. intros Eq.
        assert (hb = h).
        { apply (find_by_key_unique history_pk (histories s) (history_pk h));
            auto. apply distinct_NoDup. apply W. }
        subst hb. congruence.
    + destruct Hin as [[-> _]|[Hin Np]].
      * exists h'. split; [apply in_or_app; right; now left|].
        split; congruence.
      * destruct (IH b Hin) as [hb [H1 H2]]. exists hb.
        split; [apply in_or_app; now left | exact H2].
Qed.

(** What a review view may do to the review table. *)
Lemma reviews_effect (q : Request) (s : Store) (r' : Review) :
  match q with
  | ReqCreateBooking _ _ _ _ _ | ReqCancelBooking _ _ | ReqConfirmBooking _ _
  | ReqUpdateBooking _ _ _ _ _ => True
  | _ =>
      In r' (reviews (fst (handle q s))) ->
      (exists r, In r (reviews s)
                 /\ review_booking r' = review_booking r
                 /\ review_guest r' = review_guest r
                 /\ review_room r' = review_room r
                 /\ (rating r' = rating r \/ 1 <= rating r' <= 5))
      \/ (1 <= rating r' <= 5
          /\ exists b, In b (bookings s) /\ booking_pk b = review_booking r'
                       /\ booking_guest b = review_guest r'
                       /\ booking_room b = review_room r')
  end.
Proof.
  assert (Same : forall x, In x (reviews s) ->
            exists r, In r (reviews s)
                      /\ review_booking x = review_booking r
                      /\ review_guest x = review_guest r
                      /\ review_room x = review_room r
                      /\ (rating x = rating r \/ 1 <= rating x <= 5)).
  { intros x Hx. exists x. repeat split; auto. }
  assert (Saved : forall now r0 x,
            In r0 (reviews s) ->
            review_booking x = review_booking r0 ->
            review_guest x = review_guest r0 ->
            review_room x = review_room r0 ->
            (rating x = rating r0 \/ 1 <= rating x <= 5) ->
            In r' (reviews (save_review now s x)) ->
            exists r, In r (reviews s)
                      /\ review_booking r' = review_booking r
                      /\ review_guest r' = review_guest r
                      /\ review_room r' = review_room r
                      /\ (rating r' = rating r \/ 1 <= rating r' <= 5)).
  { intros now r0 x H0 Kb Kg Kr Rt Hin. unfold save_review in Hin.
    simpl in Hin. apply save_row_In in Hin.
    destruct Hin as [[-> _]|[Hin _]]; [|now apply Same].
    exists r0. simpl. auto. }
  destruct q; try exact I; unfold handle, createReview.
  - unfold ReviewCreateView.
    destruct (find _ (bookings s)) as [b|] eqn:F; [|left; now apply Same].
    destruct (get_room s _) as [room|] eqn:G; [|left; now apply Same].
    destruct (_ =? _); [left; now apply Same|].
    destruct (negb _); [left; now apply Same|].
    destruct (ReviewForm_errors rating_arg text) eqn:Er; [|left; now apply Same].
    unfold Review_insert. destruct (_ || _); [left; now apply Same|].
    simpl. intros Hin. apply in_app_or in Hin.
    destruct Hin as [Hin|[<-|[]]]; [left; now apply Same|].
    right. simpl. split.
    + exact (ReviewForm_rating _ _ Er).
    + apply find_some in F. destruct F as [Hb Hp].
      apply andb_true_iff in Hp. destruct Hp as [_ Kg].
      apply Z.eqb_eq in Kg. apply (find_pk_In room_pk) in G.
      exists b. repeat split; auto. symmetry. tauto.
  - unfold ReviewQuickModerateView.
    destruct (negb _); [left; now apply Same|].
    destruct (find _ _) as [r0|] eqn:F; [|left; now apply Same].
    apply find_some in F. destruct F as [H0 _].
    destruct action; intros Hin; left;
      [eapply Saved; [exact H0| | | | |exact Hin]; auto ..
      | now apply Same].
  - unfold ReviewModerateView.
    destruct (negb _); [left; now apply Same|].
    destruct (find _ _) as [r0|] eqn:F; [|left; now apply Same].
    apply find_some in F. destruct F as [H0 _].
    destruct (ReviewModerationForm_errors _); [|left; now apply Same].
    intros Hin; left. eapply Saved; [exact H0| | | | |exact Hin]; auto.
  - unfold ReviewReplyView.
    destruct (find _ _) as [r0|] eqn:F; [|left; now apply Same].
    apply find_some in F. destruct F as [H0 _].
    destruct (ReviewReplyForm_errors _); [|left; now apply Same].
    intros Hin; left. eapply Saved; [exact H0| | | | |exact Hin]; auto.
  - unfold ReviewUpdateView.
    destruct (negb _); [left; now apply Same|].
    destruct (find _ _) as [r0|] eqn:F; [|left; now apply Same].
    apply find_some in F. destruct F as [H0 _].
    destruct (ReviewForm_errors rating_arg text) eqn:Er; [|left; now apply Same].
    intros Hin; left. eapply Saved; [exact H0| | | | |exact Hin]; auto.
    right. simpl. exact (ReviewForm_rating _ _ Er).
  - unfold ReviewDeleteView.
    destruct (negb _); [left; now apply Same|].
    destruct (find _ _) as [r0|]; [|left; now apply Same].
    simpl. intros Hin. apply filter_In in Hin. left. apply Same. tauto.
  - intros Hin. left. apply Same.
    destruct (BookingDeleteView_post_effect user pk s) as [E|[_ E]];
      rewrite E in Hin; [exact Hin|].
    simpl in Hin. apply filter_In in Hin. tauto.
Qed.

Lemma reviews_kept_by_bookings (q : Request) (s : Store) :
  WF s ->
  match q with
  | ReqCreateBooking _ _ _ _ _ | ReqCancelBooking _ _ | ReqConfirmBooking _ _
  | ReqUpdateBooking _ _ _ _ _ => reviews (fst (handle q s)) = reviews s
  | _ => True
  end.
Proof.
  intros W. pose proof (handle_effect q s W) as E.
  destruct q; try exact I; apply (booking_effect_frame s _ W) in E; tauto.
Qed.

Lemma review_ok_step_kept (q : Request) (s : Store) :
  WF s ->
  (exists added,
     map booking_ident (bookings (fst (handle q s)))
     = map booking_ident (bookings s) ++ added) ->
  (forall r, In r (reviews s) -> review_ok s r) ->
  forall r, In r (reviews (fst (handle q s))) -> review_ok (fst (handle q s)) r.
Proof.
  intros W [added Hid] IH r' Hin.
  assert (Keep : forall b, In b (bookings s) ->
            exists b', In b' (bookings (fst (handle q s)))
                       /\ booking_ident b' = booking_ident b).
  { intros b Hb. apply (in_map booking_ident) in Hb.
    assert (H : In (booking_ident b)
                   (map booking_ident (bookings (fst (handle q s)))))
      by (rewrite Hid; apply in_or_app; now left).
    apply in_map_iff in H. destruct H as [b' [E Hb']]. eauto. }
  assert (Lift : forall r,
            (exists b, In b (bookings s) /\ booking_pk b = review_booking r
                       /\ booking_guest b = review_guest r
                       /\ booking_room b = review_room r) ->
            exists b, In b (bookings (fst (handle q s)))
                      /\ booking_pk b = review_booking r
                      /\ booking_guest b = review_guest r
                      /\ booking_room b = review_room r).
  { intros r [b [Hb [K1 [K2 K3]]]]. destruct (Keep b Hb) as [b' [Hb' E]].
    unfold booking_ident in E. injection E as E1 E2 E3.
    exists b'. repeat split; congruence. }
  pose proof (reviews_effect q s r') as Re.
  pose proof (reviews_kept_by_bookings q s W) as Rk.
  assert (Old : In r' (reviews s) -> review_ok (fst (handle q s)) r').
  { intros H. destruct (IH r' H) as [Rt Bk]. split; [exact Rt|].
    now apply Lift. }
  assert (New :
    ((exists r, In r (reviews s)
                /\ review_booking r' = review_booking r
                /\ review_guest r' = review_guest r
                /\ review_room r' = review_room r
                /\ (rating r' = rating r \/ 1 <= rating r' <= 5))
     \/ (1 <= rating r' <= 5
         /\ exists b, In b (bookings s) /\ booking_pk b = review_booking r'
                      /\ booking_guest b = review_guest r'
                      /\ booking_room b = review_room r')) ->
    review_ok (fst (handle q s)) r').
  { intros [[r [Hr [Kb [Kg [Kr Rt]]]]]|[Rt Bk]].
    - destruct (IH r Hr) as [Rr Bk]. split.
      + destruct Rt as [->|Rt]; assumption.
      + apply Lift. rewrite Kb, Kg, Kr. exact Bk.
    - split; [exact Rt | now apply Lift]. }
  destruct q; try (apply New, Re, Hin); apply Old; rewrite <- Rk; exact Hin.
Qed.

(** Deleting a booking takes its review along, so that no review is left
    without its booking. *)
Lemma review_ok_delete (s : Store) (pk : Z) :
  (forall r, In r (reviews s) -> review_ok s r) ->
  forall r, In r (reviews (delete_booking s pk)) ->
            review_ok (delete_booking s pk) r.
Proof.
  intros IH r Hin. simpl in Hin. apply filter_In in Hin.
  destruct Hin as [Hin N]. destruct (IH r Hin) as [Rt [b [Hb [K1 [K2 K3]]]]].
  split; [exact Rt|]. exists b. repeat split; auto.
  simpl. apply filter_In. split; [exact Hb|]. now rewrite K1.
Qed.

Lemma review_ok_step (q : Request) (s : Store) :
  WF s ->
  (forall r, In r (reviews s) -> review_ok s r) ->
  forall r, In r (reviews (fst (handle q s))) -> review_ok (fst (handle q s)) r.
Proof.
  intros W IH. pose proof (booking_ident_kept q s W) as K.
  destruct q; try (now apply review_ok_step_kept).
  unfold handle.
  destruct (BookingDeleteView_post_effect user pk s) as [E|[_ E]];
    rewrite E; [exact IH | now apply review_ok_delete].
Qed.

Lemma reachable_rows_ok (s : Store) :
  reachable s ->
  (forall b, In b (bookings s) -> booking_ok s b)
  /\ history_agrees s
  /\ (forall r, In r (reviews s) -> review_ok s r).
Proof.
  induction 1 as [s [_ [Eb [_ Er]]]|s q R [IH1 [IH2 IH3]]].
  - unfold history_agrees. rewrite Eb, Er. split; [|split]; intros ? [].
  - pose proof (WF_reachable s R) as W.
    pose proof (handle_effect q s W) as E.
    split; [|split].
    + destruct q; try (now apply (booking_ok_effect s));
        try solve [destruct E as [Er [Eb _]]; intros b Hb; rewrite Eb in Hb;
                   apply (booking_ok_rooms s); auto].
      destruct E as [-> | ->]; [exact IH1|].
      intros b Hb. simpl in Hb. apply filter_In in Hb.
      apply (booking_ok_rooms s); [reflexivity | apply IH1, Hb].
    + destruct q; try (now apply (history_agrees_effect s));
        try solve [destruct E as [_ [Eb Eh]]; unfold history_agrees;
                   rewrite Eb, Eh; exact IH2].
      destruct E as [-> | ->]; [exact IH2|].
      intros b Hb. simpl in Hb. apply filter_In in Hb. destruct Hb as [Hb N].
      destruct (IH2 b Hb) as [h [Hh [Kh Sh]]]. exists h.
      split; [|split; assumption].
      simpl. apply filter_In. split; [exact Hh|]. now rewrite Kh.
    + now apply review_ok_step.
Qed.

Lemma booking_kept_step (q : Request) (s : Store) (b : Booking) :
  (exists added,
     map booking_ident (bookings (fst (handle q s)))
     = map booking_ident (bookings s) ++ added) ->
  In b (bookings s) ->
  exists b', In b' (bookings (fst (handle q s)))
             /\ booking_ident b' = booking_ident b.
Proof.
  intros [added Hid] Hb. apply (in_map booking_ident) in Hb.
  assert (H : In (booking_ident b)
                 (map booking_ident (bookings (fst (handle q s)))))
    by (rewrite Hid; apply in_or_app; now left).
  apply in_map_iff in H. destruct H as [b' [E Hb']]. eauto.
Qed.

Lemma booking_gone_or_kept (qs : list Request) :
  forall (s : Store) (b : Booking),
    WF s -> In b (bookings s) ->
    In (booking_ident b) (map booking_ident (bookings (run qs s)))
    \/ exists user,
         In (ReqDeleteBooking user (booking_pk b)) qs
         /\ user_pk user = booking_guest b.
Proof.
  induction qs as [|q qs IH]; intros s b W Hb.
  - left. now apply in_map.
  - change (run (q :: qs) s) with (run qs (fst (handle q s))).
    pose proof (WF_handle q s W) as W'.
    assert (Later : forall b',
              In b' (bookings (fst (handle q s))) ->
              booking_ident b' = booking_ident b ->
              In (booking_ident b)
                 (map booking_ident (bookings (run qs (fst (handle q s)))))
              \/ exists user,
                   In (ReqDeleteBooking user (booking_pk b)) (q :: qs)
                   /\ user_pk user = booking_guest b).
    { intros b' Hb' E. destruct (IH _ b' W' Hb') as [H|[user [H G]]].
      - left. now rewrite <- E.
      - unfold booking_ident in E. injection E as E1 E2 _.
        right. exists user. rewrite E1 in H. rewrite E2 in G.
        split; [now right | exact G]. }
    pose proof (booking_ident_kept q s W) as K.
    destruct q;
      try solve [destruct (booking_kept_step _ s b K Hb) as [b' [Hb' E]];
                 now apply (Later b')].
    unfold handle in *.
    destruct (BookingDeleteView_post_effect user pk s)
      as [E|[[b0 [H0 [K0 G0]]] E]].
    + apply (Later b); [rewrite E; exact Hb | reflexivity].
    + destruct (Z.eq_dec (booking_pk b) pk) as [Ep|Np].
      * assert (b0 = b).
        { apply (find_by_key_unique booking_pk (bookings s) pk); auto.
          apply distinct_NoDup. apply W. }
        subst b0. right. exists user. rewrite Ep.
        split; [now left | auto].
      * apply (Later b); [|reflexivity]. rewrite E. simpl.
        apply filter_In. split; [exact Hb|].
        apply negb_true_iff. now apply Z.eqb_neq.
Qed.

Lemma bookings_prefix_without_post (qs : list Request) :
  forall s : Store,
    WF s ->
    (forall user pk, ~ In (ReqDeleteBooking user pk) qs) ->
    exists added,
      map booking_ident (bookings (run qs s))
      = map booking_ident (bookings s) ++ added.
Proof.
  induction qs as [|q qs IH]; intros s W N.
  - exists []. now rewrite app_nil_r.
  - change (run (q :: qs) s) with (run qs (fst (handle q s))).
    destruct (IH (fst (handle q s)) (WF_handle q s W)) as [a2 E2].
    { intros user pk H. apply (N user pk). now right. }
    pose proof (booking_ident_kept q s W) as K.
    destruct q;
      [ destruct K as [a1 E1]; exists (a1 ++ a2);
        rewrite E2, E1; now rewrite app_assoc ..
      | elim (N user pk); now left ].
Qed.

(** A booking leaves the table in one way only, by a POST of the delete
    confirmation that its guest sends: after any sequence of requests, a
    booking that was there is still there with its key, guest and room, or
    the sequence holds such a POST for its key by its guest.  A sequence
    without such a POST removes no booking and keeps the bookings in their
    order: their keys, guests and rooms are a prefix of those present
    afterwards. *)
Theorem bookings_leave_only_by_post (qs : list Request) (s : Store) :
  WF s ->
  (forall b, In b (bookings s) ->
     In (booking_ident b) (map booking_ident (bookings (run qs s)))
     \/ exists user,
          In (ReqDeleteBooking user (booking_pk b)) qs
          /\ user_pk user = booking_guest b)
  /\ ((forall user pk, ~ In (ReqDeleteBooking user pk) qs) ->
      exists added,
        map booking_ident (bookings (run qs s))
        = map booking_ident (bookings s) ++ added).
Proof.
  intros W. split.
  - intros b Hb. now apply booking_gone_or_kept.
  - now apply bookings_prefix_without_post.
Qed.

(** Bob and Carol hold bookings of room 1; Bob sends the POST, Carol's
    attempt on Bob's key is answered 404.  Carol's booking is still there
    and Bob's is gone. *)
Lemma bookings_leave_only_by_post_witness :
  map booking_pk (bookings store9) = [1; 2]
  /\ map booking_pk
       (bookings (run [ReqDeleteBooking carol 1; ReqDeleteBooking bob 1;
                       q_bob_confirms] store9))
     = [2]
  /\ forall b, In b (bookings store9) ->
       In (booking_ident b)
          (map booking_ident
             (bookings (run [ReqDeleteBooking carol 1; ReqDeleteBooking bob 1;
                             q_bob_confirms] store9)))
       \/ exists user,
            In (ReqDeleteBooking user (booking_pk b))
               [ReqDeleteBooking carol 1; ReqDeleteBooking bob 1;
                q_bob_confirms]
            /\ user_pk user = booking_guest b.
Proof.
  split; [reflexivity|]. split; [reflexivity|].
  apply (bookings_leave_only_by_post
           [ReqDeleteBooking carol 1; ReqDeleteBooking bob 1; q_bob_confirms]
           store9).
  apply wf_store_WF. reflexivity.
Defined.

Lemma get_room_of (s : Store) (room : Room) :
  WF s -> In room (rooms s) -> get_room s (room_pk room) = Some room.
Proof.
  intros W H. unfold get_room.
  destruct (find _ (rooms s)) as [r0|] eqn:F.
  - apply (find_pk_In room_pk) in F. destruct F as [H0 K].
    f_equal. now apply (room_by_key s).
  - apply (find_pk_None room_pk) in F. exfalso. apply F. now apply in_map.
Qed.

(** In every store reached by requests to the booking and review views,
    the rooms being left as they are, each booking has its check-in date
    before its check-out date, a room that exists and that its guest does
    not own, and a total cost equal to the price of that room times the
    nights. *)
Theorem reachable_bookings_ok (s : Store) (b : Booking) :
  reachable s -> In b (bookings s) ->
  check_in_date b < check_out_date b
  /\ exists room,
       get_room s (booking_room b) = Some room
       /\ room_owner room <> booking_guest b
       /\ total_cost b
          = float_mul_int (price_per_night room)
                          (check_out_date b - check_in_date b).
Proof.
  intros R Hb. pose proof (WF_reachable s R) as W.
  destruct (reachable_rows_ok s R) as [Ok _].
  destruct (Ok b Hb) as [Hd [room [Hr [K [O C]]]]].
  split; [exact Hd|]. exists room. rewrite <- K.
  split; [now apply get_room_of | now split].
Qed.

Lemma reachable_store6 : reachable store6.
Proof.
  unfold store6, store5, store1. repeat apply reach_step.
  apply reach_init. repeat split; reflexivity.
Qed.

Lemma reachable_bookings_ok_witness :
  check_in_date (mkBooking 2 2 2 20 22 PENDING 5000%float)
  < check_out_date (mkBooking 2 2 2 20 22 PENDING 5000%float)
  /\ exists room,
       get_room store6 2 = Some room
       /\ room_owner room <> 2
       /\ 5000%float = float_mul_int (price_per_night room) (22 - 20).
Proof.
  apply (reachable_bookings_ok store6
           (mkBooking 2 2 2 20 22 PENDING 5000%float) reachable_store6).
  right. left. reflexivity.
Defined.

(** In every store reached by requests to the booking and review views
    each booking has exactly one history record, and the new status it
    records is the status of the booking. *)
Theorem reachable_history_agrees (s : Store) (b : Booking) :
  reachable s -> In b (bookings s) ->
  history_count s (booking_pk b) = 1%nat
  /\ exists h, get_history s (booking_pk b) = Some h
               /\ new_status h = booking_status b.
Proof.
  intros R Hb. pose proof (WF_reachable s R) as W.
  destruct (reachable_rows_ok s R) as [_ [Ag _]].
  destruct (Ag b Hb) as [h [Hh [K N]]].
  assert (G : get_history s (booking_pk b) = Some h).
  { unfold get_history.
    destruct (find _ (histories s)) as [h0|] eqn:F.
    - apply (find_pk_In history_booking) in F. destruct F as [H0 K0].
      f_equal.
      apply (find_by_key_unique history_booking (histories s) (booking_pk b));
        auto. apply distinct_NoDup. apply W.
    - apply (find_pk_None history_booking) in F. exfalso. apply F.
      rewrite <- K. now apply in_map. }
  split; [exact (history_count_one s _ h W G)|].
  exists h. now split.
Qed.

Lemma reachable_history_agrees_witness :
  history_count store6 1 = 1%nat
  /\ exists h, get_history store6 1 = Some h /\ new_status h = PENDING.
Proof.
  apply (reachable_history_agrees store6
           (mkBooking 1 2 1 10 12 PENDING 2000%float) reachable_store6).
  left. reflexivity.
Defined.

(** In every store reached by requests to the booking and review views,
    the rooms being left as they are, each review has a rating from 1 to 5
    and belongs to an existing booking with the same guest and the same
    room, and its author does not own that room. *)
Theorem reachable_reviews_ok (s : Store) (r : Review) :
  reachable s -> In r (reviews s) ->
  1 <= rating r <= 5
  /\ exists b room,
       get_booking s (review_booking r) = Some b
       /\ booking_guest b = review_guest r
       /\ booking_room b = review_room r
       /\ get_room s (review_room r) = Some room
       /\ room_owner room <> review_guest r.
Proof.
  intros R Hr. pose proof (WF_reachable s R) as W.
  destruct (reachable_rows_ok s R) as [Ok [_ Rv]].
  destruct (Rv r Hr) as [Rt [b [Hb [Kb [Kg Kr]]]]].
  split; [exact Rt|].
  destruct (Ok b Hb) as [_ [room [Hroom [K [O _]]]]].
  exists b, room. repeat split; auto.
  - unfold get_booking.
    destruct (find _ (bookings s)) as [b0|] eqn:F.
    + apply (find_pk_In booking_pk) in F. destruct F as [H0 K0]. f_equal.
      apply (find_by_key_unique booking_pk (bookings s) (review_booking r));
        auto. apply distinct_NoDup. apply W.
    + apply (find_pk_None booking_pk) in F. exfalso. apply F.
      rewrite <- Kb. now apply in_map.
  - rewrite <- Kr, <- K. now apply get_room_of.
  - congruence.
Qed.

Lemma reachable_reviews_ok_witness :
  1 <= 5 <= 5
  /\ exists b room,
       get_booking store6 1 = Some b
       /\ booking_guest b = 2 /\ booking_room b = 1
       /\ get_room store6 1 = Some room /\ room_owner room <> 2.
Proof.
  apply (reachable_reviews_ok store6
           (mkReview 1 1 2 1 5 "Great" REVIEW_PENDING None "" None "" None 100)
           reachable_store6).
  left. reflexivity.
Defined.

(** ** Searching, booking and cancelling *)

Lemma get_available_rooms_In (upper : string -> string) (s : Store)
    (dest : option string) (ci co : date) (r : Room) :
  In r (get_available_rooms upper s dest ci co)
  <-> strip (or_empty dest) <> EmptyString
      /\ In r (rooms s)
      /\ findAvailableRooms_offers upper s (or_empty dest) ci co r = true.
Proof.
  unfold get_available_rooms.
  destruct (strip (or_empty dest)) as [|c t] eqn:T; simpl is_empty; cbv iota.
  - split; [intros [] | intros [N _]; now elim N].
  - rewrite order_by_In, <- T, available_rooms_filter, filter_In, T.
    split; [intros [H1 H2] | intros [_ H]]; auto.
    split; [discriminate | auto].
Qed.

Lemma offers_no_conflict (upper : string -> string) (s : Store) (dest : string)
    (ci co : date) (r : Room) :
  findAvailableRooms_offers upper s dest ci co r = true ->
  room_is_active r = true
  /\ exists_ (conflicting_bookings s (room_pk r) ci co) = false.
Proof.
  unfold findAvailableRooms_offers. rewrite !andb_true_iff, negb_true_iff.
  intros [[A _] E]. split; [exact A|].
  destruct (conflicting_bookings s (room_pk r) ci co) as [|b l] eqn:C;
    [reflexivity|].
  assert (Hb : In b (conflicting_bookings s (room_pk r) ci co))
    by (rewrite C; now left).
  unfold conflicting_bookings in Hb. rewrite filter_In in Hb.
  destruct Hb as [Hb P]. rewrite blocks_spec in P.
  assert (X : existsb
     (fun b => (booking_room b =? room_pk r)
               && match booking_status b with
                  | PENDING | CONFIRMED => true
                  | CANCELLED => false
                  end
               && (check_in_date b <=? co) && (check_out_date b >=? ci))
     (bookings s) = true).
  { apply existsb_exists. exists b. split; [exact Hb|].
    rewrite <- !andb_assoc in *. exact P. }
  rewrite X in E. discriminate E.
Qed.

(** The store a successful [BookingCreateView] returns. *)
Lemma BookingCreateView_success (today : date) (user : User) (room : Room)
    (ci co : date) (s : Store) :
  WF s -> In room (rooms s) -> room_is_active room = true ->
  room_owner room <> user_pk user -> UserRequired user = true ->
  today <= ci -> ci < co ->
  exists_ (conflicting_bookings s (room_pk room) ci co) = false ->
  BookingCreateView today user (room_pk room) ci co s
  = (mkStore (rooms s)
       (bookings s
        ++ [mkBooking (next_pk (map booking_pk (bookings s))) (user_pk user)
              (room_pk room) ci co PENDING
              (float_mul_int (price_per_night room) (co - ci))])
       (histories s
        ++ [new_history s (next_pk (map booking_pk (bookings s)))
              (mkDefaults None PENDING "SYSTEM" DescCreated)])
       (reviews s),
     RedirectSuccess).
Proof.
  intros W Hr A O U D1 D2 C. unfold BookingCreateView.
  assert (F : find (fun r => (room_pk r =? room_pk room) && room_is_active r)
                   (rooms s) = Some room).
  { destruct (find _ (rooms s)) as [r0|] eqn:F.
    - apply find_some in F. destruct F as [H0 P].
      apply andb_true_iff in P. destruct P as [K _]. apply Z.eqb_eq in K.
      f_equal. now apply (room_by_key s).
    - apply (find_none _ _ F) in Hr. simpl in Hr.
      rewrite Z.eqb_refl, A in Hr. discriminate Hr. }
  rewrite F. apply Z.eqb_neq in O. rewrite O, U. simpl negb. cbv iota.
  assert (V : BookingCreateForm_errors today ci co = [])
    by (apply BookingCreateForm_valid; lia).
  rewrite V, C. cbv zeta.
  rewrite history_create_after_add; [reflexivity | exact W | reflexivity].
Qed.

(** A room the search offers for a range of dates can be booked for that
    range by any regular user who does not own it; once booked, the room is
    no longer offered for any range that meets the booked one. *)
Theorem offered_room_can_be_booked (upper : string -> string) (s : Store)
    (dest : option string) (today check_in check_out : date) (r : Room)
    (user : User) :
  WF s ->
  In r (get_available_rooms upper s dest check_in check_out) ->
  today <= check_in -> check_in < check_out ->
  UserRequired user = true -> room_owner r <> user_pk user ->
  snd (createBooking today user (room_pk r) check_in check_out s)
  = RedirectSuccess
  /\ forall upper' dest' a b r',
       a <= check_out -> check_in <= b -> room_pk r' = room_pk r ->
       ~ In r' (get_available_rooms upper'
                  (fst (createBooking today user (room_pk r) check_in
                          check_out s)) dest' a b).
Proof.
  intros W Hin D1 D2 U O.
  apply get_available_rooms_In in Hin. destruct Hin as [_ [Hr Off]].
  apply offers_no_conflict in Off. destruct Off as [A C].
  unfold createBooking.
  rewrite (BookingCreateView_success today user r check_in check_out s);
    auto.
  split; [reflexivity|].
  intros upper' dest' a b r' Ha Hb K Hin'. cbn [fst] in Hin'.
  apply get_available_rooms_In in Hin'. destruct Hin' as [_ [_ Off']].
  unfold findAvailableRooms_offers in Off'.
  rewrite !andb_true_iff, negb_true_iff in Off'. destruct Off' as [_ E].
  simpl bookings in E. rewrite existsb_app in E.
  apply orb_false_iff in E. destruct E as [_ E]. simpl in E.
  rewrite K, Z.eqb_refl, orb_false_r in E. simpl in E.
  rewrite andb_false_iff, Z.geb_leb, Z.leb_gt, Z.leb_gt in E. lia.
Qed.

Lemma offered_room_can_be_booked_witness :
  snd (createBooking 5 bob (room_pk room1) 10 12 store0) = RedirectSuccess
  /\ forall upper' dest' a b r',
       a <= 12 -> 10 <= b -> room_pk r' = room_pk room1 ->
       ~ In r' (get_available_rooms upper'
                  (fst (createBooking 5 bob (room_pk room1) 10 12 store0))
                  dest' a b).
Proof.
  apply (offered_room_can_be_booked ascii_upper store0 (Some "moscow"%string)
           5 10 12 room1 bob).
  - apply wf_store_WF. reflexivity.
  - left. reflexivity.
  - lia.
  - lia.
  - reflexivity.
  - discriminate.
Defined.

Lemma save_row_fresh {A : Type} (key : A -> Z) (x : A) (l : list A) :
  ~ In (key x) (map key l) -> save_row key x l = l.
Proof.
  intros H. unfold save_row. rewrite <- (map_id l) at 2.
  apply map_ext_in. intros y Hy.
  destruct (key y =? key x) eqn:K; [|reflexivity].
  apply Z.eqb_eq in K. exfalso. apply H. rewrite <- K. now apply in_map.
Qed.

Lemma find_app_fresh {A : Type} (p : A -> bool) (x : A) (l : list A) :
  (forall y, In y l -> p y = false) -> p x = true ->
  find p (l ++ [x]) = Some x.
Proof.
  intros H P. apply find_app_last; [|exact P].
  destruct (find p l) as [y|] eqn:F; [|reflexivity].
  apply find_some in F. destruct F as [Hy Py]. rewrite (H y Hy) in Py.
  discriminate Py.
Qed.

Lemma blocks_cancelled (a b : date) (c : Booking) :
  booking_status c = CANCELLED -> blocks a b c = false.
Proof.
  intros E. unfold blocks. rewrite E. simpl. apply andb_false_r.
Qed.

(** A Cancelled booking at the end of the table does not show in a search. *)
Lemma get_available_rooms_cancelled_tail (upper : string -> string)
    (s s2 : Store) (c : Booking) (dest : option string) (a b : date) :
  rooms s2 = rooms s -> bookings s2 = bookings s ++ [c] ->
  booking_status c = CANCELLED ->
  get_available_rooms upper s2 dest a b = get_available_rooms upper s dest a b.
Proof.
  intros Er Eb Ec.
  assert (T : forall p0 : Booking -> bool,
            filter (fun x => p0 x && blocks a b x) (bookings s ++ [c])
            = filter (fun x => p0 x && blocks a b x) (bookings s)).
  { intros p0. rewrite filter_app. simpl.
    now rewrite (blocks_cancelled a b c Ec), andb_false_r, app_nil_r. }
  unfold get_available_rooms. cbv zeta. rewrite Er, Eb, T. reflexivity.
Qed.

(** Booking a room and cancelling that booking leaves the search as it was:
    for every destination and every range of dates the rooms offered are
    those offered before the booking was made. *)
Theorem book_then_cancel_restores_search (today : date) (user : User)
    (room_id : Z) (check_in check_out : date) (s : Store) :
  WF s ->
  snd (createBooking today user room_id check_in check_out s)
  = RedirectSuccess ->
  let s1 := fst (createBooking today user room_id check_in check_out s) in
  let pk := next_pk (map booking_pk (bookings s)) in
  snd (cancelBooking user pk s1) = RedirectSuccess
  /\ forall upper dest a b,
       get_available_rooms upper (fst (cancelBooking user pk s1)) dest a b
       = get_available_rooms upper s dest a b.
Proof.
  intros W Ok s1 pk. subst s1. revert Ok.
  unfold createBooking, BookingCreateView.
  destruct (find _ (rooms s)) as [room|] eqn:F; [|discriminate].
  destruct (room_owner room =? user_pk user); [discriminate|].
  destruct (UserRequired user) eqn:U; [|discriminate]. simpl negb. cbv iota.
  destruct (BookingCreateForm_errors today check_in check_out);
    [|discriminate].
  destruct (exists_ _); [discriminate|].
  cbv zeta. rewrite history_create_after_add; [|exact W|reflexivity].
  cbn [fst snd]. intros _.
  set (b := mkBooking _ _ _ _ _ _ _).
  unfold cancelBooking, BookingDeleteView_delete. rewrite U. simpl negb. cbv iota.
  cbn [bookings with_bookings with_histories].
  assert (Fb : find (fun x => (booking_pk x =? pk)
                              && (booking_guest x =? user_pk user))
                    (bookings s ++ [b]) = Some b).
  { apply find_app_fresh.
    - intros y Hy. apply andb_false_iff. left. apply Z.eqb_neq.
      intros K. apply (next_pk_fresh (map booking_pk (bookings s))).
      fold pk. rewrite <- K. now apply in_map.
    - subst b pk. simpl. now rewrite !Z.eqb_refl. }
  rewrite Fb. cbv zeta. fold (cancelled b).
  assert (Sv : save_row booking_pk (cancelled b) (bookings s ++ [b])
               = bookings s ++ [cancelled b]).
  { unfold save_row. rewrite map_app.
    fold (save_row booking_pk (cancelled b) (bookings s)).
    rewrite (save_row_fresh booking_pk (cancelled b) (bookings s))
      by (apply next_pk_fresh).
    simpl. now rewrite Z.eqb_refl. }
  match goal with
  | |- context [BookingHistory_update_or_create ?s1 ?k ?d] =>
      destruct (update_or_create_cases s1 k d) as [[h [G E]]|[G E]]; rewrite E
  end; cbn [fst snd]; (split; [reflexivity|]);
    intros upper dest a b0;
    apply (get_available_rooms_cancelled_tail upper s _ (cancelled b));
    try reflexivity; exact Sv.
Qed.

Lemma book_then_cancel_restores_search_witness :
  let s1 := fst (createBooking 5 bob 1 10 12 store0) in
  let pk := next_pk (map booking_pk (bookings store0)) in
  snd (cancelBooking bob pk s1) = RedirectSuccess
  /\ forall upper dest a b,
       get_available_rooms upper (fst (cancelBooking bob pk s1)) dest a b
       = get_available_rooms upper store0 dest a b.
Proof.
  apply (book_then_cancel_restores_search 5 bob 1 10 12 store0).
  - apply wf_store_WF. reflexivity.
  - reflexivity.
Defined.

(** The scan counts both end days: a request that starts on the day an
    active booking of the room ends, or ends on the day it starts, is
    refused as a conflict, so one guest cannot arrive on the day another
    leaves. *)
Theorem turnover_day_is_taken (today : date) (user : User) (room : Room)
    (b : Booking) (check_in check_out : date) (s : Store) :
  find (fun r => (room_pk r =? room_pk room) && room_is_active r) (rooms s)
  = Some room ->
  room_owner room <> user_pk user -> UserRequired user = true ->
  today <= check_in -> check_in < check_out ->
  In b (bookings s) -> booking_room b = room_pk room -> active b = true ->
  check_in_date b <= check_out_date b ->
  check_in = check_out_date b \/ check_out = check_in_date b ->
  createBooking today user (room_pk room) check_in check_out s
  = (s, FormInvalid [RoomAlreadyBooked]).
Proof.
  intros F O U D1 D2 Hb R A Db T.
  unfold createBooking, BookingCreateView.
  rewrite F. apply Z.eqb_neq in O. rewrite O, U. simpl negb. cbv iota.
  assert (V : BookingCreateForm_errors today check_in check_out = [])
    by (apply BookingCreateForm_valid; lia).
  rewrite V.
  assert (C : In b (conflicting_bookings s (room_pk room) check_in check_out)).
  { unfold conflicting_bookings, blocks. fold (active b).
    rewrite filter_In, !andb_true_iff, Z.geb_leb, !Z.leb_le, Z.eqb_eq.
    repeat split; auto; lia. }
  destruct (conflicting_bookings s (room_pk room) check_in check_out);
    [destruct C | reflexivity].
Qed.

Lemma turnover_day_is_taken_witness :
  createBooking 5 carol (room_pk room1) 12 14 store1
  = (store1, FormInvalid [RoomAlreadyBooked]).
Proof.
  apply (turnover_day_is_taken 5 carol room1
           (mkBooking 1 2 1 10 12 PENDING 2000%float) 12 14 store1);
    try reflexivity; try discriminate; try lia;
    try (left; reflexivity); simpl; lia.
Defined.

(** ** Roles *)

(** Every administrator is staff, and the three tests of
    [UserRequiredMixin] amount to not being staff: a signed-in user passes
    exactly one of [StaffRequiredMixin] and [UserRequiredMixin], and whoever
    passes [AdminRequiredMixin] passes [StaffRequiredMixin]. *)
Theorem roles_partition (u : User) :
  (AdminRequired u = true -> StaffRequired u = true)
  /\ UserRequired u = negb (StaffRequired u)
  /\ (UserRequired u = true <-> role u = USER /\ is_superuser u = false).
Proof.
  unfold AdminRequired, StaffRequired, UserRequired, is_admin, is_staff.
  destruct (role u), (is_superuser u); simpl;
    repeat split; try discriminate; try reflexivity;
    intros [H1 H2]; discriminate.
Qed.

(** ** The actions of the admin site *)

Section UpdateSelected.
Context {A : Type}.
Variable key : A -> Z.
Variable selected : list Z.
Variable f : A -> A.
Hypothesis f_key : forall x, key (f x) = key x.

Lemma update_selected_keys (l : list A) :
  map key (update_selected key selected f l) = map key l.
Proof.
  unfold update_selected. rewrite map_map. apply map_ext.
  intros x. destruct (mem (key x) selected); auto.
Qed.

Lemma update_selected_In (y : A) (l : list A) :
  In y (update_selected key selected f l)
  <-> exists x, In x l
                /\ ((mem (key x) selected = true /\ y = f x)
                    \/ (mem (key x) selected = false /\ y = x)).
Proof.
  unfold update_selected. rewrite in_map_iff. split.
  - intros [x [E Hx]]. exists x. split; [exact Hx|].
    destruct (mem (key x) selected); [left | right]; auto.
  - intros [x [Hx [[M ->]|[M ->]]]]; exists x; rewrite M; auto.
Qed.
End UpdateSelected.

Lemma bulk_status_rows (st : BookingStatus) (selected : list Z)
    (l : list Booking) (b' : Booking) :
  In b' (update_selected booking_pk selected (set_booking_status st) l) ->
  exists b, In b l /\ same_but_status b b'
            /\ booking_status b'
               = if mem (booking_pk b) selected then st else booking_status b.
Proof.
  intros H. apply (update_selected_In booking_pk selected) in H.
  destruct H as [b [Hb [[M ->]|[M ->]]]]; exists b; rewrite M;
    repeat split; auto.
Qed.

(** The admin's bulk confirmation and cancellation rewrite only the status
    of the selected bookings: every booking keeps its key, guest, room, dates
    and cost, and the histories are not written (so a history record may no
    longer tell the status of its booking).  Cancellation keeps the overlap
    invariant. *)
Theorem BookingAdmin_actions (selected : list Z) (s : Store) :
  let c := BookingAdmin_confirm_bookings selected s in
  let x := BookingAdmin_cancel_bookings selected s in
  (histories c = histories s /\ histories x = histories s)
  /\ (forall b', In b' (bookings c) ->
        exists b, In b (bookings s) /\ same_but_status b b'
                  /\ booking_status b'
                     = if mem (booking_pk b) selected then CONFIRMED
                       else booking_status b)
  /\ (forall b', In b' (bookings x) ->
        exists b, In b (bookings s) /\ same_but_status b b'
                  /\ booking_status b'
                     = if mem (booking_pk b) selected then CANCELLED
                       else booking_status b)
  /\ (map booking_pk (bookings c) = map booking_pk (bookings s)
      /\ map booking_pk (bookings x) = map booking_pk (bookings s))
  /\ (no_overlap s -> no_overlap x).
Proof.
  intros c x. subst c x.
  unfold BookingAdmin_confirm_bookings, BookingAdmin_cancel_bookings.
  cbn [fst snd bookings histories with_bookings].
  split; [split; reflexivity|].
  split; [intros b'; apply bulk_status_rows|].
  split; [intros b'; apply bulk_status_rows|].
  split; [split; apply (update_selected_keys booking_pk selected);
          reflexivity|].
  intros H b1 b2 H1 H2 Np R A1 A2.
  apply (update_selected_In booking_pk selected) in H1, H2.
  destruct H1 as [x1 [Hx1 [[_ ->]|[_ ->]]]]; [discriminate A1|].
  destruct H2 as [x2 [Hx2 [[_ ->]|[_ ->]]]]; [discriminate A2|].
  now apply H.
Qed.

(** The overlap invariant is what the bulk confirmation can cost: on the
    sample store it confirms Bob's cancelled booking beside Carol's. *)
Example BookingAdmin_confirm_sample :
  no_overlapb store3 = true
  /\ no_overlapb (BookingAdmin_confirm_bookings [1] store3) = false
  /\ histories (BookingAdmin_confirm_bookings [1] store3)
     = histories store3.
Proof. repeat split. Qed.

(** A room taken out of service from the admin site is not offered by any
    search and cannot be booked (the booking page answers 404); the bookings
    it already has stay as they are. *)
Theorem deactivated_room_is_hidden (selected : list Z) (s : Store) (pk : Z) :
  mem pk selected = true ->
  let s' := RoomAdmin_deactivate_rooms selected s in
  (forall upper dest a b r,
     room_pk r = pk -> ~ In r (get_available_rooms upper s' dest a b))
  /\ (forall today user ci co,
        createBooking today user pk ci co s' = (s', Http404))
  /\ bookings s' = bookings s
  /\ map room_pk (rooms s') = map room_pk (rooms s).
Proof.
  intros M s'.
  assert (Off : forall r, In r (rooms s') -> room_pk r = pk ->
                          room_is_active r = false).
  { intros r Hr K. unfold s', RoomAdmin_deactivate_rooms in Hr.
    cbn [fst rooms with_rooms] in Hr.
    apply (update_selected_In room_pk selected) in Hr.
    destruct Hr as [x [_ [[_ ->]|[Mx ->]]]]; [reflexivity|].
    rewrite K, M in Mx. discriminate Mx. }
  split; [|split; [|split]].
  - intros upper dest a b r K Hin.
    apply get_available_rooms_In in Hin. destruct Hin as [_ [Hr O]].
    unfold findAvailableRooms_offers in O.
    rewrite (Off r Hr K) in O. discriminate O.
  - intros today user ci co. unfold createBooking, BookingCreateView.
    destruct (find _ (rooms s')) as [r|] eqn:F; [|reflexivity].
    apply find_some in F. destruct F as [Hr P].
    apply andb_true_iff in P. destruct P as [K A]. apply Z.eqb_eq in K.
    rewrite (Off r Hr K) in A. discriminate A.
  - reflexivity.
  - apply (update_selected_keys room_pk selected). reflexivity.
Qed.

Lemma deactivated_room_is_hidden_witness :
  let s' := RoomAdmin_deactivate_rooms [1; 3] store1 in
  (forall upper dest a b r,
     room_pk r = 1 -> ~ In r (get_available_rooms upper s' dest a b))
  /\ (forall today user ci co,
        createBooking today user 1 ci co s' = (s', Http404))
  /\ bookings s' = bookings store1
  /\ map room_pk (rooms s') = map room_pk (rooms store1).
Proof.
  apply (deactivated_room_is_hidden [1; 3] store1 1). reflexivity.
Defined.

(** The role actions of the admin site change the role and nothing else, so
    the superuser flag outlives them: after "make user" a selected account
    is a regular user exactly when it is not a superuser, after "make staff"
    it is staff and it is an administrator exactly when it is a superuser.
    An account made staff or admin can no longer create a booking. *)
Theorem UserAdmin_role_actions (selected : list Z) (users : list User)
    (u : User) :
  In u users -> mem (user_pk u) selected = true ->
  (In (set_role STAFF u) (UserAdmin_make_staff selected users)
   /\ StaffRequired (set_role STAFF u) = true
   /\ AdminRequired (set_role STAFF u) = is_superuser u)
  /\ (In (set_role ADMIN u) (UserAdmin_make_admin selected users)
      /\ AdminRequired (set_role ADMIN u) = true)
  /\ (In (set_role USER u) (UserAdmin_make_user selected users)
      /\ UserRequired (set_role USER u) = negb (is_superuser u))
  /\ (forall ro today room_id ci co s,
        ro = STAFF \/ ro = ADMIN ->
        snd (createBooking today (set_role ro u) room_id ci co s)
        <> RedirectSuccess).
Proof.
  intros Hu M.
  assert (In_upd : forall ro,
            In (set_role ro u)
               (update_selected user_pk selected (set_role ro) users)).
  { intros ro. apply (update_selected_In user_pk selected).
    exists u. split; [exact Hu|]. left. now split. }
  unfold UserAdmin_make_staff, UserAdmin_make_admin, UserAdmin_make_user.
  cbn [fst].
  split; [|split; [|split]].
  - split; [apply In_upd|]. unfold StaffRequired, AdminRequired, is_staff,
      is_admin. simpl. split; reflexivity.
  - split; [apply In_upd|]. reflexivity.
  - split; [apply In_upd|]. unfold UserRequired, is_staff, is_admin. simpl.
    destruct (is_superuser u); reflexivity.
  - intros ro today room_id ci co s Hro.
    assert (U : UserRequired (set_role ro u) = false).
    { unfold UserRequired, is_admin, is_staff.
      destruct Hro as [-> | ->]; simpl; destruct (is_superuser u);
        reflexivity. }
    unfold createBooking, BookingCreateView.
    destruct (find _ (rooms s)); [|discriminate].
    destruct (_ =? _); [discriminate|].
    rewrite U. discriminate.
Qed.

Lemma UserAdmin_role_actions_witness :
  (In (set_role STAFF bob) (UserAdmin_make_staff [2] [alice; bob])
   /\ StaffRequired (set_role STAFF bob) = true
   /\ AdminRequired (set_role STAFF bob) = is_superuser bob)
  /\ (In (set_role ADMIN bob) (UserAdmin_make_admin [2] [alice; bob])
      /\ AdminRequired (set_role ADMIN bob) = true)
  /\ (In (set_role USER bob) (UserAdmin_make_user [2] [alice; bob])
      /\ UserRequired (set_role USER bob) = negb (is_superuser bob))
  /\ (forall ro today room_id ci co s,
        ro = STAFF \/ ro = ADMIN ->
        snd (createBooking today (set_role ro bob) room_id ci co s)
        <> RedirectSuccess).
Proof.
  apply (UserAdmin_role_actions [2] [alice; bob] bob).
  - right. left. reflexivity.
  - reflexivity.
Defined.

(** ** Moderation and what the public sees *)


Lemma save_review_rows (now : Z) (s : Store) (x y : Review) :
  In y (reviews (save_review now s x)) ->
  (y = mkReview (review_pk x) (review_booking x) (review_guest x)
         (review_room x) (rating x) (review_text x) (review_status x)
         (moderated_by x) (moderation_comment x) (moderated_at x)
         (owner_reply x) (owner_reply_at x) now)
  \/ (In y (reviews s) /\ review_pk y <> review_pk x).
Proof.
  unfold save_review. simpl. intros H. apply save_row_In in H.
  destruct H as [[-> _]|H]; [now left | now right].
Qed.

Lemma save_review_holds (now : Z) (s : Store) (x : Review) :
  In (review_pk x) (map review_pk (reviews s)) ->
  In (mkReview (review_pk x) (review_booking x) (review_guest x)
        (review_room x) (rating x) (review_text x) (review_status x)
        (moderated_by x) (moderation_comment x) (moderated_at x)
        (owner_reply x) (owner_reply_at x) now)
     (reviews (save_review now s x)).
Proof.
  intros H. unfold save_review. simpl.
  apply (save_row_holds review_pk). exact H.
Qed.

(** A successful quick moderation decides what the public sees: once
    approved, the review is in the list shown to anonymous visitors and on
    the page of its room, with the moderator and the time recorded; once
    rejected, no list shown to the public holds a review with that key. *)
Theorem quick_moderation_decides_listing (now : Z) (user : User) (pk : Z)
    (action : Action) (s : Store) :
  snd (ReviewQuickModerateView now user pk action s) = RedirectSuccess ->
  let s' := fst (ReviewQuickModerateView now user pk action s) in
  StaffRequired user = true
  /\ (action = Approve ->
      exists r, In r (ReviewListView_get_queryset s' None None)
                /\ In r (RoomDetailView_reviews s' (review_room r))
                /\ review_pk r = pk
                /\ moderated_by r = Some (user_pk user)
                /\ moderated_at r = Some now)
  /\ (action = Reject ->
      forall viewer room r,
        In r (ReviewListView_get_queryset s' None None)
        \/ In r (ReviewListView_get_queryset s' viewer (Some room))
        \/ In r (RoomDetailView_reviews s' room) ->
        review_pk r <> pk).
Proof.
  unfold ReviewQuickModerateView.
  destruct (StaffRequired user); simpl negb; cbv iota; [|discriminate].
  destruct (find _ (reviews s)) as [r0|] eqn:F; [|discriminate].
  apply (find_pk_In review_pk) in F. destruct F as [H0 K0].
  destruct action; cbn [fst snd]; try discriminate; intros _;
    (split; [reflexivity|]); (split; intros Ha; try discriminate Ha).
  - clear Ha.
    exists (mkReview (review_pk r0) (review_booking r0) (review_guest r0)
              (review_room r0) (rating r0) (review_text r0) APPROVED
              (Some (user_pk user)) (moderation_comment r0) (Some now)
              (owner_reply r0) (owner_reply_at r0) now).
    split; [|split; [|repeat split]].
    + unfold ReviewListView_get_queryset, newest_first.
      rewrite order_by_In, filter_In. split; [|reflexivity].
      apply (save_review_holds now s
               (mkReview (review_pk r0) (review_booking r0) (review_guest r0)
                  (review_room r0) (rating r0) (review_text r0) APPROVED
                  (Some (user_pk user)) (moderation_comment r0) (Some now)
                  (owner_reply r0) (owner_reply_at r0)
                  (review_created_at r0))).
      simpl. now apply in_map.
    + unfold RoomDetailView_reviews, newest_first.
      rewrite order_by_In, filter_In. split.
      * apply (save_review_holds now s
               (mkReview (review_pk r0) (review_booking r0) (review_guest r0)
                  (review_room r0) (rating r0) (review_text r0) APPROVED
                  (Some (user_pk user)) (moderation_comment r0) (Some now)
                  (owner_reply r0) (owner_reply_at r0)
                  (review_created_at r0))).
        simpl. now apply in_map.
      * simpl. now rewrite Z.eqb_refl.
    + exact K0.
  - clear Ha. intros viewer room r Hin K.
    assert (St : In r (reviews (save_review now s
                   (mkReview (review_pk r0) (review_booking r0)
                      (review_guest r0) (review_room r0) (rating r0)
                      (review_text r0) REJECTED (Some (user_pk user))
                      (moderation_comment r0) (Some now) (owner_reply r0)
                      (owner_reply_at r0) (review_created_at r0))))
                 /\ review_status r = APPROVED).
    { unfold ReviewListView_get_queryset, RoomDetailView_reviews,
        newest_first in Hin.
      rewrite !order_by_In, !filter_In, !andb_true_iff,
        !ReviewStatus_eqb_eq in Hin. tauto. }
    destruct St as [Hr Ap]. apply save_review_rows in Hr.
    destruct Hr as [->|[_ N]]; [discriminate Ap|].
    apply N. simpl. congruence.
Qed.

Lemma quick_moderation_decides_listing_witness :
  let s' := fst (ReviewQuickModerateView 300 sam 1 Approve store5) in
  StaffRequired sam = true
  /\ (Approve = Approve ->
      exists r, In r (ReviewListView_get_queryset s' None None)
                /\ In r (RoomDetailView_reviews s' (review_room r))
                /\ review_pk r = 1
                /\ moderated_by r = Some (user_pk sam)
                /\ moderated_at r = Some 300)
  /\ (Approve = Reject ->
      forall viewer room r,
        In r (ReviewListView_get_queryset s' None None)
        \/ In r (ReviewListView_get_queryset s' viewer (Some room))
        \/ In r (RoomDetailView_reviews s' room) ->
        review_pk r <> 1).
Proof.
  apply (quick_moderation_decides_listing 300 sam 1 Approve store5).
  reflexivity.
Defined.

(** The bulk moderation of the admin site: every selected review becomes
    visible to anonymous visitors after approval, and none of them is after
    rejection.  Unlike the moderation views, the action records the
    moderator but not the time: no review changes its moderation time or its
    timestamp. *)
Theorem ReviewAdmin_actions (user : User) (selected : list Z) (s : Store) :
  let a := ReviewAdmin_approve_reviews user selected s in
  let j := ReviewAdmin_reject_reviews user selected s in
  (forall r, In r (reviews s) -> mem (review_pk r) selected = true ->
     exists r', In r' (ReviewListView_get_queryset a None None)
                /\ review_pk r' = review_pk r
                /\ moderated_by r' = Some (user_pk user))
  /\ (forall r', In r' (ReviewListView_get_queryset j None None) ->
        mem (review_pk r') selected = false)
  /\ (forall r', In r' (reviews a) \/ In r' (reviews j) ->
        exists r, In r (reviews s) /\ review_pk r' = review_pk r
                  /\ moderated_at r' = moderated_at r
                  /\ review_created_at r' = review_created_at r).
Proof.
  intros a j. subst a j.
  unfold ReviewAdmin_approve_reviews, ReviewAdmin_reject_reviews.
  cbn [fst]. split; [|split].
  - intros r Hr M. exists (set_review_moderation APPROVED user r).
    split; [|split; reflexivity].
    unfold ReviewListView_get_queryset, newest_first.
    rewrite order_by_In, filter_In. split; [|reflexivity].
    simpl. apply (update_selected_In review_pk selected).
    exists r. split; [exact Hr|]. left. now split.
  - intros r' Hin.
    unfold ReviewListView_get_queryset, newest_first in Hin.
    rewrite order_by_In, filter_In, ReviewStatus_eqb_eq in Hin.
    destruct Hin as [Hin Ap]. simpl in Hin.
    apply (update_selected_In review_pk selected) in Hin.
    destruct Hin as [x [_ [[_ ->]|[M ->]]]]; [discriminate Ap | exact M].
  - intros r' [Hin|Hin]; simpl in Hin;
      apply (update_selected_In review_pk selected) in Hin;
      destruct Hin as [x [Hx [[_ ->]|[_ ->]]]]; exists x; repeat split; auto.
Qed.



(** ** Strings *)

Lemma lstrip_head (s : string) :
  lstrip s = EmptyString
  \/ exists c t, lstrip s = String c t /\ isspace c = false.
Proof.
  induction s as [|c t IH]; [now left|]. simpl.
  destruct (isspace c) eqn:E; [exact IH|]. right. eauto.
Qed.

Lemma rstrip_keeps_head (c : ascii) (t : string) :
  isspace c = false -> exists t', rstrip (String c t) = String c t'.
Proof.
  intros E. simpl. destruct (rstrip t); [rewrite E|]; eauto.
Qed.

Lemma rstrip_idem (s : string) : rstrip (rstrip s) = rstrip s.
Proof.
  induction s as [|c t IH]; [reflexivity|]. simpl.
  destruct (rstrip t) as [|d u] eqn:R.
  - destruct (isspace c) eqn:E; [reflexivity|]. simpl. now rewrite E.
  - change (rstrip (String c (String d u)))
      with (match rstrip (String d u) with
            | EmptyString =>
                if isspace c then EmptyString else String c EmptyString
            | t' => String c t'
            end).
    rewrite IH. reflexivity.
Qed.

Lemma lstrip_nonspace_head (c : ascii) (t : string) :
  isspace c = false -> lstrip (String c t) = String c t.
Proof. intros E. simpl. now rewrite E. Qed.

Lemma strip_idem (s : string) : strip (strip s) = strip s.
Proof.
  unfold strip. destruct (lstrip_head s) as [E|[c [t [E Sc]]]]; rewrite E.
  - reflexivity.
  - destruct (rstrip_keeps_head c t Sc) as [t' R]. rewrite R.
    rewrite (lstrip_nonspace_head c t' Sc), <- R. apply rstrip_idem.
Qed.

(** ** The search form *)

(** The search form is valid exactly when the destination is not blank
    (after trimming), is at most 150 characters long and holds no null
    character, the number of guests is from 1 to 8 and the dates satisfy
    today <= check-in < check-out.  Dates it accepts are accepted by the
    booking form, the search of the manager is not cut short by an empty
    destination, and the number of nights shown is the length of the stay. *)
Theorem search_form_valid (today : date) (destination : string)
    (check_in check_out : date) (guests : Z) :
  (AvailabilitySearchForm_errors today destination check_in check_out guests
   = []
   <-> strip destination <> EmptyString
       /\ Z.of_nat (String.length (strip destination)) <= 150
       /\ has_null (strip destination) = false
       /\ 1 <= guests <= 8
       /\ today <= check_in /\ check_in < check_out)
  /\ (AvailabilitySearchForm_errors today destination check_in check_out
        guests = [] ->
      BookingCreateForm_errors today check_in check_out = []
      /\ strip (or_empty (Some (cleaned_destination destination)))
         = strip destination
      /\ strip (or_empty (Some (cleaned_destination destination)))
         <> EmptyString
      /\ SearchResultsView_nights check_in check_out = check_out - check_in
      /\ 1 <= SearchResultsView_nights check_in check_out).
Proof.
  assert (V : AvailabilitySearchForm_errors today destination check_in
                check_out guests = []
              <-> strip destination <> EmptyString
                  /\ Z.of_nat (String.length (strip destination)) <= 150
                  /\ has_null (strip destination) = false
                  /\ 1 <= guests <= 8
                  /\ today <= check_in /\ check_in < check_out).
  { unfold AvailabilitySearchForm_errors, cleaned_destination.
    destruct (strip destination) as [|c t] eqn:S; simpl is_empty; cbv iota.
    - split; [discriminate | intros [N _]; now elim N].
    - destruct (150 <? Z.of_nat (String.length (String c t))) eqn:E1;
        [split; [discriminate | intros [_ [H _]]; apply Z.ltb_lt in E1; lia]|].
      destruct (has_null (String c t)) eqn:E2;
        [split; [discriminate | intros [_ [_ [H _]]]; discriminate H]|].
      destruct (8 <? guests) eqn:E3;
        [split; [discriminate | intros [_ [_ [_ [H _]]]];
                                apply Z.ltb_lt in E3; lia]|].
      destruct (guests <? 1) eqn:E4;
        [split; [discriminate | intros [_ [_ [_ [H _]]]];
                                apply Z.ltb_lt in E4; lia]|].
      destruct (check_in <? today) eqn:E5;
        [split; [discriminate | intros [_ [_ [_ [_ [H _]]]]];
                                apply Z.ltb_lt in E5; lia]|].
      destruct (check_in >=? check_out) eqn:E6;
        [split; [discriminate | intros [_ [_ [_ [_ [_ H]]]]];
                                rewrite Z.geb_leb in E6;
                                apply Z.leb_le in E6; lia]|].
      rewrite Z.geb_leb in E6.
      apply Z.ltb_ge in E1, E3, E4, E5. apply Z.leb_gt in E6.
      split; [intros _ | reflexivity].
      repeat split; try discriminate; lia. }
  split; [exact V|].
  intros E. apply V in E. destruct E as [N [_ [_ [_ [D1 D2]]]]].
  split; [apply BookingCreateForm_valid; lia|].
  unfold cleaned_destination, or_empty. rewrite strip_idem.
  split; [reflexivity|]. split; [exact N|].
  unfold SearchResultsView_nights.
  assert (G : (check_out >? check_in) = true)
    by (rewrite Z.gtb_ltb; apply Z.ltb_lt; lia).
  rewrite G. lia.
Qed.

(** The two forms differ in what they report: for a check-in date that is
    both in the past and not before the check-out date the search form
    reports both faults, the booking form only the first. *)
Example forms_report_differently :
  AvailabilitySearchForm_errors 10 "Kazan" 5 3 2
  = [(F_check_in, E_past); (F_check_out, E_not_later)]
  /\ BookingCreateForm_errors 10 5 3 = [PastCheckIn].
Proof. split; reflexivity. Qed.

(** ** The photo gallery *)

Lemma create_images_app (room : Z) (files : list string)
    (images : list RoomImage) :
  exists added,
    create_images room files images = images ++ added
    /\ map image added = files
    /\ Forall (fun i => image_room i = room) added.
Proof.
  revert images. induction files as [|f fs IH]; intros images; simpl.
  - exists []. rewrite app_nil_r. repeat split. constructor.
  - destruct (IH (images ++ [mkRoomImage (next_pk (map image_pk images))
                               room f])) as [added [E [M F]]].
    exists (mkRoomImage (next_pk (map image_pk images)) room f :: added).
    rewrite E, <- app_assoc. simpl. rewrite M.
    repeat split. constructor; [reflexivity | exact F].
Qed.

Lemma create_images_pks (room : Z) (files : list string)
    (images : list RoomImage) :
  NoDup (map image_pk images) ->
  NoDup (map image_pk (create_images room files images)).
Proof.
  revert images. induction files as [|f fs IH]; intros images N; simpl.
  - exact N.
  - apply IH. rewrite map_app. simpl.
    apply NoDup_app; [exact N | repeat constructor; intros [] |].
    intros pk Hin [<-|[]]. exact (next_pk_fresh _ Hin).
Qed.

Lemma room_images_added (room r : Z) (added : list RoomImage) :
  Forall (fun i => image_room i = room) added ->
  room_images r added = if room =? r then added else [].
Proof.
  unfold room_images. induction 1 as [|i l Hi _ IH]; simpl.
  - now destruct (room =? r).
  - rewrite Hi, IH. now destruct (room =? r).
Qed.

Lemma slice_to_length {A : Type} (n : Z) (l : list A) :
  0 <= n ->
  Z.of_nat (List.length (slice_to n l)) = Z.min (Z.of_nat (List.length l)) n.
Proof.
  intros H. unfold slice_to.
  destruct (n <? 0) eqn:E; [apply Z.ltb_lt in E; lia|].
  rewrite length_firstn. lia.
Qed.

Lemma all_photos_length (room_photo : option string) (room : Z)
    (images : list RoomImage) :
  Z.of_nat (List.length (RoomDetailView_all_photos room_photo room images))
  = Z.of_nat (List.length (room_images room images))
    + (if has_photo room_photo then 1 else 0).
Proof.
  unfold RoomDetailView_all_photos. rewrite length_app, length_map.
  destruct room_photo; simpl; lia.
Qed.

Lemma gallery_after_create (room : Z) (files : list string)
    (images : list RoomImage) :
  Z.of_nat (List.length (room_images room (create_images room files images)))
  = Z.of_nat (List.length (room_images room images))
    + Z.of_nat (List.length files)
  /\ (forall r, r <> room ->
        room_images r (create_images room files images)
        = room_images r images).
Proof.
  destruct (create_images_app room files images) as [added [E [M F]]].
  rewrite E. unfold room_images at 1. rewrite filter_app, length_app.
  fold (room_images room images). fold (room_images room added).
  rewrite (room_images_added room room added F), Z.eqb_refl.
  rewrite <- M, length_map. split; [lia|].
  intros r Hr. unfold room_images at 1. rewrite filter_app.
  fold (room_images r images). fold (room_images r added).
  rewrite (room_images_added room r added F).
  destruct (room =? r) eqn:Q; [apply Z.eqb_eq in Q; congruence|].
  apply app_nil_r.
Qed.

(** A room that is created with gallery files never shows more than five
    photos: with its main photo (if any) at most four gallery files are
    stored, without one at most five; the files stored are the first ones
    uploaded, in order, and the detail page reports no extra photo. *)
Theorem gallery_of_new_room (room_photo : option string) (room : Z)
    (gallery_files : list string) (images : list RoomImage)
    (Hnew : room_images room images = []) :
  let images' :=
    RoomCreateView_save_gallery_images room_photo room gallery_files images in
  let slots := 5 - (if has_photo room_photo then 1 else 0) in
  map image (room_images room images')
  = firstn (Z.to_nat slots) gallery_files
  /\ Z.of_nat (List.length
                 (RoomDetailView_all_photos room_photo room images')) <= 5
  /\ RoomDetailView_extra_photos_count room_photo room images' = 0
  /\ (forall r, r <> room -> room_images r images' = room_images r images).
Proof.
  cbv zeta. unfold RoomCreateView_save_gallery_images, MAX_GALLERY_PHOTOS.
  set (slots := 5 - (if has_photo room_photo then 1 else 0)).
  assert (Hs : 0 <= slots) by (unfold slots; destruct (has_photo room_photo); lia).
  assert (Sl : slice_to slots gallery_files
               = firstn (Z.to_nat slots) gallery_files).
  { unfold slice_to. destruct (slots <? 0) eqn:E;
      [apply Z.ltb_lt in E; lia | reflexivity]. }
  destruct (gallery_after_create room (slice_to slots gallery_files) images)
    as [L O].
  assert (Hlen : Z.of_nat (List.length
                   (RoomDetailView_all_photos room_photo room
                      (create_images room (slice_to slots gallery_files)
                         images))) <= 5).
  { rewrite all_photos_length, L, Hnew, (slice_to_length _ _ Hs).
    simpl List.length. unfold slots. destruct (has_photo room_photo); lia. }
  split; [|split; [exact Hlen | split; [|exact O]]].
  - destruct (create_images_app room (slice_to slots gallery_files) images)
      as [added [E [M F]]].
    rewrite E. unfold room_images at 1. rewrite filter_app.
    fold (room_images room images). fold (room_images room added).
    rewrite Hnew, (room_images_added room room added F), Z.eqb_refl.
    simpl. rewrite M. exact Sl.
  - unfold RoomDetailView_extra_photos_count. lia.
Qed.

Lemma gallery_of_new_room_witness :
  room_images 7 [mkRoomImage 1 3 "a.jpg"%string] = []
  /\ map image
       (room_images 7
          (RoomCreateView_save_gallery_images (Some "main.jpg"%string) 7
             ["1.jpg"%string; "2.jpg"%string; "3.jpg"%string; "4.jpg"%string; "5.jpg"%string; "6.jpg"%string]
             [mkRoomImage 1 3 "a.jpg"%string]))
     = ["1.jpg"%string; "2.jpg"%string; "3.jpg"%string; "4.jpg"%string].
Proof.
  split; [reflexivity|].
  exact (proj1 (gallery_of_new_room (Some "main.jpg"%string) 7
                  ["1.jpg"%string; "2.jpg"%string; "3.jpg"%string; "4.jpg"%string; "5.jpg"%string; "6.jpg"%string]
                  [mkRoomImage 1 3 "a.jpg"%string] eq_refl)).
Defined.

(** Updating a room adds gallery files only up to the free slots: the
    number of photos of the room grows by min(files, max(0, 5 - photos
    before)), so it never exceeds the larger of five and what it was; a room
    that is full keeps its gallery as it is; the photos of other rooms are
    untouched; and a room that had at most five photos shows no extra
    photo. *)
Theorem gallery_update_is_capped (room_photo : option string) (room : Z)
    (gallery_files : list string) (images : list RoomImage) :
  let images' :=
    update_room_view_gallery room_photo room gallery_files images in
  let photos (l : list RoomImage) :=
    Z.of_nat (List.length (RoomDetailView_all_photos room_photo room l)) in
  photos images'
  = photos images
    + Z.min (Z.of_nat (List.length gallery_files))
            (Z.max 0 (5 - photos images))
  /\ photos images' <= Z.max 5 (photos images)
  /\ (5 <= photos images -> images' = images)
  /\ (photos images <= 5 ->
      RoomDetailView_extra_photos_count room_photo room images' = 0)
  /\ (forall r, r <> room -> room_images r images' = room_images r images)
  /\ (exists added, images' = images ++ added
                    /\ Forall (fun i => image_room i = room) added).
Proof.
  cbv zeta. unfold update_room_view_gallery, MAX_GALLERY_PHOTOS.
  rewrite !all_photos_length.
  set (total := Z.of_nat (List.length (room_images room images))
                + (if has_photo room_photo then 1 else 0)).
  set (slots := Z.max 0 (5 - total)).
  assert (Hs : 0 <= slots) by (unfold slots; lia).
  destruct (gallery_after_create room (slice_to slots gallery_files) images)
    as [L O].
  rewrite L, (slice_to_length _ _ Hs).
  assert (T : Z.of_nat (List.length (room_images room images)) +
              Z.min (Z.of_nat (List.length gallery_files)) slots +
              (if has_photo room_photo then 1 else 0)
              = total + Z.min (Z.of_nat (List.length gallery_files)) slots)
    by (unfold total; lia).
  split; [exact T|]. split; [unfold slots in *; lia|].
  split; [|split; [|split; [exact O|]]].
  - intros F. assert (Z0 : slots = 0) by (unfold slots; lia).
    rewrite Z0. unfold slice_to. simpl. reflexivity.
  - intros F. unfold RoomDetailView_extra_photos_count.
    rewrite all_photos_length, L, (slice_to_length _ _ Hs).
    unfold slots in *. lia.
  - destruct (create_images_app room (slice_to slots gallery_files) images)
      as [added [E [_ F]]]. exists added. split; assumption.
Qed.

(** The cap counts the main photo only when it is there: a room created
    with five gallery files and no main photo, and given a main photo later,
    has six photos and the detail page reports one extra. *)
Example gallery_six_photos :
  let images :=
    RoomCreateView_save_gallery_images None 7
      ["1.jpg"%string; "2.jpg"%string; "3.jpg"%string; "4.jpg"%string; "5.jpg"%string] [] in
  let images' := update_room_view_gallery (Some "main.jpg"%string) 7 [] images in
  RoomDetailView_extra_photos_count None 7 images = 0
  /\ List.length (RoomDetailView_all_photos (Some "main.jpg"%string) 7 images')
     = 6%nat
  /\ RoomDetailView_extra_photos_count (Some "main.jpg"%string) 7 images' = 1.
Proof. repeat split. Qed.

(** ** Amenities *)

Section AllChars.
Variable P : ascii -> bool.

Lemma all_chars_cons (c : ascii) (t : string) :
  all_chars P (String c t) = true <-> P c = true /\ all_chars P t = true.
Proof. change (all_chars P (String c t)) with (P c && all_chars P t).
  apply andb_true_iff. Qed.

Lemma all_chars_lstrip (s : string) :
  all_chars P s = true -> all_chars P (lstrip s) = true.
Proof.
  induction s as [|c t IH]; [auto|]. intros H.
  change (lstrip (String c t))
    with (if isspace c then lstrip t else String c t).
  destruct (isspace c); [|exact H].
  apply all_chars_cons in H. apply IH, H.
Qed.

Lemma all_chars_rstrip (s : string) :
  all_chars P s = true -> all_chars P (rstrip s) = true.
Proof.
  induction s as [|c t IH]; [auto|]. intros H.
  apply all_chars_cons in H. destruct H as [Hc Ht]. specialize (IH Ht).
  change (rstrip (String c t))
    with (match rstrip t with
          | EmptyString =>
              if isspace c then EmptyString else String c EmptyString
          | t' => String c t'
          end).
  destruct (rstrip t) as [|d u].
  - destruct (isspace c); [reflexivity|].
    apply all_chars_cons. split; [exact Hc | reflexivity].
  - apply all_chars_cons. split; assumption.
Qed.

Lemma all_chars_strip (s : string) :
  all_chars P s = true -> all_chars P (strip s) = true.
Proof. intros H. apply all_chars_rstrip, all_chars_lstrip, H. Qed.

End AllChars.

Lemma re_split_cons (b : bool) (c : ascii) (t : string) :
  re_split b (String c t)
  = if is_separator c then
      if b then re_split true t else EmptyString :: re_split true t
    else match re_split false t with
         | [] => [String c EmptyString]
         | p :: ps => String c p :: ps
         end.
Proof. reflexivity. Qed.

Lemma splitlines_cons (c : ascii) (t : string) :
  splitlines (String c t)
  = if is_linebreak c then
      EmptyString ::
      match t with
      | String c2 t2 =>
          if Ascii.eqb c "013" && Ascii.eqb c2 "010"
          then splitlines t2 else splitlines t
      | EmptyString => []
      end
    else match splitlines t with
         | [] => [String c EmptyString]
         | l :: ls => String c l :: ls
         end.
Proof. reflexivity. Qed.

Lemma no_separator_cons (c : ascii) (t : string) :
  no_separator (String c t) = true
  <-> is_separator c = false /\ no_separator t = true.
Proof.
  unfold no_separator. rewrite all_chars_cons, negb_true_iff. reflexivity.
Qed.

Lemma no_linebreak_cons (c : ascii) (t : string) :
  no_linebreak (String c t) = true
  <-> is_linebreak c = false /\ no_linebreak t = true.
Proof.
  unfold no_linebreak. rewrite all_chars_cons, negb_true_iff. reflexivity.
Qed.

(** The pieces of a split hold no separator and only characters of the
    string that was split. *)
Lemma re_split_pieces (P : ascii -> bool) (s : string) :
  forall (b : bool) (p : string),
    In p (re_split b s) ->
    no_separator p = true
    /\ (all_chars P s = true -> all_chars P p = true).
Proof.
  induction s as [|c t IH]; intros b p H.
  - destruct H as [<-|[]]. split; [reflexivity | auto].
  - rewrite re_split_cons in H. destruct (is_separator c) eqn:Sc.
    + assert (H' : In p (re_split true t) \/ p = EmptyString).
      { destruct b; [left; exact H|].
        destruct H as [<-|H]; [right; reflexivity | left; exact H]. }
      destruct H' as [H'| ->]; [|split; [reflexivity | auto]].
      destruct (IH _ _ H') as [N Q]. split; [exact N|].
      intros A. apply all_chars_cons in A. apply Q, A.
    + destruct (re_split false t) as [|q qs] eqn:R.
      * destruct H as [<-|[]]. split.
        -- apply no_separator_cons. split; [exact Sc | reflexivity].
        -- intros A. apply all_chars_cons in A. apply all_chars_cons.
           split; [apply A | reflexivity].
      * destruct H as [<-|H].
        -- destruct (IH false q) as [N Q]; [rewrite R; now left|]. split.
           ++ apply no_separator_cons. split; assumption.
           ++ intros A. apply all_chars_cons in A. apply all_chars_cons.
              split; [apply A | apply Q, A].
        -- destruct (IH false p) as [N Q]; [rewrite R; now right|].
           split; [exact N|]. intros A. apply all_chars_cons in A.
           apply Q, A.
Qed.

(** The lines of [splitlines] hold no line break. *)
Lemma splitlines_pieces (s : string) :
  (forall p, In p (splitlines s) -> no_linebreak p = true)
  /\ (forall c p, In p (splitlines (String c s)) -> no_linebreak p = true).
Proof.
  induction s as [|d u [A B]].
  - split; [intros p []|]. intros c p H. rewrite splitlines_cons in H.
    destruct (is_linebreak c) eqn:L.
    + destruct H as [<-|[]]. reflexivity.
    + destruct H as [<-|[]]. apply no_linebreak_cons. now split.
  - split; [apply B|]. intros c p H. rewrite splitlines_cons in H.
    destruct (is_linebreak c) eqn:L.
    + destruct H as [<-|H]; [reflexivity|].
      destruct (Ascii.eqb c "013" && Ascii.eqb d "010");
        [apply A | apply (B d)]; exact H.
    + destruct (splitlines (String d u)) as [|l ls] eqn:R.
      * destruct H as [<-|[]]. apply no_linebreak_cons. now split.
      * destruct H as [<-|H].
        -- apply no_linebreak_cons. split; [exact L|].
           apply (B d). rewrite R. now left.
        -- apply (B d). rewrite R. now right.
Qed.

Lemma is_empty_false (s : string) : is_empty s = false <-> s <> EmptyString.
Proof. destruct s; simpl; split; congruence. Qed.

Lemma stripped_items_spec (parts : list string) (x : string) :
  In x (stripped_items parts) ->
  exists p, In p parts /\ x = strip p /\ x <> EmptyString.
Proof.
  unfold stripped_items. intros H. apply in_map_iff in H.
  destruct H as [p [<- H]]. apply filter_In in H. destruct H as [Hp N].
  exists p. repeat split; [exact Hp|].
  apply is_empty_false. now apply negb_true_iff.
Qed.

Lemma stripped_items_fixed (items : list string) :
  (forall x, In x items -> x <> EmptyString /\ strip x = x) ->
  stripped_items items = items.
Proof.
  unfold stripped_items. induction items as [|a l IH]; intros H;
    [reflexivity|].
  destruct (H a (or_introl eq_refl)) as [N S]. simpl. rewrite S.
  apply is_empty_false in N. rewrite N. simpl. f_equal; [exact S|].
  apply IH. intros x Hx. apply H. now right.
Qed.

Lemma normalized_items (raw x : string) :
  In x (clean_amenities_normalized raw) ->
  x <> EmptyString /\ strip x = x /\ no_separator x = true.
Proof.
  intros H. apply stripped_items_spec in H. destruct H as [p [Hp [-> N]]].
  split; [exact N|]. split; [apply strip_idem|].
  apply all_chars_strip.
  exact (proj1 (re_split_pieces (fun _ => true) raw false p Hp)).
Qed.

Lemma join_lines_cons2 (x y : string) (r : list string) :
  join_lines (x :: y :: r)
  = (x ++ String "010" (join_lines (y :: r)))%string.
Proof. reflexivity. Qed.

Lemma join_lines_empty (items : list string) :
  (forall x, In x items -> x <> EmptyString) ->
  join_lines items = EmptyString -> items = [].
Proof.
  destruct items as [|x [|y r]]; intros H E; [reflexivity| |].
  - simpl in E. elim (H x (or_introl eq_refl) E).
  - rewrite join_lines_cons2 in E. destruct x; [|discriminate E].
    now elim (H EmptyString (or_introl eq_refl)).
Qed.

Lemma re_split_whole (y : string) :
  no_separator y = true -> re_split false y = [y].
Proof.
  induction y as [|c t IH]; [reflexivity|]. intros H.
  apply no_separator_cons in H. destruct H as [Sc Ht].
  rewrite re_split_cons, Sc, (IH Ht). reflexivity.
Qed.

Lemma re_split_line (y r : string) :
  no_separator y = true ->
  re_split false (y ++ String "010" r) = y :: re_split true r.
Proof.
  induction y as [|c t IH]; [reflexivity|]. intros H.
  apply no_separator_cons in H. destruct H as [Sc Ht].
  change (String c t ++ String "010" r)%string
    with (String c (t ++ String "010" r)).
  rewrite re_split_cons, Sc, (IH Ht). reflexivity.
Qed.

Lemma re_split_join (items : list string) :
  items <> [] ->
  (forall x, In x items -> x <> EmptyString /\ no_separator x = true) ->
  forall b, re_split b (join_lines items) = items.
Proof.
  induction items as [|x rest IH]; [congruence|]. intros _ H b.
  destruct (H x (or_introl eq_refl)) as [N S].
  destruct x as [|c t]; [now elim N|].
  apply no_separator_cons in S. destruct S as [Sc St].
  destruct rest as [|y r].
  - simpl join_lines. rewrite re_split_cons, Sc, (re_split_whole t St).
    reflexivity.
  - rewrite join_lines_cons2.
    change (String c t ++ String "010" (join_lines (y :: r)))%string
      with (String c (t ++ String "010" (join_lines (y :: r)))).
    rewrite re_split_cons, Sc, (re_split_line t _ St).
    rewrite (IH ltac:(discriminate)
                (fun z Hz => H z (or_intror Hz)) true).
    reflexivity.
Qed.

Lemma splitlines_whole (y : string) :
  no_linebreak y = true ->
  splitlines y = match y with EmptyString => [] | _ => [y] end.
Proof.
  induction y as [|c t IH]; [reflexivity|]. intros H.
  apply no_linebreak_cons in H. destruct H as [Lc Lt].
  rewrite splitlines_cons, Lc, (IH Lt). now destruct t.
Qed.

Lemma splitlines_line (y r : string) :
  no_linebreak y = true ->
  splitlines (y ++ String "010" r) = y :: splitlines r.
Proof.
  induction y as [|c t IH]; intros H.
  - destruct r; reflexivity.
  - apply no_linebreak_cons in H. destruct H as [Lc Lt].
    change (String c t ++ String "010" r)%string
      with (String c (t ++ String "010" r)).
    rewrite splitlines_cons, Lc, (IH Lt). reflexivity.
Qed.

Lemma splitlines_join (items : list string) :
  (forall x, In x items -> x <> EmptyString /\ no_linebreak x = true) ->
  splitlines (join_lines items) = items.
Proof.
  induction items as [|x rest IH]; [reflexivity|]. intros H.
  destruct (H x (or_introl eq_refl)) as [N L].
  destruct rest as [|y r].
  - simpl join_lines. rewrite (splitlines_whole x L).
    destruct x; [now elim N | reflexivity].
  - rewrite join_lines_cons2, (splitlines_line x _ L).
    rewrite (IH (fun z Hz => H z (or_intror Hz))). reflexivity.
Qed.

Lemma normalized_of_clean (raw : string) :
  clean_amenities_normalized (clean_amenities raw)
  = clean_amenities_normalized raw.
Proof.
  unfold clean_amenities. destruct raw as [|c t]; [reflexivity|].
  simpl is_empty. cbv iota.
  set (raw := String c t).
  destruct (clean_amenities_normalized raw) as [|x l] eqn:E;
    [reflexivity|].
  assert (I : forall z, In z (x :: l) ->
                z <> EmptyString /\ strip z = z /\ no_separator z = true).
  { intros z Hz. apply (normalized_items raw). rewrite E. exact Hz. }
  unfold clean_amenities_normalized at 1.
  rewrite re_split_join;
    [| discriminate | intros z Hz; destruct (I z Hz) as [? [? ?]]; now split].
  apply stripped_items_fixed. intros z Hz.
  destruct (I z Hz) as [? [? ?]]. now split.
Qed.

(** Normalising amenities is idempotent: what [clean_amenities] returns is
    left as it is by a second pass (an edit form that is saved unchanged
    keeps the stored text), its entries are not blank, carry no surrounding
    whitespace and hold neither a comma nor a newline. *)
Theorem clean_amenities_idempotent (raw : string) :
  clean_amenities (clean_amenities raw) = clean_amenities raw
  /\ clean_amenities raw = join_lines (clean_amenities_normalized raw)
  /\ (forall x, In x (clean_amenities_normalized raw) ->
        x <> EmptyString /\ strip x = x /\ no_separator x = true).
Proof.
  assert (J : clean_amenities raw
              = join_lines (clean_amenities_normalized raw)).
  { unfold clean_amenities. destruct raw; reflexivity. }
  split; [|split; [exact J | apply normalized_items]].
  unfold clean_amenities at 1.
  destruct (is_empty (clean_amenities raw)) eqn:E.
  - destruct (clean_amenities raw); [reflexivity | discriminate E].
  - rewrite normalized_of_clean. symmetry. exact J.
Qed.

(** The entries of [amenities_list] are never blank, carry no surrounding
    whitespace and hold no line break, whatever text the column holds. *)
Theorem amenities_list_entries (amenities x : string) :
  In x (amenities_list amenities) ->
  x <> EmptyString /\ strip x = x /\ no_linebreak x = true.
Proof.
  unfold amenities_list. destruct (is_empty amenities); [intros []|].
  intros H. apply stripped_items_spec in H. destruct H as [p [Hp [-> N]]].
  split; [exact N|]. split; [apply strip_idem|].
  apply all_chars_strip. exact (proj1 (splitlines_pieces amenities) p Hp).
Qed.

Lemma amenities_list_entries_witness :
  In "Pool"%string
    (amenities_list (" Wi-Fi , x" ++ String "010" "  Pool "))
  /\ strip "Pool" = "Pool"%string.
Proof.
  split; [right; left; reflexivity|].
  exact (proj1 (proj2 (amenities_list_entries
    (" Wi-Fi , x" ++ String "010" "  Pool ") "Pool"
    (or_intror (or_introl eq_refl))))).
Defined.

(** Round trip of the room form and the room page: when no normalised
    entry holds a line break, the list the page shows is exactly the list
    of entries the form normalised, in the same order. *)
Theorem amenities_round_trip (raw : string)
    (H : forallb no_linebreak (clean_amenities_normalized raw) = true) :
  amenities_list (clean_amenities raw) = clean_amenities_normalized raw.
Proof.
  rewrite forallb_forall in H.
  assert (I : forall x, In x (clean_amenities_normalized raw) ->
                x <> EmptyString /\ strip x = x /\ no_separator x = true)
    by apply normalized_items.
  assert (J : clean_amenities raw
              = join_lines (clean_amenities_normalized raw)).
  { unfold clean_amenities. destruct raw; reflexivity. }
  unfold amenities_list. rewrite J.
  destruct (is_empty (join_lines (clean_amenities_normalized raw))) eqn:E.
  - symmetry. apply join_lines_empty; [intros x Hx; apply (I x Hx)|].
    destruct (join_lines (clean_amenities_normalized raw));
      [reflexivity | discriminate E].
  - rewrite splitlines_join;
      [| intros x Hx; split; [apply (I x Hx) | apply (H x Hx)]].
    apply stripped_items_fixed. intros x Hx.
    destruct (I x Hx) as [? [? ?]]. now split.
Qed.

Lemma amenities_round_trip_witness :
  forallb no_linebreak
    (clean_amenities_normalized
       ("Wi-Fi, " ++ String "013" (String "010" " Pool ,,Bar,")))
  = true
  /\ amenities_list
       (clean_amenities
          ("Wi-Fi, " ++ String "013" (String "010" " Pool ,,Bar,")))
     = ["Wi-Fi"; "Pool"; "Bar"]%string.
Proof.
  split; [reflexivity|].
  rewrite (amenities_round_trip
             ("Wi-Fi, " ++ String "013" (String "010" " Pool ,,Bar,"))
             eq_refl).
  reflexivity.
Defined.

(** Without the condition the round trip fails: the form splits at commas
    and newlines only, the page at every line break, so an entry with a bare
    carriage return is one entry for the form and two on the page. *)
Example amenities_bare_carriage_return :
  let raw := ("a" ++ String "013" "b")%string in
  clean_amenities_normalized raw = [raw]
  /\ amenities_list (clean_amenities raw) = ["a"; "b"]%string.
Proof. split; reflexivity. Qed.

(** ** The middleware *)

Lemma match_prefix_spec (l s rest : string) :
  match_prefix l s = Some rest -> s = (l ++ rest)%string.
Proof.
  revert s. induction l as [|a l IH]; intros s H.
  - simpl in H. now inversion H.
  - destruct s as [|b s]; [discriminate H|]. simpl in H.
    destruct (Ascii.eqb a b) eqn:E; [|discriminate H].
    apply Ascii.eqb_eq in E. subst b. simpl. f_equal. now apply IH.
Qed.

Lemma re_match_lit (l : string) (p : Pattern) (s : string) :
  re_match (Lit l :: p) s = true ->
  exists rest, s = (l ++ rest)%string /\ re_match p rest = true.
Proof.
  simpl. destruct (match_prefix l s) as [rest|] eqn:E; [|discriminate].
  intros H. exists rest. split; [now apply match_prefix_spec | exact H].
Qed.

(** When what follows the digits cannot itself start with a digit, the run
    of digits ends in one place only. *)
Lemma digits_then_skip (k : string -> bool) :
  (forall c t, is_digit c = true -> k (String c t) = false) ->
  forall s,
    digits_then k s
    = match s with
      | String c t => is_digit c && k (skip_digits t)
      | EmptyString => false
      end.
Proof.
  intros Hk. induction s as [|c t IH]; [reflexivity|].
  change (digits_then k (String c t))
    with (is_digit c && (digits_then k t || k t)).
  f_equal. rewrite IH. destruct t as [|c' t']; [reflexivity|].
  change (skip_digits (String c' t'))
    with (if is_digit c' then skip_digits t' else String c' t').
  destruct (is_digit c') eqn:D.
  - rewrite (Hk c' t' D). simpl. apply orb_false_r.
  - reflexivity.
Qed.

Lemma slash_is_no_digit (l : string) (p : Pattern) (c : ascii) (t : string) :
  is_digit c = true ->
  re_match (Lit (String "/" l) :: p) (String c t) = false.
Proof.
  intros D.
  change (re_match (Lit (String "/" l) :: p) (String c t))
    with (match (if Ascii.eqb "/" c then match_prefix l t else None) with
          | Some rest => re_match p rest
          | None => false
          end).
  destruct (Ascii.eqb "/" c) eqn:E; [|reflexivity].
  apply Ascii.eqb_eq in E. subst c. cbv in D. discriminate D.
Qed.

Lemma room_digits_not_public (l s : string) :
  digits_then (re_match [Lit (String "/" (String "u" l))]) s = true
  \/ digits_then (re_match [Lit (String "/" (String "d" l))]) s = true ->
  digits_then (re_match [Lit "/"; EndOfString]) s = false.
Proof.
  rewrite !digits_then_skip by (intros; now apply slash_is_no_digit).
  destruct s as [|c t]; [reflexivity|].
  destruct (is_digit c); [|reflexivity]. rewrite !andb_true_l.
  intros [H|H]; apply re_match_lit in H; destruct H as [rest [-> _]];
    reflexivity.
Qed.

(** A user-only path is neither public nor in the admin or moderation
    area. *)
Lemma user_only_is_guarded (path : string) :
  matches_any path USER_ONLY_URLS = true ->
  matches_any path PUBLIC_URLS = false
  /\ matches_any path ADMIN_REQUIRED_URLS = false
  /\ matches_any path STAFF_REQUIRED_URLS = false.
Proof.
  unfold matches_any, USER_ONLY_URLS.
  cbn [existsb]. rewrite !orb_true_iff.
  intros [H|[H|[H|[H|[H|[H|[H|[H|[H|H]]]]]]]]];
    try discriminate H;
    apply re_match_lit in H; destruct H as [rest [-> H]];
    try (repeat split; reflexivity).
  - repeat split; try reflexivity.
    unfold PUBLIC_URLS. cbn [existsb].
    change (re_match [Lit "/room/"; Digits; Lit "/"; EndOfString]
              ("/room/" ++ rest))
      with (digits_then (re_match [Lit "/"; EndOfString]) rest).
    rewrite (room_digits_not_public "pdate/" rest); [reflexivity|].
    left. exact H.
  - repeat split; try reflexivity.
    unfold PUBLIC_URLS. cbn [existsb].
    change (re_match [Lit "/room/"; Digits; Lit "/"; EndOfString]
              ("/room/" ++ rest))
      with (digits_then (re_match [Lit "/"; EndOfString]) rest).
    rewrite (room_digits_not_public "elete/" rest); [reflexivity|].
    right. exact H.
Qed.

Lemma admin_area_is_public (path : string) :
  matches_any path PUBLIC_URLS = false ->
  matches_any path ADMIN_REQUIRED_URLS = false.
Proof.
  unfold matches_any, PUBLIC_URLS, ADMIN_REQUIRED_URLS. cbn [existsb].
  intros H. repeat (apply orb_false_elim in H; destruct H as [? H]).
  rewrite orb_false_r. assumption.
Qed.

Lemma staff_flags (u : User) :
  is_admin u || is_staff u || is_superuser u = is_staff u.
Proof.
  unfold is_admin, is_staff. destruct (role u), (is_superuser u); reflexivity.
Qed.

(** On a user-only path (creating, changing or deleting a room, a booking
    or a review) a visitor who is not signed in is sent to the login page
    with the path as [next], staff and administrators get the 403 page that
    asks for a regular user, and everyone else passes. *)
Theorem middleware_user_only_paths (path : string)
    (H : matches_any path USER_ONLY_URLS = true) :
  RoleRequiredMiddleware None path = RedirectToLogin path
  /\ (forall u,
        RoleRequiredMiddleware (Some u) path
        = if is_staff u then Status403 R_user else GetResponse).
Proof.
  destruct (user_only_is_guarded path H) as [P [A S]].
  unfold RoleRequiredMiddleware. rewrite P, A, S, H. split.
  - now rewrite !orb_true_r.
  - intros u. simpl. rewrite staff_flags. reflexivity.
Qed.

Lemma middleware_user_only_paths_witness :
  matches_any "/booking/room/12/create/" USER_ONLY_URLS = true
  /\ RoleRequiredMiddleware None "/booking/room/12/create/"
     = RedirectToLogin "/booking/room/12/create/"
  /\ RoleRequiredMiddleware (Some sam) "/booking/room/12/create/"
     = Status403 R_user.
Proof.
  split; [reflexivity|].
  destruct (middleware_user_only_paths "/booking/room/12/create/" eq_refl)
    as [A B].
  split; [exact A | exact (B sam)].
Defined.

(** A regular user is stopped by the middleware at the moderation area and
    nowhere else. *)
Theorem middleware_regular_user (u : User) (path : string)
    (H : UserRequired u = true) :
  RoleRequiredMiddleware (Some u) path
  = if re_match [Lit "/moderation/"] path
    then Status403 R_staff else GetResponse.
Proof.
  unfold UserRequired in H. apply andb_true_iff in H. destruct H as [H Su].
  apply andb_true_iff in H. destruct H as [Ad St].
  unfold RoleRequiredMiddleware.
  destruct (re_match [Lit "/moderation/"] path) eqn:M.
  - apply re_match_lit in M. destruct M as [rest [-> _]].
    change (matches_any ("/moderation/" ++ rest) PUBLIC_URLS) with false.
    change (matches_any ("/moderation/" ++ rest) ADMIN_REQUIRED_URLS)
      with false.
    change (matches_any ("/moderation/" ++ rest) STAFF_REQUIRED_URLS)
      with true.
    cbv iota. rewrite St. reflexivity.
  - destruct (matches_any path PUBLIC_URLS) eqn:P; [reflexivity|].
    rewrite (admin_area_is_public path P).
    assert (S : matches_any path STAFF_REQUIRED_URLS = false).
    { unfold matches_any, STAFF_REQUIRED_URLS. cbn [existsb].
      rewrite M. reflexivity. }
    rewrite S. apply negb_true_iff in Ad, St, Su. rewrite Ad, St, Su.
    simpl. now rewrite andb_false_r.
Qed.

Lemma middleware_regular_user_witness :
  UserRequired bob = true
  /\ RoleRequiredMiddleware (Some bob) "/moderation/reviews/"
     = Status403 R_staff
  /\ RoleRequiredMiddleware (Some bob) "/booking/3/confirm/" = GetResponse.
Proof.
  split; [reflexivity|]. split.
  - exact (middleware_regular_user bob "/moderation/reviews/" eq_refl).
  - exact (middleware_regular_user bob "/booking/3/confirm/" eq_refl).
Defined.

(** The middleware never asks for an administrator: every path of the
    admin area is public to it, so it lets such a request through whoever
    sends it, and its test of [is_admin] never decides. *)
Theorem middleware_admin_area_is_open (user : option User) (path : string) :
  (re_match [Lit "/admin/"] path = true ->
   RoleRequiredMiddleware user path = GetResponse)
  /\ RoleRequiredMiddleware user path <> Status403 R_admin.
Proof.
  split.
  - intros M. apply re_match_lit in M. destruct M as [rest [-> _]].
    reflexivity.
  - unfold RoleRequiredMiddleware.
    destruct (matches_any path PUBLIC_URLS) eqn:P; [discriminate|].
    rewrite (admin_area_is_public path P).
    destruct user as [u|]; rewrite ?andb_false_l;
      repeat match goal with
             | |- (if ?b then _ else _) <> _ => destruct b
             end; discriminate.
Qed.
